(** * Inventory control: stock classification, aggregates and action handlers

    A shallow embedding of the three React components of the repository
    (Reports, Dashboard and AddProduct) together with the properties their
    specification states about them.

    Numbers.  A TypeScript [number] is an IEEE-754 binary64 value.  The
    stock counts [quantity] and [reorderLevel] are integers in the data
    model and are carried as [Z]: a comparison of two integral numbers
    is exact in binary64, and so is a doubling short of overflow.  The
    product
    [reorderLevel * 1.5] is not once the reorder level passes 2^53 / 3,
    so the "Medium" test is computed in binary64, as are prices, the
    inventory value and the stock-health percentage: with the kernel's
    floats ([PrimFloat]), operation by operation as the source writes
    them.  Lemma [counts_exact_in_binary64] relates the two below 2^51.

    Text.  A string is carried as the bytes of its UTF-8 encoding.

    Events.  A handler is the body of an [async] function; a click runs
    it up to its [await], the settlement of the awaited call resumes it.
    State updates are taken to be rendered between two events. *)

From Stdlib Require Import ZArith QArith Qround List String Ascii Bool Lia Floats Permutation DecimalString.
From Stdlib Require DecimalPos DecimalFacts.
Import ListNotations.

Open Scope Z_scope.

(* ================================================================== *)
(** * JavaScript numbers *)

(** The binary64 value of an integer (round to nearest, ties to even). *)
Definition Z2F (z : Z) : float := SF2Prim (binary_normalize prec emax z 0 false).

(** [Math.round]: the integer nearest to [x], ties towards +infinity;
    NaN, the infinities and integral values are returned unchanged, and a
    zero result keeps the sign of [x]. *)
Definition Math_round (x : float) : float :=
  match Prim2SF x with
  | S754_finite s m e =>
      if 0 <=? e then x
      else
        let v := if s then Z.neg m else Z.pos m in
        SF2Prim (binary_normalize prec emax ((2 * v + 2 ^ (- e)) / 2 ^ (1 - e)) 0 s)
  | _ => x
  end.

(** [Math.max(x, y)]: NaN if either is NaN, otherwise the larger, with
    +0 above -0. *)
Definition Math_max (x y : float) : float :=
  if is_nan x || is_nan y then nan
  else if (x <? y)%float then y
  else if (y <? x)%float then x
  else if get_sign x then y else x.

(** The binary64 representation of [n * 2^e] for a positive [n] of at
    most 53 bits: the mantissa is [n] shifted to 53 bits. *)
Definition dyadic (n : positive) (e : Z) : spec_float :=
  let k := 53 - Z.pos (Pos.size n) in
  S754_finite false (Pos.shiftl n (Z.to_N k)) (e - k).

Definition scaledSF (n e : Z) : spec_float :=
  match n with
  | Z.pos p => dyadic p e
  | _ => S754_zero false
  end.

(** The number [n * 2^e] as a binary64 value, for [0 <= n < 2^53]. *)
Definition scaled (n e : Z) : float := SF2Prim (scaledSF n e).

(** [Array.prototype.reduce] with an initial value. *)
Definition reduce {A B : Type} (f : B -> A -> B) (l : list A) (init : B) : B :=
  fold_left f l init.

(* ================================================================== *)
(** * Binary64 rounding in closed form *)

(** Round to nearest, ties to even, of [m / 2^k]. *)
Definition roundShift (k m : Z) : Z :=
  let q := m / 2 ^ k in
  match 2 * (m mod 2 ^ k) ?= 2 ^ k with
  | Lt => q
  | Eq => if Z.even q then q else q + 1
  | Gt => q + 1
  end.

(** A mantissa [c] between 2^52 and 2^53 at exponent [x], as a binary64
    value: renormalised when [c] is 2^53, infinite beyond the largest
    exponent. *)
Definition pack (s : bool) (c x : Z) : spec_float :=
  let c' := if c =? 2 ^ 53 then 2 ^ 52 else c in
  let x' := if c =? 2 ^ 53 then x + 1 else x in
  if x' <=? 971 then S754_finite s (Z.to_pos c') x' else S754_infinity s.

(** The mantissa, of 53 bits (or 2^53), of a positive number rounded to
    53 bits. *)
Definition mantissa53 (P : positive) : Z :=
  let k := Z.pos (Pos.size P) - 53 in
  if k <=? 0 then Z.pos P * 2 ^ (- k) else roundShift k (Z.pos P).

(** The binary64 value nearest to [P * 2^e], with sign [s]. *)
Definition normal (s : bool) (P : positive) (e : Z) : spec_float :=
  pack s (mantissa53 P) (e + (Z.pos (Pos.size P) - 53)).

(** The binary64 value of an integer, as [Z2F] computes it. *)
Definition SF_of_Z (z : Z) : spec_float :=
  match z with
  | Z0 => S754_zero false
  | Z.pos P => normal false P 0
  | Z.neg P => normal true P 0
  end.

(** The mantissa of 1.5, which is [3 * 2^51 * 2^-52]. *)
Definition mantissa_1_5 : positive := 6755399441055744.

(** The product of a binary64 value by 1.5, as [SFmul] computes it. *)
Definition times_1_5 (x : spec_float) : spec_float :=
  match x with
  | S754_finite s c e => normal s (c * mantissa_1_5) (e - 52)
  | _ => x
  end.

(** The position of a binary64 value in the order of [SFcompare]: the
    rank of its class, then exponent and mantissa (negated for negative
    values). *)
Definition key (x : spec_float) : Z * Z * Z :=
  match x with
  | S754_zero _ => (0, 0, 0)
  | S754_nan => (0, 0, 0)
  | S754_infinity s => (if s then -2 else 2, 0, 0)
  | S754_finite s m e => if s then (-1, - e, - Z.pos m) else (1, e, Z.pos m)
  end.

Definition lexle (a b : Z * Z * Z) : Prop :=
  fst (fst a) < fst (fst b)
  \/ (fst (fst a) = fst (fst b)
      /\ (snd (fst a) < snd (fst b)
          \/ (snd (fst a) = snd (fst b) /\ snd a <= snd b))).

Definition opp3 (a : Z * Z * Z) : Z * Z * Z :=
  (- fst (fst a), - snd (fst a), - snd a).

(** A positive binary64 value with a full mantissa, or +infinity. *)
Definition positiveCanon (x : spec_float) : Prop :=
  x = S754_infinity false
  \/ exists c e, x = S754_finite false c e /\ 2 ^ 52 <= Z.pos c < 2 ^ 53 /\ -1022 <= e.

(** The keys of [Z2F z] and of [Z2F z * 1.5]. *)
Definition keyOf (z : Z) : Z * Z * Z := key (SF_of_Z z).
Definition keyOfTimes_1_5 (z : Z) : Z * Z * Z := key (times_1_5 (SF_of_Z z)).

(* ================================================================== *)
(** * Data model *)

(** [interface Product] (the same declaration in all three components). *)
Record Product : Type := mkProduct {
  id : string;
  name : string;
  sku : string;
  quantity : Z;
  price : float;
  reorderLevel : Z
}.

(** The value of an array's [length] as a JavaScript number. *)
Definition lengthNumber {A : Type} (l : list A) : float := Z2F (Z.of_nat (List.length l)).

(** A [<Badge variant=...>text</Badge>] element, reduced to its variant
    and its text. *)
Record Badge : Type := mkBadge {
  variant : string;
  badgeText : string
}.

(* ================================================================== *)
(** * Asynchronous handlers *)

(** A value a promise rejects with, as a [catch] clause sees it: an
    [Error] object with its message, or anything else. *)
Inductive JsError : Type :=
| ErrorObject (message : string)
| OtherValue (description : string).

(** How an awaited collaborator call settles. *)
Inductive Outcome : Type :=
| Resolved
| Rejected (error : JsError).

(** The argument of [ExportService.exportToPDF] / [exportToExcel]. *)
Record ExportData : Type := mkExportData {
  exportProducts : list Product;
  exportLowStockProducts : list Product;
  exportTotalValue : float;
  generatedDate : string
}.

(** The argument of [onAddProduct]: the parsed form, every numeric field a
    JavaScript number (possibly NaN). *)
Record ProductDraft : Type := mkProductDraft {
  draftName : string;
  draftSku : string;
  draftQuantity : float;
  draftPrice : float;
  draftReorderLevel : float
}.

(** Calls to the external collaborators. *)
Inductive Call : Type :=
| onUpdateStock (productId : string) (delta : Z)
| onAddProduct (product : ProductDraft)
| ExportService_exportToPDF (data : ExportData)
| ExportService_exportToExcel (data : ExportData).

(** Everything a handler does that is visible outside the component. *)
Inductive Effect : Type :=
| invoke (c : Call)
| toast_success (message : string)
| toast_error (message : string)
| console_error (label : string) (error : JsError).

(** The body of an [async] function over a component state [St]: it reads
    the state of the render it was created in, schedules state updates,
    performs effects, and awaits collaborator calls. *)
Inductive Async (St A : Type) : Type :=
| Return (a : A)
| Throw (e : JsError)
| ReadState (k : St -> Async St A)
| SetState (f : St -> St) (k : Async St A)
| Perform (e : Effect) (k : Async St A)
| Await (c : Call) (k : Outcome -> Async St A).

Arguments Return {St A} a.
Arguments Throw {St A} e.
Arguments ReadState {St A} k.
Arguments SetState {St A} f k.
Arguments Perform {St A} e k.
Arguments Await {St A} c k.

Fixpoint bind {St A B : Type} (m : Async St A) (f : A -> Async St B) : Async St B :=
  match m with
  | Return a => f a
  | Throw e => Throw e
  | ReadState k => ReadState (fun s => bind (k s) f)
  | SetState g k => SetState g (bind k f)
  | Perform e k => Perform e (bind k f)
  | Await c k => Await c (fun o => bind (k o) f)
  end.

Notation "m ;; k" := (bind m (fun _ => k)) (at level 61, right associativity).

(** [try { body } catch (error) { handler error }]. *)
Fixpoint try_catch {St A : Type} (body : Async St A) (handler : JsError -> Async St A)
  : Async St A :=
  match body with
  | Return a => Return a
  | Throw e => handler e
  | ReadState k => ReadState (fun s => try_catch (k s) handler)
  | SetState g k => SetState g (try_catch k handler)
  | Perform e k => Perform e (try_catch k handler)
  | Await c k => Await c (fun o => try_catch (k o) handler)
  end.

(** [try { body } finally { cleanup }]: the cleanup runs on both exits and
    the body's completion is kept, unless the cleanup itself throws. *)
Fixpoint try_finally {St A : Type} (body : Async St A) (cleanup : Async St unit)
  : Async St A :=
  match body with
  | Return a => cleanup ;; Return a
  | Throw e => cleanup ;; Throw e
  | ReadState k => ReadState (fun s => try_finally (k s) cleanup)
  | SetState g k => SetState g (try_finally k cleanup)
  | Perform e k => Perform e (try_finally k cleanup)
  | Await c k => Await c (fun o => try_finally (k o) cleanup)
  end.

(** [await call]: continue when the call resolves, throw what it rejects
    with. *)
Definition await {St : Type} (c : Call) : Async St unit :=
  Await c (fun o => match o with Resolved => Return tt | Rejected e => Throw e end).

Definition perform {St : Type} (e : Effect) : Async St unit := Perform e (Return tt).

Definition setState {St : Type} (f : St -> St) : Async St unit := SetState f (Return tt).

(** How the promise returned by a handler ends. *)
Inductive Completion (A : Type) : Type :=
| Fulfilled (a : A)
| RejectedWith (e : JsError).

Arguments Fulfilled {A} a.
Arguments RejectedWith {A} e.

Inductive Status (St A : Type) : Type :=
| Settled (c : Completion A)
| Waiting (k : Outcome -> Async St A).

Arguments Settled {St A} c.
Arguments Waiting {St A} k.

Record Run (St A : Type) : Type := mkRun {
  final : St;
  trace : list Effect;
  status : Status St A
}.

Arguments mkRun {St A} final trace status.
Arguments final {St A} r.
Arguments trace {St A} r.
Arguments status {St A} r.

Definition logged {St A : Type} (e : Effect) (r : Run St A) : Run St A :=
  mkRun (final r) (e :: trace r) (status r).

(** Runs a handler body from state [s].  Each awaited call is issued (and
    logged) at once; it settles with the next outcome of [outcomes], and
    when none is left the run stops there, waiting, with the continuation
    that the settlement will resume. *)
Fixpoint run {St A : Type} (m : Async St A) (s : St) (outcomes : list Outcome)
  : Run St A :=
  match m with
  | Return a => mkRun s [] (Settled (Fulfilled a))
  | Throw e => mkRun s [] (Settled (RejectedWith e))
  | ReadState k => run (k s) s outcomes
  | SetState f k => run k (f s) outcomes
  | Perform e k => logged e (run k s outcomes)
  | Await c k =>
      match outcomes with
      | [] => mkRun s [invoke c] (Waiting k)
      | o :: rest => logged (invoke c) (run (k o) s rest)
      end
  end.

(** The collaborator calls, and the toasts, of a trace. *)
Definition callsOf (t : list Effect) : list Call :=
  flat_map (fun e => match e with invoke c => [c] | _ => [] end) t.

Definition toastsOf (t : list Effect) : list Effect :=
  filter (fun e => match e with toast_success _ | toast_error _ => true | _ => false end) t.

(** ** A mounted component: its state and its calls in flight *)

Record Instance (St : Type) : Type := mkInstance {
  state : St;
  inflight : list (Outcome -> Async St unit);
  log : list Effect;
  unhandled : list JsError
}.

Arguments mkInstance {St} state inflight log unhandled.
Arguments state {St} i.
Arguments inflight {St} i.
Arguments log {St} i.
Arguments unhandled {St} i.

Inductive Event (St : Type) : Type :=
| Trigger (handler : Async St unit)
| Settle (n : nat) (o : Outcome).

Arguments Trigger {St} handler.
Arguments Settle {St} n o.

Definition mount {St : Type} (s : St) : Instance St := mkInstance s [] [] [].

Fixpoint remove_nth {A : Type} (n : nat) (l : list A) : list A :=
  match n, l with
  | _, [] => []
  | O, _ :: t => t
  | S n', x :: t => x :: remove_nth n' t
  end.

Definition absorb {St : Type} (i : Instance St) (pending : list (Outcome -> Async St unit))
  (r : Run St unit) : Instance St :=
  mkInstance (final r)
    (pending ++ match status r with Waiting k => [k] | Settled _ => [] end)
    (log i ++ trace r)
    (unhandled i ++ match status r with Settled (RejectedWith e) => [e] | _ => [] end).

(** One turn of the event loop: a user trigger runs the handler up to its
    first [await]; a settlement resumes the continuation of that call. *)
Definition step {St : Type} (i : Instance St) (ev : Event St) : Instance St :=
  match ev with
  | Trigger handler => absorb i (inflight i) (run handler (state i) [])
  | Settle n o =>
      match nth_error (inflight i) n with
      | Some k => absorb i (remove_nth n (inflight i)) (run (k o) (state i) [])
      | None => i
      end
  end.

Definition steps {St : Type} (i : Instance St) (evs : list (Event St)) : Instance St :=
  fold_left step evs i.

(* ================================================================== *)
(** * Text to number: [parseInt], [parseFloat] and template literals *)

Definition charCode (c : ascii) : Z := Z.of_N (N_of_ascii c).

(** White space skipped at the start of a numeric string
    (StrWhiteSpaceChar): of one byte, the space, tab, line feed, vertical
    tab, form feed and carriage return; *)
Definition isWhiteSpace (c : ascii) : bool :=
  (charCode c =? 32) || ((9 <=? charCode c) && (charCode c <=? 13)).

(** of two bytes, the no-break space U+00A0; *)
Definition isWhiteSpace2 (c1 c2 : ascii) : bool :=
  (charCode c1 =? 194) && (charCode c2 =? 160).

(** of three bytes, U+1680, U+2000 to U+200A, the line and paragraph
    separators U+2028 and U+2029, U+202F, U+205F, U+3000 and the byte
    order mark U+FEFF. *)
Definition isWhiteSpace3 (c1 c2 c3 : ascii) : bool :=
  let b1 := charCode c1 in
  let b2 := charCode c2 in
  let b3 := charCode c3 in
  ((b1 =? 225) && (b2 =? 154) && (b3 =? 128))
  || ((b1 =? 226) && (b2 =? 128)
      && (((128 <=? b3) && (b3 <=? 138)) || (b3 =? 168) || (b3 =? 169) || (b3 =? 175)))
  || ((b1 =? 226) && (b2 =? 129) && (b3 =? 159))
  || ((b1 =? 227) && (b2 =? 128) && (b3 =? 128))
  || ((b1 =? 239) && (b2 =? 187) && (b3 =? 191)).

(** The first bytes of the white space of more than one byte. *)
Definition startsWhiteSpace (c : ascii) : bool :=
  let b := charCode c in
  (b =? 194) || (b =? 225) || (b =? 226) || (b =? 227) || (b =? 239).

Fixpoint trimStart (s : string) : string :=
  match s with
  | EmptyString => s
  | String c1 rest1 =>
      if isWhiteSpace c1 then trimStart rest1
      else if startsWhiteSpace c1 then
        match rest1 with
        | String c2 rest2 =>
            if isWhiteSpace2 c1 c2 then trimStart rest2
            else
              match rest2 with
              | String c3 rest3 =>
                  if isWhiteSpace3 c1 c2 c3 then trimStart rest3 else s
              | EmptyString => s
              end
        | EmptyString => s
        end
      else s
  end.

(** The value of a character as a digit: 0-9, then a-z and A-Z for 10-35. *)
Definition digitValue (c : ascii) : option Z :=
  let n := charCode c in
  if (48 <=? n) && (n <=? 57) then Some (n - 48)
  else if (97 <=? n) && (n <=? 122) then Some (n - 87)
  else if (65 <=? n) && (n <=? 90) then Some (n - 55)
  else None.

(** The longest prefix of [s] made of digits of the radix, and what
    follows it. *)
Fixpoint readDigits (radix : Z) (s : string) : list Z * string :=
  match s with
  | String c rest =>
      match digitValue c with
      | Some d =>
          if d <? radix then
            let (ds, r) := readDigits radix rest in (d :: ds, r)
          else ([], s)
      | None => ([], s)
      end
  | EmptyString => ([], s)
  end.

Definition valueOfDigits (radix : Z) (ds : list Z) : Z :=
  fold_left (fun acc d => acc * radix + d) ds 0.

(** A leading [+] or [-]: whether it was a minus, and the rest. *)
Definition readSign (s : string) : bool * string :=
  match s with
  | String "-" rest => (true, rest)
  | String "+" rest => (false, rest)
  | _ => (false, s)
  end.

Definition withSign (negative : bool) (x : float) : float :=
  if negative then (- x)%float else x.

(** [parseInt(string)] with no radix argument. *)
Definition parseInt (string : string) : float :=
  let (negative, unsigned) := readSign (trimStart string) in
  let (radix, digits) :=
    match unsigned with
    | String "0" (String "x" rest) => (16, rest)
    | String "0" (String "X" rest) => (16, rest)
    | _ => (10, unsigned)
    end in
  match fst (readDigits radix digits) with
  | [] => nan
  | ds => withSign negative (Z2F (valueOfDigits radix ds))
  end.

(** The binary64 value nearest to the fraction [m / d], for [m, d > 0]:
    the quotient is taken with 64 extra bits and a sticky bit for the
    remainder, then rounded once. *)
Definition ratioToFloat (m d : Z) : float :=
  let s := Z.max 0 (64 + Z.log2_up d - Z.log2 m) in
  let n := m * 2 ^ s in
  let sticky := if n mod d =? 0 then 0 else 1 in
  SF2Prim (binary_normalize prec emax (2 * (n / d) + sticky) (- s - 1) false).

(** The binary64 value of the decimal [m * 10^e], [m >= 0]. *)
Definition decimalToFloat (m e : Z) : float :=
  if m =? 0 then 0%float
  else if 0 <=? e then Z2F (m * 10 ^ e)
  else ratioToFloat m (10 ^ (- e)).

Definition startsWith (pre s : string) : bool :=
  String.eqb (substring 0 (String.length pre) s) pre.

(** [parseFloat(string)]: the value of the longest prefix that is a
    decimal literal (sign, [Infinity], digits, fraction, exponent), NaN
    when there is none. *)
Definition parseFloat (string : string) : float :=
  let (negative, unsigned) := readSign (trimStart string) in
  if startsWith "Infinity" unsigned then withSign negative infinity
  else
    let (intDigits, afterInt) := readDigits 10 unsigned in
    let (fracDigits, afterFrac) :=
      match afterInt with
      | String "." rest => readDigits 10 rest
      | _ => ([], afterInt)
      end in
    match (intDigits ++ fracDigits)%list with
    | [] => nan
    | mantissa =>
        let exponent :=
          match afterFrac with
          | String c rest =>
              if (Ascii.eqb c "e" || Ascii.eqb c "E")%bool then
                let (expNegative, expText) := readSign rest in
                match fst (readDigits 10 expText) with
                | [] => 0
                | ds => if expNegative then - valueOfDigits 10 ds else valueOfDigits 10 ds
                end
              else 0
          | EmptyString => 0
          end in
        withSign negative
          (decimalToFloat (valueOfDigits 10 mantissa)
             (exponent - Z.of_nat (List.length fracDigits)))
    end.

(** The decimal numeral of an integer, every digit written out. *)
Definition string_of_Z (z : Z) : string := NilZero.string_of_int (Z.to_int z).

(** The shortest decimal that reads back as the number [x], whose value
    is the integer [v > 0]: with [k = 1, 2, ...] significant digits, the
    multiples of [10^(n-k)] on either side of [v], the nearer one first. *)
Definition shortestDecimal (x : float) (v : Z) : Z :=
  let n := Z.of_nat (String.length (string_of_Z v)) in
  let candidates :=
    flat_map
      (fun k =>
         let p := 10 ^ (n - Z.of_nat k) in
         let lo := v / p * p in
         let hi := lo + p in
         if v - lo <=? hi - v then [lo; hi] else [hi; lo])
      (seq 1 17) in
  match find (fun w => (Z2F w =? x)%float) candidates with
  | Some w => w
  | None => v
  end.

Fixpoint dropZeros (fuel : nat) (s : Z) : Z :=
  match fuel with
  | O => s
  | S fuel' => if (s mod 10 =? 0) && negb (s =? 0) then dropZeros fuel' (s / 10) else s
  end.

(** The text of a number of [n > 21] digits that are those of [w]:
    mantissa, [e+] and exponent. *)
Definition exponentText (n : nat) (w : Z) : string :=
  let digits := string_of_Z (dropZeros n w) in
  let mantissa :=
    match digits with
    | String d EmptyString => digits
    | String d rest => String d ("." ++ rest)
    | EmptyString => digits
    end in
  (mantissa ++ "e+" ++ string_of_Z (Z.of_nat n - 1))%string.

(** [`${n}`] for the number that holds the integer [z], which is
    [Number::toString]: the shortest digits that read back as the number,
    written out in full up to 21 digits and with an exponent beyond. *)
Definition numberText (z : Z) : string :=
  match Prim2SF (Z2F z) with
  | S754_zero _ => "0"%string
  | S754_nan => "NaN"%string
  | S754_infinity s => if s then "-Infinity"%string else "Infinity"%string
  | S754_finite s m e =>
      let v := if 0 <=? e then Z.pos m * 2 ^ e else Z.pos m / 2 ^ (- e) in
      let w := shortestDecimal (abs (Z2F z)) v in
      let n := String.length (string_of_Z w) in
      let text := if (n <=? 21)%nat then string_of_Z w else exponentText n w in
      if s then ("-" ++ text)%string else text
  end.

(* ================================================================== *)
(** * Reports.tsx *)

Module Reports.

Inductive ExportKind : Type := pdf | excel.

(** [useState<'pdf' | 'excel' | null>(null)]. *)
Definition State : Type := option ExportKind.

Definition initial : State := None.

Definition lowStockProducts (products : list Product) : list Product :=
  filter (fun p => quantity p <=? reorderLevel p) products.

(** [getProductStatus]; the second test is on the binary64 product
    [reorderLevel * 1.5]. *)
Definition getProductStatus (product : Product) : string :=
  if quantity product <=? reorderLevel product then "Low Stock"%string
  else if (Z2F (quantity product) <=? Z2F (reorderLevel product) * 1.5)%float
       then "Medium"%string
  else "Good"%string.

(** [products.reduce((sum, p) => sum + (p.quantity * p.price), 0)]. *)
Definition totalValue (products : list Product) : float :=
  reduce (fun sum p => (sum + Z2F (quantity p) * price p)%float) products 0%float.

Definition exportData (products : list Product) (now : string) : ExportData :=
  {| exportProducts := products;
     exportLowStockProducts := lowStockProducts products;
     exportTotalValue := totalValue products;
     generatedDate := now |}.

(** [exportToPDF]; [now] is [new Date().toLocaleString()]. *)
Definition exportToPDF (products : list Product) (now : string) : Async State unit :=
  ReadState (fun isExporting =>
    match isExporting with
    | Some _ => Return tt
    | None =>
        setState (fun _ => Some pdf) ;;
        try_finally
          (try_catch
             (await (ExportService_exportToPDF (exportData products now)) ;;
              perform (toast_success "PDF report exported successfully!"))
             (fun error =>
                perform (console_error "Error exporting PDF:" error) ;;
                perform (toast_error
                  match error with
                  | ErrorObject message => message
                  | OtherValue _ => "Failed to export PDF. Please try again."%string
                  end)))
          (setState (fun _ => None))
    end).

(** [exportToExcel]. *)
Definition exportToExcel (products : list Product) (now : string) : Async State unit :=
  ReadState (fun isExporting =>
    match isExporting with
    | Some _ => Return tt
    | None =>
        setState (fun _ => Some excel) ;;
        try_finally
          (try_catch
             (await (ExportService_exportToExcel (exportData products now)) ;;
              perform (toast_success "Excel report exported successfully!"))
             (fun error =>
                perform (console_error "Error exporting Excel:" error) ;;
                perform (toast_error
                  match error with
                  | ErrorObject message => message
                  | OtherValue _ => "Failed to export Excel. Please try again."%string
                  end)))
          (setState (fun _ => None))
    end).

(** The "Stock Health" card:
    [Math.round(((products.length - lowStockProducts.length) / products.length) * 100)]. *)
Definition stockHealthValue (products : list Product) : float :=
  Math_round
    (((lengthNumber products - lengthNumber (lowStockProducts products))
        / lengthNumber products) * 100)%float.

(** The summary cards sit inside [{products.length > 0 && (...)}]: with
    no product the percentage is not computed at all. *)
Definition stockHealth (products : list Product) : option float :=
  match products with
  | [] => None
  | _ :: _ => Some (stockHealthValue products)
  end.

(** The Status cell of the stock-levels table. *)
Definition statusBadge (product : Product) : Badge :=
  if quantity product <=? reorderLevel product then
    mkBadge "destructive" "Low Stock"
  else if (Z2F (quantity product) <=? Z2F (reorderLevel product) * 1.5)%float
  then mkBadge "secondary" "Medium"
  else mkBadge "default" "Good".

End Reports.

(* ================================================================== *)
(** * Dashboard *)

Module Dashboard.

Record State : Type := mkState {
  loading : bool;
  processingId : option string
}.

Definition initial : State := mkState false None.

Definition setProcessingId (v : option string) : Async State unit :=
  setState (fun s => mkState (loading s) v).

Definition totalProducts (products : list Product) : nat := List.length products.

Definition lowStockItems (products : list Product) : nat :=
  List.length (filter (fun p => quantity p <=? reorderLevel p) products).

Definition totalValue (products : list Product) : float :=
  reduce (fun sum p => (sum + Z2F (quantity p) * price p)%float) products 0%float.

Definition handleRestock (products : list Product) (productId : string)
  : Async State unit :=
  match find (fun p => String.eqb (id p) productId) products with
  | Some product =>
      setProcessingId (Some productId) ;;
      try_finally
        (try_catch
           (let restockAmount := Z.max 10 (reorderLevel product * 2) in
            await (onUpdateStock productId restockAmount) ;;
            perform (toast_success
              ("Successfully restocked " ++ numberText restockAmount ++ " units!")))
           (fun error => perform (toast_error "Failed to restock. Please try again.")))
        (setProcessingId None)
  | None => Return tt
  end.

Definition handleSell (products : list Product) (productId : string)
  : Async State unit :=
  match find (fun p => String.eqb (id p) productId) products with
  | Some product =>
      if 0 <? quantity product then
        setProcessingId (Some productId) ;;
        try_finally
          (try_catch
             (await (onUpdateStock productId (-1)) ;;
              perform (toast_success "Successfully sold 1 unit!"))
             (fun error => perform (toast_error "Failed to sell. Please try again.")))
          (setProcessingId None)
      else Return tt
  | None => Return tt
  end.

(** The Status cell of the product table. *)
Definition statusBadge (product : Product) : Badge :=
  if quantity product <=? reorderLevel product then
    mkBadge "destructive" "Low Stock"
  else
    mkBadge "default" "OK".

(** The [disabled] attribute of the Sell button. *)
Definition sellDisabled (product : Product) : bool := quantity product =? 0.

End Dashboard.

(* ================================================================== *)
(** * AddProduct *)

Module AddProduct.

Record FormData : Type := mkFormData {
  name : string;
  sku : string;
  quantity : string;
  price : string;
  reorderLevel : string
}.

Definition emptyForm : FormData := mkFormData "" "" "" "" "".

Record State : Type := mkState {
  formData : FormData;
  loading : bool
}.

Definition initial : State := mkState emptyForm false.

Definition setLoading (v : bool) : Async State unit :=
  setState (fun s => mkState (formData s) v).

Definition setFormData (v : FormData) : Async State unit :=
  setState (fun s => mkState v (loading s)).

(** The object built in [handleSubmit] from the form fields. *)
Definition parseForm (f : FormData) : ProductDraft :=
  {| draftName := name f;
     draftSku := sku f;
     draftQuantity := parseInt (quantity f);
     draftPrice := parseFloat (price f);
     draftReorderLevel := parseInt (reorderLevel f) |}.

(** [handleSubmit]; its first statement, [e.preventDefault()], concerns
    the browser only. *)
Definition handleSubmit : Async State unit :=
  ReadState (fun render =>
    setLoading true ;;
    try_finally
      (try_catch
         (let product := parseForm (formData render) in
          await (onAddProduct product) ;;
          setFormData emptyForm ;;
          perform (toast_success "Product added successfully!"))
         (fun error => perform (toast_error "Failed to add product. Please try again.")))
      (setLoading false)).

(** The [disabled] attribute of the submit button. *)
Definition submitDisabled (s : State) : bool := loading s.

End AddProduct.

(* ================================================================== *)
(** * The summary figures *)

(** The four figures of the Reports summary cards. *)
Record Metrics : Type := mkMetrics {
  totalCount : nat;
  totalValue : float;
  lowStockCount : nat;
  stockHealthPercent : option float
}.

Definition aggregate (products : list Product) : Metrics :=
  {| totalCount := List.length products;
     totalValue := Reports.totalValue products;
     lowStockCount := List.length (Reports.lowStockProducts products);
     stockHealthPercent := Reports.stockHealth products |}.

(* ================================================================== *)
(** * The specification's rounding, for comparison *)

(** Modelled on the specification's words, [round(100 * (totalCount -
    lowStockCount) / totalCount)], in exact rational arithmetic.  The
    specification does not say how a tie is broken; both usual conventions
    are given. *)
Definition specPercent (total low : nat) : Q :=
  (100 * (inject_Z (Z.of_nat total) - inject_Z (Z.of_nat low)) / inject_Z (Z.of_nat total))%Q.

Definition roundHalfUp (x : Q) : Z := Qfloor (x + (1 # 2))%Q.

Definition roundHalfEven (x : Q) : Z :=
  let f := Qfloor x in
  match (x - inject_Z f ?= (1 # 2))%Q with
  | Lt => f
  | Gt => f + 1
  | Eq => if Z.even f then f else f + 1
  end.

(** A product whose price is the whole number [units p] of units of
    [2^e] (whole currency units for [e = 0], quarters for [e = -2]), with
    quantity and price units below 2^53. *)
Definition pricedInUnits (e : Z) (units : Product -> Z) (p : Product) : Prop :=
  0 <= quantity p < 2 ^ 53
  /\ 0 <= units p < 2 ^ 53
  /\ price p = scaled (units p) e.

(** The exact inventory value, in those units. *)
Definition unitsTotal (units : Product -> Z) (products : list Product) : Z :=
  fold_right (fun p acc => quantity p * units p + acc) 0 products.


(* ================================================================== *)
(** * Example data *)

Definition widget (productId : string) (q r : Z) (unitPrice : float) : Product :=
  mkProduct productId "Widget" "W-001" q unitPrice r.

(** Forty products, seventeen of them at or below their reorder level. *)
Definition inventory40 : list Product :=
  (repeat (widget "low" 5 10 2) 17 ++ repeat (widget "ok" 30 10 2) 23)%list.

(** Three products of one unit each, priced 0.1, 0.2 and 0.3. *)
Definition dimes : list Product :=
  [ widget "a" 1 0 (1 / 10)%float;
    widget "b" 1 0 (2 / 10)%float;
    widget "c" 1 0 (3 / 10)%float ].

(* ================================================================== *)
(** * What the error-handling policy asks of a handler *)

(** A handler started in state [s] whose awaited call settles with
    [outcome]: its own promise is fulfilled (nothing is thrown out of it);
    when it made no call it did nothing at all; when it made a call, the
    component is [interactive] again afterwards, and the only toast is one
    success toast after a resolution, one error toast after a rejection. *)
Definition handledLocally {St : Type} (interactive : St -> Prop)
  (handler : Async St unit) (s : St) (outcome : Outcome) : Prop :=
  let r := run handler s [outcome] in
  status r = Settled (Fulfilled tt)
  /\ match callsOf (trace r) with
     | [] => final r = s /\ trace r = []
     | _ :: _ =>
         interactive (final r)
         /\ match outcome with
            | Resolved => exists message, toastsOf (trace r) = [toast_success message]
            | Rejected _ => exists message, toastsOf (trace r) = [toast_error message]
            end
     end.

(** The stock-health figure for [total] products of which [low] are low
    on stock, as the card computes it. *)
Definition healthOf (total low : nat) : float :=
  Math_round
    (((Z2F (Z.of_nat total) - Z2F (Z.of_nat low)) / Z2F (Z.of_nat total)) * 100)%float.

(** Whether the card agrees with the exact percentage rounded half up,
    for every total from [1] to [bound] and every count of low-stock
    products. *)
Definition healthAgreesUpTo (bound : nat) : bool :=
  forallb
    (fun total =>
       forallb
         (fun low =>
            PrimFloat.Leibniz.eqb (healthOf total low)
              (Z2F (roundHalfUp (specPercent total low))))
         (seq 0 (S total)))
    (seq 1 bound).


(** A form whose quantity field holds [.5e1], a valid floating-point
    number: the number 5, which meets [min="0"] and the default step of
    1. *)
Definition formWithDotFive : AddProduct.State :=
  AddProduct.mkState (AddProduct.mkFormData "Bolt" "B-7" ".5e1" "2.50" "4") false.

(** One product with 3 units and a reorder level of 10. *)
Definition shelf : list Product := [widget "p1" 3 10 2].

(* ================================================================== *)
(** * Reports: chart data, page sections and the low stock alert *)

(** An entry of [chartData]. *)
Record ChartEntry : Type := mkChartEntry {
  chartName : string;
  chartStock : Z;
  chartReorderLevel : Z
}.

(** Reports.tsx, [chartData]: names longer than 15 characters are cut to
    15 and followed by three dots (characters are bytes here, as for
    ASCII names). *)
Definition chartData (products : list Product) : list ChartEntry :=
  map (fun product =>
         {| chartName :=
              if (15 <? String.length (name product))%nat
              then (substring 0 15 (name product) ++ "...")%string
              else name product;
            chartStock := quantity product;
            chartReorderLevel := reorderLevel product |})
      products.

(** The [disabled] attributes of the two export buttons. *)
Definition exportPDFDisabled (products : list Product) (isExporting : Reports.State) : bool :=
  (List.length products =? 0)%nat
  || match isExporting with Some Reports.pdf => true | _ => false end.

Definition exportExcelDisabled (products : list Product) (isExporting : Reports.State) : bool :=
  (List.length products =? 0)%nat
  || match isExporting with Some Reports.excel => true | _ => false end.

(** [{products.length === 0 && ...}]: the "No Products Found" card; and
    [{products.length > 0 && ...}]: the export note and the summary cards. *)
Definition showsEmptyCard (products : list Product) : bool :=
  (List.length products =? 0)%nat.

Definition showsSummary (products : list Product) : bool :=
  (0 <? List.length products)%nat.

(** The body of the "Low Stock Alert" card. *)
Inductive LowStockAlert : Type :=
| AllAdequatelyStocked
| RestockRequired (cards : list Product).

Definition lowStockAlert (products : list Product) : LowStockAlert :=
  if (List.length (Reports.lowStockProducts products) =? 0)%nat
  then AllAdequatelyStocked
  else RestockRequired (Reports.lowStockProducts products).

(** What can happen to a mounted Reports page: a click on an export
    button (with the products of the current render and the clock
    reading), which a disabled button does not deliver, and the settlement
    of a call in flight. *)
Inductive ReportsEvent : Type :=
| ClickExportPDF (products : list Product) (now : string)
| ClickExportExcel (products : list Product) (now : string)
| ExportSettles (n : nat) (o : Outcome).

Definition reportsStep (i : Instance Reports.State) (ev : ReportsEvent)
  : Instance Reports.State :=
  match ev with
  | ClickExportPDF products now =>
      if exportPDFDisabled products (state i) then i
      else step i (Trigger (Reports.exportToPDF products now))
  | ClickExportExcel products now =>
      if exportExcelDisabled products (state i) then i
      else step i (Trigger (Reports.exportToExcel products now))
  | ExportSettles n o => step i (Settle n o)
  end.

Definition reportsRun (evs : list ReportsEvent) : Instance Reports.State :=
  fold_left reportsStep evs (mount Reports.initial).

(* ================================================================== *)
(** * Dashboard: clicks in a table row *)

(** The second argument of [onNavigateToUpdateStock]. *)
Inductive StockAction : Type := restockAction | sellAction.

(** The callbacks that the row's click handlers invoke. *)
Inductive RowCallback : Type :=
| onNavigateToUpdateStock (productId : string) (action : StockAction)
| onViewProduct (productId : string).

(** What one [onClick] handler does: the callbacks it invokes and whether
    it calls [e.stopPropagation()]. *)
Record ClickHandler : Type := mkClickHandler {
  invoked : list RowCallback;
  stopsPropagation : bool
}.

(** Where in a row the click lands. *)
Inductive RowTarget : Type :=
| RestockButton
| SellButton
| ViewButton
| ActionsCell
| DataCell.

(** The [onClick] handlers that a click meets, from the target outwards:
    the button's, the one of the actions cell, the row's.  A disabled
    button receives no click event. *)
Definition clickPath (product : Product) (target : RowTarget) : list ClickHandler :=
  let row := mkClickHandler [onViewProduct (id product)] false in
  let actionsCell := mkClickHandler [] true in
  match target with
  | RestockButton =>
      [mkClickHandler [onNavigateToUpdateStock (id product) restockAction] true;
       actionsCell; row]
  | SellButton =>
      if quantity product =? 0 then []
      else [mkClickHandler [onNavigateToUpdateStock (id product) sellAction] true;
            actionsCell; row]
  | ViewButton =>
      [mkClickHandler [onViewProduct (id product)] true; actionsCell; row]
  | ActionsCell => [actionsCell; row]
  | DataCell => [row]
  end.

(** Event bubbling: each handler runs in turn until one has stopped the
    propagation. *)
Fixpoint bubble (path : list ClickHandler) : list RowCallback :=
  match path with
  | [] => []
  | h :: outer => (invoked h ++ if stopsPropagation h then [] else bubble outer)%list
  end.

Definition clickRow (product : Product) (target : RowTarget) : list RowCallback :=
  bubble (clickPath product target).

(** The product with a delta added to its quantity, the other fields
    unchanged. *)
Definition adjustQuantity (delta : Z) (p : Product) : Product :=
  mkProduct (id p) (name p) (sku p) (quantity p + delta) (price p) (reorderLevel p).

(** How urgent a status is. *)
Definition severity (status : string) : Z :=
  if String.eqb status "Low Stock" then 2
  else if String.eqb status "Medium" then 1
  else 0.

(* ================================================================== *)
(** * AddProduct: typing into the form *)

(** [{...prev, [name]: value}] on the five fields of the form; the inputs
    are named after them (any other name would add a property that
    nothing reads). *)
Definition updateField (fieldName value : string) (prev : AddProduct.FormData)
  : AddProduct.FormData :=
  if String.eqb fieldName "name" then
    AddProduct.mkFormData value (AddProduct.sku prev) (AddProduct.quantity prev)
      (AddProduct.price prev) (AddProduct.reorderLevel prev)
  else if String.eqb fieldName "sku" then
    AddProduct.mkFormData (AddProduct.name prev) value (AddProduct.quantity prev)
      (AddProduct.price prev) (AddProduct.reorderLevel prev)
  else if String.eqb fieldName "quantity" then
    AddProduct.mkFormData (AddProduct.name prev) (AddProduct.sku prev) value
      (AddProduct.price prev) (AddProduct.reorderLevel prev)
  else if String.eqb fieldName "price" then
    AddProduct.mkFormData (AddProduct.name prev) (AddProduct.sku prev)
      (AddProduct.quantity prev) value (AddProduct.reorderLevel prev)
  else if String.eqb fieldName "reorderLevel" then
    AddProduct.mkFormData (AddProduct.name prev) (AddProduct.sku prev)
      (AddProduct.quantity prev) (AddProduct.price prev) value
  else prev.

(** [formData[fieldName]] for the five fields. *)
Definition fieldValue (fieldName : string) (f : AddProduct.FormData) : option string :=
  if String.eqb fieldName "name" then Some (AddProduct.name f)
  else if String.eqb fieldName "sku" then Some (AddProduct.sku f)
  else if String.eqb fieldName "quantity" then Some (AddProduct.quantity f)
  else if String.eqb fieldName "price" then Some (AddProduct.price f)
  else if String.eqb fieldName "reorderLevel" then Some (AddProduct.reorderLevel f)
  else None.

(** [handleInputChange], with [e.target.name] and [e.target.value]. *)
Definition handleInputChange (fieldName value : string) : Async AddProduct.State unit :=
  setState (fun s =>
    AddProduct.mkState (updateField fieldName value (AddProduct.formData s))
      (AddProduct.loading s)).

(** What can happen to a mounted form: typing into an input, a
    submission (which the disabled submit button does not deliver), and
    the settlement of a call in flight. *)
Inductive FormEvent : Type :=
| TypeInto (fieldName value : string)
| SubmitForm
| CreateSettles (n : nat) (o : Outcome).

Definition formStep (i : Instance AddProduct.State) (ev : FormEvent)
  : Instance AddProduct.State :=
  match ev with
  | TypeInto fieldName value => step i (Trigger (handleInputChange fieldName value))
  | SubmitForm =>
      if AddProduct.submitDisabled (state i) then i
      else step i (Trigger AddProduct.handleSubmit)
  | CreateSettles n o => step i (Settle n o)
  end.

Definition formRun (s : AddProduct.State) (evs : list FormEvent)
  : Instance AddProduct.State :=
  fold_left formStep evs (mount s).

(** The digits of a decimal numeral, most significant first. *)
Fixpoint digitsOfUint (d : Decimal.uint) : list Z :=
  match d with
  | Decimal.Nil => []
  | Decimal.D0 d => 0 :: digitsOfUint d
  | Decimal.D1 d => 1 :: digitsOfUint d
  | Decimal.D2 d => 2 :: digitsOfUint d
  | Decimal.D3 d => 3 :: digitsOfUint d
  | Decimal.D4 d => 4 :: digitsOfUint d
  | Decimal.D5 d => 5 :: digitsOfUint d
  | Decimal.D6 d => 6 :: digitsOfUint d
  | Decimal.D7 d => 7 :: digitsOfUint d
  | Decimal.D8 d => 8 :: digitsOfUint d
  | Decimal.D9 d => 9 :: digitsOfUint d
  end.

(** Whether a text is empty or starts with a character that is not a
    decimal digit. *)
Definition endsNumeral (tail : string) : bool :=
  match tail with
  | EmptyString => true
  | String c _ =>
      match digitValue c with
      | Some d => negb (d <? 10)
      | None => true
      end
  end.

(** Whether a text starts with [x] or [X]. *)
Definition startsWithX (tail : string) : bool :=
  match tail with
  | String c _ => (Ascii.eqb c "x" || Ascii.eqb c "X")%bool
  | EmptyString => false
  end.

(* ================================================================== *)
(** * Layout: the sidebar *)

Module Layout.

(** An entry of [navigation] (its icon component left out). *)
Record NavItem : Type := mkNavItem {
  navId : string;
  label : string
}.

Definition navigation : list NavItem :=
  [ mkNavItem "dashboard" "Dashboard";
    mkNavItem "add-product" "Add Product";
    mkNavItem "update-stock" "Update Stock";
    mkNavItem "reports" "Reports";
    mkNavItem "settings" "Settings" ].

(** [currentPage === item.id], which selects the highlighted style. *)
Definition isActive (currentPage : string) (item : NavItem) : bool :=
  String.eqb currentPage (navId item).

(** The page that a click on a sidebar button passes to [onPageChange]. *)
Definition clickNav (item : NavItem) : string := navId item.

(** The page that the profile menu passes to [onPageChange]. *)
Definition onNavigateToSettings : string := "settings".

End Layout.

(* ================================================================== *)
(** * Invariants of a mounted page *)

(** A continuation in flight that, whatever the outcome and the state it
    resumes in, ends the export: it fulfils the handler's promise, clears
    [isExporting], shows one toast and makes no further call. *)
Definition endsExport (k : Outcome -> Async Reports.State unit) : Prop :=
  forall (o : Outcome) (s : Reports.State),
  exists t,
    run (k o) s [] = mkRun None t (Settled (Fulfilled tt))
    /\ callsOf t = []
    /\ List.length (toastsOf t) = 1%nat.

Definition reportsInvariant (i : Instance Reports.State) : Prop :=
  unhandled i = []
  /\ (List.length (toastsOf (log i)) + List.length (inflight i))%nat
     = List.length (callsOf (log i))
  /\ ((state i = None /\ inflight i = [])
      \/ exists kind k, state i = Some kind /\ inflight i = [k] /\ endsExport k).

(** The same for a submission of the form: the continuation clears
    [loading], and leaves the form empty after a resolution, as it finds
    it after a rejection. *)
Definition endsSubmit (k : Outcome -> Async AddProduct.State unit) : Prop :=
  forall (o : Outcome) (s : AddProduct.State),
  exists t,
    run (k o) s [] =
      mkRun (AddProduct.mkState
               match o with
               | Resolved => AddProduct.emptyForm
               | Rejected _ => AddProduct.formData s
               end false)
            t (Settled (Fulfilled tt))
    /\ callsOf t = []
    /\ List.length (toastsOf t) = 1%nat.

Definition formInvariant (i : Instance AddProduct.State) : Prop :=
  unhandled i = []
  /\ (List.length (toastsOf (log i)) + List.length (inflight i))%nat
     = List.length (callsOf (log i))
  /\ ((AddProduct.loading (state i) = false /\ inflight i = [])
      \/ exists k, AddProduct.loading (state i) = true /\ inflight i = [k] /\ endsSubmit k).

(** The form after a series of input changes. *)
Definition typeAll (edits : list (string * string)) (f : AddProduct.FormData)
  : AddProduct.FormData :=
  fold_left (fun form edit => updateField (fst edit) (snd edit) form) edits f.

(* ================================================================== *)
(** * Binary64 arithmetic on integers and dyadic values *)

Lemma digits2_pos_size (p : positive) : digits2_pos p = Pos.size p.
Proof. induction p; cbn; congruence. Qed.

Lemma size_iter_xO (p k : positive) : Pos.size (Pos.iter xO p k) = (Pos.size p + k)%positive.
Proof.
  induction k using Pos.peano_ind.
  - cbn. lia.
  - rewrite Pos.iter_succ. cbn. rewrite IHk. lia.
Qed.

Lemma size_shiftl (p : positive) (k : N) :
  Z.pos (Pos.size (Pos.shiftl p k)) = Z.pos (Pos.size p) + Z.of_N k.
Proof.
  destruct k as [| k]; cbn [Pos.shiftl]; [cbn; lia |].
  rewrite size_iter_xO. lia.
Qed.

Lemma shr_iter_xO (k m : positive) :
  iter_pos shr_1 k (Build_shr_record (Z.pos (Pos.iter xO m k)) false false)
  = Build_shr_record (Z.pos m) false false.
Proof.
  revert m. induction k as [k IH | k IH |]; intros m; cbn [iter_pos Pos.iter].
  - cbn [shr_1 orb]. rewrite IH, IH. reflexivity.
  - rewrite IH, IH. reflexivity.
  - reflexivity.
Qed.

(** A mantissa of exactly 53 bits followed by [k] zero bits rounds to
    itself. *)
Lemma binary_round_aux_shifted (s : bool) (m : positive) (k : N) (e : Z) :
  Pos.size m = 53%positive ->
  -1074 <= e + Z.of_N k <= 971 ->
  binary_round_aux prec emax s (Z.pos (Pos.shiftl m k)) e loc_Exact
  = S754_finite s m (e + Z.of_N k).
Proof.
  intros Hsize Hrange.
  unfold binary_round_aux, shr_fexp, fexp, emin.
  cbn [Zdigits2 shr_record_of_loc]. rewrite digits2_pos_size, size_shiftl, Hsize.
  change prec with 53. change emax with 1024.
  replace (Z.max (53 + Z.of_N k + e - 53) (3 - 1024 - 53) - e) with (Z.of_N k) by lia.
  destruct k as [| k]; cbn [Z.of_N shr Pos.shiftl].
  - cbn [shr_m loc_of_shr_record round_nearest_even Zdigits2 shr_record_of_loc].
    rewrite digits2_pos_size, Hsize.
    replace (Z.max (53 + e - 53) (3 - 1024 - 53) - e) with 0 by (cbn in Hrange; lia).
    cbn [shr shr_m].
    replace (e <=? 1024 - 53) with true by (symmetry; apply Z.leb_le; cbn in Hrange; lia).
    f_equal. cbn. lia.
  - rewrite shr_iter_xO.
    cbn [shr_m loc_of_shr_record round_nearest_even Zdigits2 shr_record_of_loc].
    rewrite digits2_pos_size, Hsize.
    replace (Z.max (53 + (e + Z.pos k) - 53) (3 - 1024 - 53) - (e + Z.pos k)) with 0
      by (cbn in Hrange; lia).
    cbn [shr shr_m].
    replace (e + Z.pos k <=? 1024 - 53) with true
      by (symmetry; apply Z.leb_le; cbn in Hrange; lia).
    reflexivity.
Qed.

Lemma Zpos_shiftl (p : positive) (k : N) :
  Z.pos (Pos.shiftl p k) = Z.pos p * 2 ^ Z.of_N k.
Proof.
  destruct k as [| k]; cbn [Pos.shiftl Z.of_N]; [lia |].
  induction k using Pos.peano_ind.
  - cbn. lia.
  - rewrite Pos.iter_succ, Pos2Z.inj_succ, Z.pow_succ_r by lia.
    rewrite Pos2Z.inj_xO, IHk. lia.
Qed.

Lemma shiftl_shiftl (p : positive) (a b : N) :
  Pos.shiftl (Pos.shiftl p a) b = Pos.shiftl p (a + b).
Proof.
  apply Pos2Z.inj. rewrite !Zpos_shiftl, N2Z.inj_add, Z.pow_add_r by lia. lia.
Qed.

Lemma size_bounds (p : positive) :
  2 ^ (Z.pos (Pos.size p) - 1) <= Z.pos p < 2 ^ Z.pos (Pos.size p).
Proof.
  split.
  - pose proof (Pos.size_le p) as H.
    apply Pos2Z.pos_le_pos in H. rewrite Pos2Z.inj_pow in H.
    change (Z.pos p~0) with (2 * Z.pos p) in H.
    replace (Z.pos (Pos.size p)) with (Z.succ (Z.pos (Pos.size p) - 1)) in H by lia.
    rewrite Z.pow_succ_r in H by lia. lia.
  - pose proof (Pos.size_gt p) as H.
    apply Pos2Z.pos_lt_pos in H. now rewrite Pos2Z.inj_pow in H.
Qed.

Lemma size_le_iff (p : positive) (b : Z) :
  0 <= b -> (Z.pos (Pos.size p) <= b <-> Z.pos p < 2 ^ b).
Proof.
  intros Hb. pose proof (size_bounds p) as [Hlo Hhi]. split; intros H.
  - eapply Z.lt_le_trans; [exact Hhi |]. apply Z.pow_le_mono_r; lia.
  - destruct (Z.le_gt_cases (Z.pos (Pos.size p)) b) as [| Hgt]; [assumption |].
    exfalso. assert (2 ^ b <= 2 ^ (Z.pos (Pos.size p) - 1)) by (apply Z.pow_le_mono_r; lia).
    lia.
Qed.

Lemma dyadic_mantissa_size (n : positive) :
  Z.pos (Pos.size n) <= 53 ->
  Pos.size (Pos.shiftl n (Z.to_N (53 - Z.pos (Pos.size n)))) = 53%positive.
Proof.
  intros H. apply Pos2Z.inj. rewrite size_shiftl, Z2N.id by lia. lia.
Qed.

(** Rounding [n * 2^j * 2^e] when [n] has at most 53 bits: exact. *)
Lemma binary_round_dyadic (n : positive) (j : N) (e : Z) :
  Z.pos (Pos.size n) <= 53 ->
  -1074 <= e + Z.of_N j - (53 - Z.pos (Pos.size n)) ->
  e + Z.of_N j - (53 - Z.pos (Pos.size n)) <= 971 ->
  binary_round prec emax false (Pos.shiftl n j) e = dyadic n (e + Z.of_N j).
Proof.
  intros Hsize Hlo Hhi. unfold binary_round, shl_align, fexp, emin, dyadic.
  rewrite digits2_pos_size, size_shiftl.
  change prec with 53. change emax with 1024.
  pose proof (dyadic_mantissa_size n Hsize) as Hm.
  remember (Z.to_N (53 - Z.pos (Pos.size n))) as k eqn:Hk.
  assert (Hk' : Z.of_N k = 53 - Z.pos (Pos.size n)) by (subst k; apply Z2N.id; lia).
  rewrite <- Hk' in *. clear Hk.
  rewrite Z.max_l by lia.
  replace (Z.pos (Pos.size n) + Z.of_N j + e - 53) with (e + Z.of_N j - Z.of_N k) by lia.
  replace (e + Z.of_N j - Z.of_N k - e) with (Z.of_N j - Z.of_N k) by lia.
  destruct (Z.of_N j - Z.of_N k) as [| d | d] eqn:Hd.
  - replace j with (k + 0)%N by lia. rewrite <- shiftl_shiftl.
    rewrite binary_round_aux_shifted by (cbn; lia || assumption).
    f_equal. cbn. lia.
  - replace j with (k + N.pos d)%N by lia. rewrite <- shiftl_shiftl.
    rewrite binary_round_aux_shifted by (cbn; lia || assumption).
    f_equal. cbn. lia.
  - change (Pos.iter xO (Pos.shiftl n j) d) with (Pos.shiftl (Pos.shiftl n j) (N.pos d)).
    rewrite shiftl_shiftl. replace (j + N.pos d)%N with (k + 0)%N by lia.
    rewrite <- shiftl_shiftl.
    rewrite binary_round_aux_shifted by (cbn; lia || assumption).
    f_equal. cbn. lia.
Qed.

Lemma dyadic_valid (n : positive) (e : Z) :
  Z.pos (Pos.size n) <= 53 ->
  -1074 <= e - (53 - Z.pos (Pos.size n)) <= 971 ->
  valid_binary (dyadic n e) = true.
Proof.
  intros Hsize Hrange. unfold dyadic.
  cbn [SpecFloat.valid_binary]. unfold bounded, canonical_mantissa, fexp, emin.
  rewrite digits2_pos_size, dyadic_mantissa_size by assumption.
  change prec with 53. change emax with 1024.
  rewrite Z.max_l by lia.
  apply andb_true_intro. split; [apply Z.eqb_eq | apply Z.leb_le]; lia.
Qed.

Lemma Prim2SF_Z2F_pos (n : positive) :
  Z.pos (Pos.size n) <= 53 ->
  Prim2SF (Z2F (Z.pos n)) = dyadic n 0.
Proof.
  intros Hsize. unfold Z2F. cbn [binary_normalize].
  change n with (Pos.shiftl n 0) at 1.
  rewrite binary_round_dyadic by (change (Z.of_N 0) with 0; lia).
  apply Prim2SF_SF2Prim, dyadic_valid; [assumption | lia].
Qed.

Lemma pow2_pos (x : Z) : 0 <= x -> 0 < 2 ^ x.
Proof. intros. apply Z.pow_pos_nonneg; lia. Qed.

(** Comparing two such values compares the numbers they stand for. *)
Lemma SFcompare_dyadic (a b : positive) (ea eb x y : Z) :
  Z.pos (Pos.size a) <= 53 ->
  Z.pos (Pos.size b) <= 53 ->
  0 <= x -> 0 <= y -> ea - eb = x - y ->
  SFcompare (dyadic a ea) (dyadic b eb) = Some (Z.pos a * 2 ^ x ?= Z.pos b * 2 ^ y).
Proof.
  intros Ha Hb Hx Hy Hxy. unfold dyadic. cbn [SFcompare]. f_equal.
  pose proof (size_bounds a) as [Halo Hahi].
  pose proof (size_bounds b) as [Hblo Hbhi].
  pose proof (pow2_pos x Hx) as Hpx. pose proof (pow2_pos y Hy) as Hpy.
  set (sa := Z.pos (Pos.size a)) in *. set (sb := Z.pos (Pos.size b)) in *.
  assert (Hsa : 1 <= sa) by (unfold sa; lia).
  assert (Hsb : 1 <= sb) by (unfold sb; lia).
  destruct (Z.compare_spec (ea - (53 - sa)) (eb - (53 - sb))) as [Heq | Hlt | Hgt];
    cbv iota.
  - change (Pos.compare_cont Eq) with Pos.compare.
    rewrite Pos2Z.inj_compare, !Zpos_shiftl, !Z2N.id by lia.
    rewrite (Zmult_compare_compat_r (Z.pos a * 2 ^ (53 - sa)) (Z.pos b * 2 ^ (53 - sb))
               (2 ^ (x + y))) by (apply Z.lt_gt, pow2_pos; lia).
    rewrite (Zmult_compare_compat_r (Z.pos a * 2 ^ x) (Z.pos b * 2 ^ y)
               (2 ^ (53 - sa + y))) by (apply Z.lt_gt, pow2_pos; lia).
    rewrite <- !Z.mul_assoc, <- !Z.pow_add_r by lia.
    replace (53 - sb + (x + y)) with (y + (53 - sa + y)) by lia.
    replace (53 - sa + (x + y)) with (x + (53 - sa + y)) by lia.
    reflexivity.
  - symmetry. apply Z.compare_lt_iff.
    assert (Z.pos a * 2 ^ x < 2 ^ sa * 2 ^ x) by (apply Z.mul_lt_mono_pos_r; lia).
    assert (2 ^ (sb - 1) * 2 ^ y <= Z.pos b * 2 ^ y) by (apply Z.mul_le_mono_nonneg_r; lia).
    assert (2 ^ (sa + x) <= 2 ^ (sb - 1 + y)) by (apply Z.pow_le_mono_r; lia).
    rewrite !Z.pow_add_r in * by lia. lia.
  - symmetry. apply Z.compare_gt_iff.
    assert (Z.pos b * 2 ^ y < 2 ^ sb * 2 ^ y) by (apply Z.mul_lt_mono_pos_r; lia).
    assert (2 ^ (sa - 1) * 2 ^ x <= Z.pos a * 2 ^ x) by (apply Z.mul_le_mono_nonneg_r; lia).
    assert (2 ^ (sb + y) <= 2 ^ (sa - 1 + x)) by (apply Z.pow_le_mono_r; lia).
    rewrite !Z.pow_add_r in * by lia. lia.
Qed.

Lemma size_mul_lower (a b : positive) :
  Z.pos (Pos.size a) + Z.pos (Pos.size b) - 1 <= Z.pos (Pos.size (a * b)).
Proof.
  pose proof (size_bounds a) as [Halo _]. pose proof (size_bounds b) as [Hblo _].
  pose proof (size_bounds (a * b)) as [_ Hhi]. rewrite Pos2Z.inj_mul in Hhi.
  set (sa := Z.pos (Pos.size a)) in *. set (sb := Z.pos (Pos.size b)) in *.
  set (sab := Z.pos (Pos.size (a * b))) in *.
  assert (Hsa : 1 <= sa) by (unfold sa; lia).
  assert (Hsb : 1 <= sb) by (unfold sb; lia).
  destruct (Z.le_gt_cases (sa + sb - 1) sab) as [| Hgt]; [assumption | exfalso].
  assert (2 ^ sab <= 2 ^ (sa - 1 + (sb - 1))) by (apply Z.pow_le_mono_r; lia).
  rewrite Z.pow_add_r in * by lia.
  assert (2 ^ (sa - 1) * 2 ^ (sb - 1) <= Z.pos a * Z.pos b).
  { apply Z.mul_le_mono_nonneg; try lia; apply Z.pow_nonneg; lia. }
  lia.
Qed.

(** The product of two such values, when it fits in 53 bits, is exact. *)
Lemma SFmul_dyadic (a b : positive) (ea eb : Z) :
  Z.pos (Pos.size (a * b)) <= 53 ->
  -1000 <= ea <= 900 -> -1000 <= eb <= 900 -> -1000 <= ea + eb <= 900 ->
  SF64mul (dyadic a ea) (dyadic b eb) = dyadic (a * b) (ea + eb).
Proof.
  intros Hab Hea Heb Heab.
  pose proof (size_mul_lower a b) as Hlow.
  assert (Ha : Z.pos (Pos.size a) <= 53) by lia.
  assert (Hb : Z.pos (Pos.size b) <= 53) by lia.
  unfold SF64mul, dyadic at 1 2. cbn [SFmul xorb].
  set (sa := Z.pos (Pos.size a)) in *. set (sb := Z.pos (Pos.size b)) in *.
  set (sab := Z.pos (Pos.size (a * b))) in *.
  assert (Hsa : 1 <= sa) by (unfold sa; lia).
  assert (Hsb : 1 <= sb) by (unfold sb; lia).
  replace (Pos.shiftl a (Z.to_N (53 - sa)) * Pos.shiftl b (Z.to_N (53 - sb)))%positive
    with (Pos.shiftl (Pos.shiftl (a * b) (Z.to_N (53 - sab)))
            (Z.to_N (53 - sa + (53 - sb) - (53 - sab)))).
  - rewrite binary_round_aux_shifted.
    + unfold dyadic. fold sab. f_equal. rewrite Z2N.id by lia. lia.
    + apply dyadic_mantissa_size. assumption.
    + rewrite Z2N.id by lia. lia.
  - apply Pos2Z.inj. rewrite Pos2Z.inj_mul, !Zpos_shiftl, !Z2N.id by lia.
    rewrite Pos2Z.inj_mul.
    replace (53 - sa + (53 - sb) - (53 - sab)) with (53 - sa + (53 - sb) + - (53 - sab)) by lia.
    rewrite <- !Z.mul_assoc, <- Z.pow_add_r by lia.
    replace (53 - sab + (53 - sa + (53 - sb) + - (53 - sab))) with (53 - sa + (53 - sb)) by lia.
    rewrite Z.pow_add_r by lia. lia.
Qed.

Lemma size_le_53 (n : positive) : Z.pos n < 2 ^ 53 -> Z.pos (Pos.size n) <= 53.
Proof. intros H. apply size_le_iff; [lia | exact H]. Qed.

Lemma Prim2SF_Z2F_zero : Prim2SF (Z2F 0) = S754_zero false.
Proof. reflexivity. Qed.

(** Integers below 2^53 compare in binary64 as they do in [Z]. *)
Lemma Z2F_compare (q r : Z) :
  0 <= q < 2 ^ 53 -> 0 <= r < 2 ^ 53 ->
  SFcompare (Prim2SF (Z2F q)) (Prim2SF (Z2F r)) = Some (q ?= r).
Proof.
  intros Hq Hr.
  destruct q as [| a | a]; [| | lia]; destruct r as [| b | b]; try lia.
  - reflexivity.
  - rewrite Prim2SF_Z2F_zero, Prim2SF_Z2F_pos by (apply size_le_53; lia). reflexivity.
  - rewrite Prim2SF_Z2F_zero, Prim2SF_Z2F_pos by (apply size_le_53; lia). reflexivity.
  - rewrite !Prim2SF_Z2F_pos by (apply size_le_53; lia).
    rewrite (SFcompare_dyadic a b 0 0 0 0) by (try apply size_le_53; lia).
    now rewrite !Z.mul_1_r.
Qed.

Lemma Z2F_leb (q r : Z) :
  0 <= q < 2 ^ 53 -> 0 <= r < 2 ^ 53 ->
  (Z2F q <=? Z2F r)%float = (q <=? r).
Proof.
  intros Hq Hr. rewrite leb_spec. unfold SFleb. rewrite Z2F_compare by assumption.
  unfold Z.leb. destruct (q ?= r); reflexivity.
Qed.

Lemma Z2F_ltb (q r : Z) :
  0 <= q < 2 ^ 53 -> 0 <= r < 2 ^ 53 ->
  (Z2F q <? Z2F r)%float = (q <? r).
Proof.
  intros Hq Hr. rewrite ltb_spec. unfold SFltb. rewrite Z2F_compare by assumption.
  unfold Z.ltb. destruct (q ?= r); reflexivity.
Qed.

Lemma Z2F_eqb (q r : Z) :
  0 <= q < 2 ^ 53 -> 0 <= r < 2 ^ 53 ->
  (Z2F q =? Z2F r)%float = (q =? r).
Proof.
  intros Hq Hr. rewrite eqb_spec. unfold SFeqb. rewrite Z2F_compare by assumption.
  rewrite Z.eqb_compare. destruct (q ?= r); reflexivity.
Qed.

Lemma shl_align_value (m : positive) (ex ez : Z) :
  ez <= ex ->
  Z.pos (fst (shl_align m ex ez)) = Z.pos m * 2 ^ (ex - ez).
Proof.
  intros H. unfold shl_align.
  destruct (ez - ex) as [| d | d] eqn:Hd; cbn [fst]; try lia.
  - replace (ex - ez) with 0 by lia. lia.
  - change (Pos.iter xO m d) with (Pos.shiftl m (N.pos d)).
    rewrite Zpos_shiftl. f_equal. f_equal. lia.
Qed.

(** The sum of two such values with a common exponent, when it fits in
    53 bits, is exact. *)
Lemma SFadd_dyadic (a b : positive) (e : Z) :
  Z.pos (Pos.size (a + b)) <= 53 ->
  -1000 <= e <= 900 ->
  SF64add (dyadic a e) (dyadic b e) = dyadic (a + b) e.
Proof.
  intros Hab He.
  pose proof (size_bounds a) as [Halo Hahi].
  pose proof (size_bounds b) as [Hblo Hbhi].
  assert (Hsum : Z.pos (a + b) < 2 ^ 53) by (apply size_le_iff; [lia | exact Hab]).
  assert (Ha : Z.pos (Pos.size a) <= 53) by (apply size_le_53; lia).
  assert (Hb : Z.pos (Pos.size b) <= 53) by (apply size_le_53; lia).
  unfold SF64add, dyadic at 1 2. cbn [SFadd cond_Zopp].
  set (ka := 53 - Z.pos (Pos.size a)) in *. set (kb := 53 - Z.pos (Pos.size b)) in *.
  set (ez := Z.min (e - ka) (e - kb)).
  assert (Hez : ez <= e - ka /\ ez <= e - kb /\ e - 52 <= ez <= e) by (unfold ez, ka, kb; lia).
  replace (Z.pos (fst (shl_align (Pos.shiftl a (Z.to_N ka)) (e - ka) ez))
           + Z.pos (fst (shl_align (Pos.shiftl b (Z.to_N kb)) (e - kb) ez)))
    with (Z.pos (Pos.shiftl (a + b) (Z.to_N (e - ez)))).
  - cbn [binary_normalize].
    rewrite binary_round_dyadic by (rewrite ?Z2N.id by lia; lia).
    f_equal. rewrite Z2N.id by lia. lia.
  - rewrite !shl_align_value, !Zpos_shiftl, !Z2N.id by (unfold ka, kb; lia).
    rewrite Pos2Z.inj_add, <- !Z.mul_assoc, <- !Z.pow_add_r by (unfold ka, kb; lia).
    replace (ka + (e - ka - ez)) with (e - ez) by lia.
    replace (kb + (e - kb - ez)) with (e - ez) by lia. lia.
Qed.

Lemma scaledSF_valid (n e : Z) :
  0 <= n < 2 ^ 53 -> -1000 <= e <= 900 -> valid_binary (scaledSF n e) = true.
Proof.
  intros Hn He. destruct n as [| p | p]; try reflexivity.
  apply dyadic_valid; [apply size_le_53; lia |].
  pose proof (size_le_53 p ltac:(lia)). lia.
Qed.

Lemma Prim2SF_scaled (n e : Z) :
  0 <= n < 2 ^ 53 -> -1000 <= e <= 900 -> Prim2SF (scaled n e) = scaledSF n e.
Proof. intros. now apply Prim2SF_SF2Prim, scaledSF_valid. Qed.

Lemma Z2F_scaled (n : Z) : 0 <= n < 2 ^ 53 -> Z2F n = scaled n 0.
Proof.
  intros Hn. apply Prim2SF_inj. rewrite Prim2SF_scaled by lia.
  destruct n as [| p | p]; [reflexivity | | lia].
  apply Prim2SF_Z2F_pos, size_le_53. lia.
Qed.

Lemma scaled_mul (a b ea eb : Z) :
  0 <= a -> 0 <= b -> a * b < 2 ^ 53 ->
  a < 2 ^ 53 -> b < 2 ^ 53 ->
  -1000 <= ea <= 900 -> -1000 <= eb <= 900 -> -1000 <= ea + eb <= 900 ->
  (scaled a ea * scaled b eb)%float = scaled (a * b) (ea + eb).
Proof.
  intros Ha Hb Hab Ha' Hb' Hea Heb Heab. apply Prim2SF_inj.
  rewrite mul_spec, !Prim2SF_scaled by lia.
  destruct a as [| p | p], b as [| q | q]; try lia; try reflexivity.
  cbn [scaledSF Z.mul]. apply SFmul_dyadic; try lia.
  apply size_le_53. exact Hab.
Qed.

Lemma scaled_add (a b e : Z) :
  0 <= a -> 0 <= b -> a + b < 2 ^ 53 -> -1000 <= e <= 900 ->
  (scaled a e + scaled b e)%float = scaled (a + b) e.
Proof.
  intros Ha Hb Hab He. apply Prim2SF_inj.
  rewrite add_spec, !Prim2SF_scaled by lia.
  destruct a as [| p | p], b as [| q | q]; try lia; try reflexivity.
  cbn [scaledSF Z.add]. apply SFadd_dyadic; try lia.
  apply size_le_53. exact Hab.
Qed.

Lemma Z2F_is_nan (n : Z) : 0 <= n < 2 ^ 53 -> is_nan (Z2F n) = false.
Proof.
  intros Hn. unfold is_nan. rewrite Z2F_eqb by lia. now rewrite Z.eqb_refl.
Qed.

Lemma Z2F_get_sign (n : Z) : 0 <= n < 2 ^ 53 -> get_sign (Z2F n) = false.
Proof.
  intros Hn. unfold get_sign, is_zero.
  change zero with (Z2F 0). rewrite Z2F_eqb by lia.
  destruct (Z.eqb_spec n 0) as [-> | Hne]; [reflexivity |].
  change 0%float with (Z2F 0). rewrite Z2F_ltb by lia.
  apply Z.ltb_ge. lia.
Qed.

Lemma Math_max_Z2F (a b : Z) :
  0 <= a < 2 ^ 53 -> 0 <= b < 2 ^ 53 ->
  Math_max (Z2F a) (Z2F b) = Z2F (Z.max a b).
Proof.
  intros Ha Hb. unfold Math_max.
  rewrite !Z2F_is_nan, !Z2F_ltb, Z2F_get_sign by lia. cbn [orb].
  destruct (Z.ltb_spec a b); [f_equal; lia |].
  destruct (Z.ltb_spec b a); f_equal; lia.
Qed.

Lemma Z2F_mul (a b : Z) :
  0 <= a < 2 ^ 53 -> 0 <= b < 2 ^ 53 -> a * b < 2 ^ 53 ->
  (Z2F a * Z2F b)%float = Z2F (a * b).
Proof.
  intros Ha Hb Hab.
  rewrite !Z2F_scaled by nia.
  rewrite scaled_mul by lia. reflexivity.
Qed.

Lemma Z2F_times_1_5 (r : Z) :
  0 <= r -> 3 * r < 2 ^ 53 -> (Z2F r * 1.5)%float = scaled (3 * r) (-1).
Proof.
  intros Hr Hr3. rewrite Z2F_scaled by lia.
  change 1.5%float with (scaled 3 (-1)).
  rewrite scaled_mul by lia. f_equal. lia.
Qed.

Lemma Z2F_leb_times_1_5 (q r : Z) :
  0 <= q < 2 ^ 53 -> 0 <= r -> 3 * r < 2 ^ 53 ->
  (Z2F q <=? Z2F r * 1.5)%float = (2 * q <=? 3 * r).
Proof.
  intros Hq Hr Hr3. rewrite Z2F_times_1_5, leb_spec by assumption.
  rewrite Prim2SF_scaled by lia. unfold SFleb.
  destruct q as [| a | a]; [| | lia].
  - rewrite Prim2SF_Z2F_zero.
    destruct r as [| b | b]; [reflexivity | | lia].
    cbn [Z.mul scaledSF]. reflexivity.
  - rewrite Prim2SF_Z2F_pos by (apply size_le_53; lia).
    destruct r as [| b | b]; [reflexivity | | lia].
    cbn [Z.mul scaledSF].
    rewrite (SFcompare_dyadic a (3 * b) 0 (-1) 1 0)
      by (try apply size_le_53; lia).
    unfold Z.leb. change (2 ^ 1) with 2. change (2 ^ 0) with 1.
    replace (Z.pos a * 2) with (2 * Z.pos a) by lia.
    replace (Z.pos (3 * b) * 1) with (3 * Z.pos b) by lia.
    reflexivity.
Qed.

(* ================================================================== *)
(** * Rounding to binary64 is monotone *)

Lemma iter_pos_swap {A : Type} (f : A -> A) (p : positive) (x : A) :
  iter_pos f p (f x) = f (iter_pos f p x).
Proof.
  revert x. induction p as [p IH | p IH |]; intros x; cbn [iter_pos].
  - now rewrite !IH.
  - now rewrite !IH.
  - reflexivity.
Qed.

Lemma iter_pos_succ {A : Type} (f : A -> A) (p : positive) (x : A) :
  iter_pos f (Pos.succ p) x = f (iter_pos f p x).
Proof.
  revert x. induction p as [p IH | p IH |]; intros x; cbn [iter_pos Pos.succ].
  - rewrite !IH. now rewrite !iter_pos_swap.
  - now rewrite !iter_pos_swap.
  - reflexivity.
Qed.

Lemma shr_1_nonneg (m : Z) (r s : bool) :
  0 <= m ->
  shr_1 (Build_shr_record m r s) = Build_shr_record (Z.div2 m) (Z.odd m) (r || s).
Proof.
  intros Hm. destruct m as [| [p | p |] |]; try reflexivity. lia.
Qed.

Lemma mod_pow2_succ (m n : Z) :
  0 <= n ->
  m mod 2 ^ (n + 1) = m mod 2 ^ n + (if Z.testbit m n then 2 ^ n else 0).
Proof.
  intros Hn. rewrite Z.pow_add_r, Z.pow_1_r by lia.
  rewrite Z.rem_mul_r by (try apply Z.pow_nonzero; lia).
  destruct (Z.testbit m n) eqn:Hbit.
  - apply Z.testbit_true in Hbit; [| lia]. rewrite Hbit. lia.
  - apply Z.testbit_false in Hbit; [| lia]. rewrite Hbit. lia.
Qed.

Lemma mod_pow2_pred (m n : Z) :
  1 <= n ->
  m mod 2 ^ n = m mod 2 ^ (n - 1) + (if Z.testbit m (n - 1) then 2 ^ (n - 1) else 0).
Proof.
  intros Hn. replace n with (n - 1 + 1) at 1 by lia. apply mod_pow2_succ. lia.
Qed.

(** [p] steps of [shr_1] on an exact mantissa: the quotient by [2^p],
    the last bit shifted out, and whether any earlier one was set. *)
Lemma shr_steps (m : Z) (p : positive) :
  0 <= m ->
  iter_pos shr_1 p (Build_shr_record m false false)
  = Build_shr_record (m / 2 ^ Z.pos p) (Z.testbit m (Z.pos p - 1))
      (negb (m mod 2 ^ (Z.pos p - 1) =? 0)).
Proof.
  intros Hm. induction p as [| p IH] using Pos.peano_ind.
  - cbn [iter_pos]. rewrite shr_1_nonneg by assumption.
    change (Z.pos 1 - 1) with 0. rewrite Z.pow_0_r, Z.mod_1_r, Z.bit0_odd.
    rewrite Z.div2_div. reflexivity.
  - rewrite iter_pos_succ, IH.
    rewrite shr_1_nonneg by (apply Z.div_pos; [assumption | apply Z.pow_pos_nonneg; lia]).
    rewrite Pos2Z.inj_succ.
    replace (Z.succ (Z.pos p) - 1) with (Z.pos p) by lia.
    f_equal.
    + rewrite Z.div2_div, Z.pow_succ_r, (Z.mul_comm 2) by lia.
      apply Z.div_div; try lia; apply Z.pow_nonzero; lia.
    + rewrite Z.testbit_odd, Z.shiftr_div_pow2 by lia. reflexivity.
    + rewrite (mod_pow2_pred m (Z.pos p)) by lia.
      pose proof (Z.mod_pos_bound m (2 ^ (Z.pos p - 1)) ltac:(apply Z.pow_pos_nonneg; lia)) as Hb.
      pose proof (Z.pow_pos_nonneg 2 (Z.pos p - 1) ltac:(lia) ltac:(lia)) as Hp.
      destruct (Z.testbit m (Z.pos p - 1)); cbn [orb];
        destruct (Z.eqb_spec (m mod 2 ^ (Z.pos p - 1)) 0) as [H0 | H0]; cbn [negb];
        symmetry; rewrite ?negb_true_iff, ?negb_false_iff;
        try (apply Z.eqb_neq; lia); try (apply Z.eqb_eq; lia).
Qed.

(** Rounding the shifted mantissa as [binary_round_aux] does it. *)
Lemma round_shr_steps (m : Z) (p : positive) :
  0 <= m ->
  let mrs := iter_pos shr_1 p (Build_shr_record m false false) in
  round_nearest_even (shr_m mrs) (loc_of_shr_record mrs) = roundShift (Z.pos p) m.
Proof.
  intros Hm mrs. unfold mrs. rewrite shr_steps by assumption.
  unfold roundShift. cbn [shr_m].
  pose proof (Z.pow_pos_nonneg 2 (Z.pos p - 1) ltac:(lia) ltac:(lia)) as Hp.
  pose proof (Z.mod_pos_bound m (2 ^ (Z.pos p - 1)) Hp) as Hb.
  assert (Hpow : 2 ^ Z.pos p = 2 * 2 ^ (Z.pos p - 1)).
  { rewrite <- Z.pow_succ_r by lia. f_equal. lia. }
  assert (Hmod : m mod 2 ^ Z.pos p
                 = m mod 2 ^ (Z.pos p - 1)
                   + (if Z.testbit m (Z.pos p - 1) then 2 ^ (Z.pos p - 1) else 0))
    by (apply mod_pow2_pred; lia).
  rewrite Hmod. rewrite Hpow at 2.
  destruct (Z.testbit m (Z.pos p - 1));
    destruct (Z.eqb_spec (m mod 2 ^ (Z.pos p - 1)) 0) as [H0 | H0];
    cbn [negb loc_of_shr_record round_nearest_even].
  all: match goal with
       | |- context [?a ?= ?b] => destruct (Z.compare_spec a b); try lia
       end; reflexivity.
Qed.

Lemma roundShift_0 (m : Z) : roundShift 0 m = m.
Proof.
  unfold roundShift. rewrite Z.pow_0_r, Z.mod_1_r, Z.div_1_r. reflexivity.
Qed.

Lemma roundShift_between (k m : Z) :
  m / 2 ^ k <= roundShift k m <= m / 2 ^ k + 1.
Proof.
  unfold roundShift.
  destruct (_ ?= _); [destruct (Z.even _) | |]; lia.
Qed.

Lemma roundShift_mono (k m1 m2 : Z) :
  0 <= k -> m1 <= m2 -> roundShift k m1 <= roundShift k m2.
Proof.
  intros Hk Hm.
  pose proof (Z.pow_pos_nonneg 2 k ltac:(lia) Hk) as Hp.
  pose proof (Z.div_le_mono m1 m2 (2 ^ k) Hp Hm) as Hq.
  destruct (Z.eq_dec (m1 / 2 ^ k) (m2 / 2 ^ k)) as [Heq | Hne].
  - pose proof (Z.div_mod m1 (2 ^ k) ltac:(lia)) as H1.
    pose proof (Z.div_mod m2 (2 ^ k) ltac:(lia)) as H2.
    assert (Hr : m1 mod 2 ^ k <= m2 mod 2 ^ k) by (rewrite Heq in H1; lia).
    unfold roundShift. rewrite Heq.
    destruct (Z.compare_spec (2 * (m1 mod 2 ^ k)) (2 ^ k)),
             (Z.compare_spec (2 * (m2 mod 2 ^ k)) (2 ^ k));
      try destruct (Z.even (m2 / 2 ^ k)); lia.
  - pose proof (roundShift_between k m1). pose proof (roundShift_between k m2). lia.
Qed.

Lemma roundShift_shift (k j m : Z) :
  0 <= k -> 0 <= j -> roundShift (k + j) (m * 2 ^ j) = roundShift k m.
Proof.
  intros Hk Hj.
  pose proof (Z.pow_pos_nonneg 2 k ltac:(lia) Hk) as Hpk.
  pose proof (Z.pow_pos_nonneg 2 j ltac:(lia) Hj) as Hpj.
  unfold roundShift. rewrite Z.pow_add_r by lia.
  rewrite Z.div_mul_cancel_r by lia.
  rewrite Z.mul_mod_distr_r by lia.
  replace (2 * (m mod 2 ^ k * 2 ^ j) ?= 2 ^ k * 2 ^ j)
    with (2 * (m mod 2 ^ k) ?= 2 ^ k); [reflexivity |].
  replace (2 * (m mod 2 ^ k * 2 ^ j)) with (2 * (m mod 2 ^ k) * 2 ^ j) by lia.
  apply Zmult_compare_compat_r. lia.
Qed.

Lemma roundShift_exact (k m : Z) :
  0 <= k -> roundShift k (m * 2 ^ k) = m.
Proof.
  intros Hk. replace k with (0 + k) at 1 by lia.
  rewrite roundShift_shift by lia. apply roundShift_0.
Qed.

Lemma mantissa53_bounds (P : positive) :
  2 ^ 52 <= mantissa53 P <= 2 ^ 53.
Proof.
  unfold mantissa53. pose proof (size_bounds P) as [Hlo Hhi].
  set (s := Z.pos (Pos.size P)) in *.
  assert (Hs : 1 <= s) by (unfold s; lia).
  destruct (Z.leb_spec (s - 53) 0) as [Hk | Hk].
  - assert (H1 : 2 ^ (s - 1) * 2 ^ (- (s - 53)) <= Z.pos P * 2 ^ (- (s - 53)))
      by (apply Z.mul_le_mono_nonneg_r; [apply Z.pow_nonneg |]; lia).
    assert (H2 : Z.pos P * 2 ^ (- (s - 53)) < 2 ^ s * 2 ^ (- (s - 53)))
      by (apply Z.mul_lt_mono_pos_r; [apply Z.pow_pos_nonneg |]; lia).
    rewrite <- Z.pow_add_r in H1, H2 by lia.
    replace (s - 1 + - (s - 53)) with 52 in H1 by lia.
    replace (s + - (s - 53)) with 53 in H2 by lia. lia.
  - pose proof (roundShift_between (s - 53) (Z.pos P)) as Hr.
    pose proof (Z.pow_pos_nonneg 2 (s - 53) ltac:(lia) ltac:(lia)) as Hp.
    assert (H1 : 2 ^ 52 <= Z.pos P / 2 ^ (s - 53)).
    { apply Z.div_le_lower_bound; [lia |].
      rewrite <- Z.pow_add_r by lia. replace (s - 53 + 52) with (s - 1) by lia. lia. }
    assert (H2 : Z.pos P / 2 ^ (s - 53) < 2 ^ 53).
    { apply Z.div_lt_upper_bound; [lia |].
      rewrite <- Z.pow_add_r by lia. replace (s - 53 + 53) with s by lia. lia. }
    lia.
Qed.

Lemma size_of_bounds (c : Z) (b : Z) :
  0 <= b -> 2 ^ b <= c < 2 ^ (b + 1) -> Z.pos (Pos.size (Z.to_pos c)) = b + 1.
Proof.
  intros Hb [Hlo Hhi].
  pose proof (Z.pow_pos_nonneg 2 b ltac:(lia) Hb) as Hp.
  destruct c as [| c | c]; try lia. cbn [Z.to_pos].
  pose proof (size_bounds c) as [Hl Hh].
  set (s := Z.pos (Pos.size c)) in *.
  assert (Hs : 1 <= s) by (unfold s; lia).
  destruct (Z.lt_trichotomy s (b + 1)) as [H | [H | H]]; [exfalso | assumption | exfalso].
  - assert (2 ^ s <= 2 ^ b) by (apply Z.pow_le_mono_r; lia). lia.
  - assert (2 ^ (b + 1) <= 2 ^ (s - 1)) by (apply Z.pow_le_mono_r; lia). lia.
Qed.

(** [binary_round_aux] on a mantissa of at least 53 bits, above the
    subnormal range. *)
Lemma binary_round_aux_general (s : bool) (P : positive) (e : Z) :
  let k := Z.pos (Pos.size P) - 53 in
  0 <= k ->
  -1074 <= e + k ->
  binary_round_aux prec emax s (Z.pos P) e loc_Exact = pack s (roundShift k (Z.pos P)) (e + k).
Proof.
  intros k Hk He.
  assert (Hb : 2 ^ 52 <= roundShift k (Z.pos P) <= 2 ^ 53).
  { pose proof (mantissa53_bounds P) as H. unfold mantissa53 in H. fold k in H.
    destruct (Z.leb_spec k 0); [| exact H].
    replace k with 0 in * by lia. rewrite roundShift_0. cbn in H. lia. }
  unfold binary_round_aux, shr_fexp, fexp, emin.
  cbn [Zdigits2 shr_record_of_loc]. rewrite digits2_pos_size.
  change prec with 53. change emax with 1024.
  replace (Z.max (Z.pos (Pos.size P) + e - 53) (3 - 1024 - 53) - e) with k by (unfold k; lia).
  assert (Hfirst :
    let '(mrs', e') := shr (Build_shr_record (Z.pos P) false false) e k in
    round_nearest_even (shr_m mrs') (loc_of_shr_record mrs') = roundShift k (Z.pos P)
    /\ e' = e + k).
  { destruct k as [| p | p] eqn:Hkp; [| | lia].
    - cbn [shr shr_m loc_of_shr_record round_nearest_even]. rewrite roundShift_0. lia.
    - cbn [shr]. split; [apply round_shr_steps; lia | reflexivity]. }
  destruct (shr _ e k) as [mrs' e']. destruct Hfirst as [-> ->].
  set (c := roundShift k (Z.pos P)) in *. clearbody c.
  unfold pack.
  destruct (Z.eqb_spec c (2 ^ 53)) as [Hc | Hc].
  - rewrite Hc. change (Zdigits2 (2 ^ 53)) with 54.
    replace (Z.max (54 + (e + k) - 53) (3 - 1024 - 53) - (e + k)) with 1 by lia.
    cbn [shr iter_pos shr_1 shr_m]. change (2 ^ 53) with (Z.pos (2 ^ 53)).
    cbn [shr_record_of_loc shr_1 shr_m Pos.pow Pos.iter Pos.mul].
    reflexivity.
  - assert (Hsize : Zdigits2 c = 53).
    { destruct c as [| c0 | c0]; try (cbn in Hb; lia).
      cbn [Zdigits2]. rewrite digits2_pos_size.
      apply (size_of_bounds (Z.pos c0) 52); [lia |]. change (52 + 1) with 53. lia. }
    rewrite Hsize.
    replace (Z.max (53 + (e + k) - 53) (3 - 1024 - 53) - (e + k)) with 0 by lia.
    cbn [shr shr_record_of_loc shr_m].
    destruct c as [| c0 | c0]; try (cbn in Hb; lia). reflexivity.
Qed.

Lemma pack_cases (s : bool) (c x : Z) :
  2 ^ 52 <= c <= 2 ^ 53 ->
  pack s c x = S754_infinity s
  \/ exists c' x',
       pack s c x = S754_finite s c' x'
       /\ 2 ^ 52 <= Z.pos c' < 2 ^ 53 /\ x <= x' <= 971
       /\ ((c < 2 ^ 53 /\ Z.pos c' = c /\ x' = x)
           \/ (c = 2 ^ 53 /\ Z.pos c' = 2 ^ 52 /\ x' = x + 1)).
Proof.
  intros Hc. unfold pack.
  destruct (Z.eqb_spec c (2 ^ 53)) as [-> | Hne].
  - destruct (Z.leb_spec (x + 1) 971); [right | left; reflexivity].
    exists (Z.to_pos (2 ^ 52)), (x + 1). repeat split; try reflexivity; try lia.
  - destruct (Z.leb_spec x 971); [right | left; reflexivity].
    exists (Z.to_pos c), x.
    assert (Hpos : Z.pos (Z.to_pos c) = c) by (apply Z2Pos.id; lia).
    rewrite Hpos. repeat split; try reflexivity; try lia.
Qed.

Lemma pack_valid (s : bool) (c x : Z) :
  2 ^ 52 <= c <= 2 ^ 53 -> -1074 <= x -> valid_binary (pack s c x) = true.
Proof.
  intros Hc Hx.
  destruct (pack_cases s c x Hc) as [-> | (c' & x' & -> & Hc' & Hx' & _)]; [reflexivity |].
  cbn [SpecFloat.valid_binary]. unfold bounded, canonical_mantissa, fexp, emin.
  rewrite digits2_pos_size.
  replace (Z.pos (Pos.size c')) with 53.
  - change prec with 53. change emax with 1024.
    apply andb_true_intro. split; [apply Z.eqb_eq | apply Z.leb_le]; lia.
  - symmetry. change c' with (Z.to_pos (Z.pos c')).
    apply (size_of_bounds (Z.pos c') 52); [lia |]. change (52 + 1) with 53. lia.
Qed.

Lemma normal_valid (s : bool) (P : positive) (e : Z) :
  -1074 <= e + (Z.pos (Pos.size P) - 53) -> valid_binary (normal s P e) = true.
Proof.
  intros He. apply pack_valid; [apply mantissa53_bounds | exact He].
Qed.

Lemma mantissa53_long (P : positive) :
  0 <= Z.pos (Pos.size P) - 53 ->
  mantissa53 P = roundShift (Z.pos (Pos.size P) - 53) (Z.pos P).
Proof.
  intros Hk. unfold mantissa53.
  destruct (Z.leb_spec (Z.pos (Pos.size P) - 53) 0) as [H0 | H0]; [| reflexivity].
  replace (Z.pos (Pos.size P) - 53) with 0 by lia.
  rewrite roundShift_0. cbn. lia.
Qed.

Lemma binary_round_normal (s : bool) (P : positive) (e : Z) :
  -1074 <= e + (Z.pos (Pos.size P) - 53) ->
  binary_round prec emax s P e = normal s P e.
Proof.
  intros He. unfold binary_round, shl_align, fexp, emin, normal, mantissa53.
  rewrite digits2_pos_size. change prec with 53. change emax with 1024.
  set (k := Z.pos (Pos.size P) - 53) in *.
  replace (Z.max (Z.pos (Pos.size P) + e - 53) (3 - 1024 - 53) - e) with k by (unfold k; lia).
  replace (Z.max (Z.pos (Pos.size P) + e - 53) (3 - 1024 - 53)) with (e + k) by (unfold k; lia).
  destruct k as [| p | p] eqn:Hk.
  - rewrite binary_round_aux_general by (fold k; lia). fold k. rewrite Hk.
    rewrite roundShift_0. cbn [Z.leb Z.compare Z.opp]. rewrite Z.pow_0_r, Z.mul_1_r. reflexivity.
  - rewrite binary_round_aux_general by (fold k; lia). fold k. rewrite Hk. reflexivity.
  - change (Pos.iter xO P p) with (Pos.shiftl P (N.pos p)).
    assert (Hsize : Z.pos (Pos.size (Pos.shiftl P (N.pos p))) - 53 = 0)
      by (rewrite size_shiftl; cbn [Z.of_N]; lia).
    rewrite binary_round_aux_general by (rewrite Hsize; lia).
    rewrite Hsize, roundShift_0, Zpos_shiftl, Z.add_0_r. reflexivity.
Qed.

Lemma Prim2SF_Z2F (z : Z) : Prim2SF (Z2F z) = SF_of_Z z.
Proof.
  unfold Z2F. destruct z as [| P | P]; cbn [binary_normalize SF_of_Z].
  - reflexivity.
  - rewrite binary_round_normal by lia. apply Prim2SF_SF2Prim, normal_valid. lia.
  - rewrite binary_round_normal by lia. apply Prim2SF_SF2Prim, normal_valid. lia.
Qed.

Lemma Prim2SF_1_5 : Prim2SF 1.5 = S754_finite false mantissa_1_5 (-52).
Proof. reflexivity. Qed.

Lemma SFmul_1_5 (s : bool) (c : positive) (x : Z) :
  -1022 <= x ->
  SF64mul (S754_finite s c x) (S754_finite false mantissa_1_5 (-52))
  = times_1_5 (S754_finite s c x).
Proof.
  intros Hx. unfold SF64mul. cbn [SFmul times_1_5].
  replace (xorb s false) with s by (destruct s; reflexivity).
  pose proof (size_mul_lower c mantissa_1_5) as Hlow.
  change (Z.pos (Pos.size mantissa_1_5)) with 53 in Hlow.
  assert (Hc : 1 <= Z.pos (Pos.size c)) by lia.
  pose proof (binary_round_aux_general s (c * mantissa_1_5) (x + -52)) as H.
  cbv zeta in H. rewrite H by lia. clear H.
  unfold normal. rewrite mantissa53_long by lia. reflexivity.
Qed.

Lemma Prim2SF_times_1_5 (z : Z) :
  Prim2SF (Z2F z * 1.5) = times_1_5 (SF_of_Z z).
Proof.
  rewrite mul_spec, Prim2SF_Z2F, Prim2SF_1_5.
  destruct z as [| P | P]; cbn [SF_of_Z]; try reflexivity.
  - destruct (pack_cases false (mantissa53 P) (0 + (Z.pos (Pos.size P) - 53))
                (mantissa53_bounds P)) as [H | (c' & x' & H & _ & Hx & _)];
      unfold normal; rewrite H; [reflexivity |].
    apply SFmul_1_5. lia.
  - destruct (pack_cases true (mantissa53 P) (0 + (Z.pos (Pos.size P) - 53))
                (mantissa53_bounds P)) as [H | (c' & x' & H & _ & Hx & _)];
      unfold normal; rewrite H; [reflexivity |].
    apply SFmul_1_5. lia.
Qed.

Lemma lexle_refl (a : Z * Z * Z) : lexle a a.
Proof. unfold lexle. lia. Qed.

Lemma lexle_trans (a b c : Z * Z * Z) : lexle a b -> lexle b c -> lexle a c.
Proof. unfold lexle. lia. Qed.

Lemma lexle_opp3 (a b : Z * Z * Z) : lexle (opp3 a) (opp3 b) <-> lexle b a.
Proof. unfold lexle, opp3. cbn [fst snd]. lia. Qed.

Lemma key_SFopp (x : spec_float) : key (SFopp x) = opp3 (key x).
Proof.
  destruct x as [s | s | | s m e]; try destruct s; try reflexivity.
  unfold opp3. cbn [SFopp negb key fst snd]. now rewrite Z.opp_involutive.
Qed.

(** [SFleb] is the lexicographic order of the keys. *)
Lemma SFleb_key (x y : spec_float) :
  x <> S754_nan -> y <> S754_nan ->
  (SFleb x y = true <-> lexle (key x) (key y)).
Proof.
  intros Hx Hy. unfold SFleb, lexle.
  destruct x as [sx | sx | | sx mx ex], y as [sy | sy | | sy my ey];
    try congruence; cbn [SFcompare key fst snd];
    try (destruct sx); try (destruct sy); cbn [fst snd];
    try (split; [intros _; lia | reflexivity]);
    try (split; [discriminate | lia]).
  - destruct (Z.compare_spec ex ey);
      [change (Pos.compare_cont Eq) with Pos.compare;
       destruct (Pos.compare_spec mx my); cbn [CompOpp] | |];
      split; try discriminate; try reflexivity; try lia.
  - destruct (Z.compare_spec ex ey);
      [change (Pos.compare_cont Eq) with Pos.compare;
       destruct (Pos.compare_spec mx my) | |];
      split; try discriminate; try reflexivity; try lia.
Qed.

Lemma key_pack (c x : Z) :
  2 ^ 52 <= c <= 2 ^ 53 ->
  key (pack false c x)
  = if c =? 2 ^ 53
    then (if x + 1 <=? 971 then (1, x + 1, 2 ^ 52) else (2, 0, 0))
    else (if x <=? 971 then (1, x, c) else (2, 0, 0)).
Proof.
  intros Hc. unfold pack.
  destruct (Z.eqb_spec c (2 ^ 53)) as [-> | Hne].
  - destruct (x + 1 <=? 971); reflexivity.
  - destruct (x <=? 971); [| reflexivity].
    cbn [key]. rewrite Z2Pos.id by lia. reflexivity.
Qed.

Lemma pack_mono (c1 x1 c2 x2 : Z) :
  2 ^ 52 <= c1 <= 2 ^ 53 -> 2 ^ 52 <= c2 <= 2 ^ 53 ->
  x1 < x2 \/ (x1 = x2 /\ c1 <= c2) ->
  lexle (key (pack false c1 x1)) (key (pack false c2 x2)).
Proof.
  intros H1 H2 Hle. rewrite !key_pack by assumption. unfold lexle.
  destruct (Z.eqb_spec c1 (2 ^ 53)), (Z.eqb_spec c2 (2 ^ 53));
    repeat match goal with
      | |- context [?a <=? ?b] => destruct (Z.leb_spec a b)
      end; cbn [fst snd]; lia.
Qed.

Lemma pack_sign (c x : Z) : key (pack true c x) = opp3 (key (pack false c x)).
Proof.
  unfold pack. destruct (_ <=? 971); reflexivity.
Qed.

Lemma size_mono (P1 P2 : positive) :
  (P1 <= P2)%positive -> Z.pos (Pos.size P1) <= Z.pos (Pos.size P2).
Proof.
  intros Hle. pose proof (size_bounds P1) as [Hl1 Hh1]. pose proof (size_bounds P2) as [Hl2 Hh2].
  destruct (Z.le_gt_cases (Z.pos (Pos.size P1)) (Z.pos (Pos.size P2))) as [| Hgt]; [assumption |].
  exfalso.
  assert (2 ^ Z.pos (Pos.size P2) <= 2 ^ (Z.pos (Pos.size P1) - 1))
    by (apply Z.pow_le_mono_r; lia).
  lia.
Qed.

(** Rounding is monotone: at a common exponent, the larger number has
    the larger binary64 value. *)
Lemma normal_mono (P1 P2 : positive) (e : Z) :
  (P1 <= P2)%positive ->
  lexle (key (normal false P1 e)) (key (normal false P2 e)).
Proof.
  intros Hle. unfold normal.
  apply pack_mono; try apply mantissa53_bounds.
  pose proof (size_mono P1 P2 Hle) as Hs.
  destruct (Z.eq_dec (Z.pos (Pos.size P1)) (Z.pos (Pos.size P2))) as [Heq | Hne]; [right | left; lia].
  split; [lia |]. unfold mantissa53. rewrite Heq.
  destruct (Z.leb_spec (Z.pos (Pos.size P2) - 53) 0).
  - apply Z.mul_le_mono_nonneg_r; [apply Z.pow_nonneg |]; lia.
  - apply roundShift_mono; lia.
Qed.

Lemma mantissa53_shiftl (P : positive) (j : N) :
  mantissa53 (Pos.shiftl P j) = mantissa53 P.
Proof.
  unfold mantissa53. rewrite size_shiftl, Zpos_shiftl.
  set (k := Z.pos (Pos.size P) - 53).
  replace (Z.pos (Pos.size P) + Z.of_N j - 53) with (k + Z.of_N j) by (unfold k; lia).
  pose proof (N2Z.is_nonneg j) as Hj.
  destruct (Z.leb_spec (k + Z.of_N j) 0), (Z.leb_spec k 0); try lia.
  - rewrite <- Z.mul_assoc, <- Z.pow_add_r by lia. f_equal. f_equal. lia.
  - replace (Z.pos P * 2 ^ Z.of_N j) with (Z.pos P * 2 ^ (- k) * 2 ^ (k + Z.of_N j)).
    + apply roundShift_exact. lia.
    + rewrite <- Z.mul_assoc, <- Z.pow_add_r by lia. f_equal. f_equal. lia.
  - apply roundShift_shift; lia.
Qed.

Lemma normal_shiftl (s : bool) (P : positive) (j : N) (e : Z) :
  normal s (Pos.shiftl P j) e = normal s P (e + Z.of_N j).
Proof.
  unfold normal. rewrite mantissa53_shiftl, size_shiftl. f_equal. lia.
Qed.

Lemma normal_sign (P : positive) (e : Z) :
  key (normal true P e) = opp3 (key (normal false P e)).
Proof. apply pack_sign. Qed.

Lemma normal_rank (P : positive) (e : Z) : 1 <= fst (fst (key (normal false P e))).
Proof.
  unfold normal. rewrite key_pack by apply mantissa53_bounds.
  repeat match goal with |- context [if ?b then _ else _] => destruct b end; cbn; lia.
Qed.

Lemma normal_not_nan (s : bool) (P : positive) (e : Z) : normal s P e <> S754_nan.
Proof.
  unfold normal, pack. destruct (_ <=? 971); discriminate.
Qed.

Lemma normal_canon (P : positive) (e : Z) :
  -1022 <= e + (Z.pos (Pos.size P) - 53) -> positiveCanon (normal false P e).
Proof.
  intros He. unfold normal.
  destruct (pack_cases false (mantissa53 P) (e + (Z.pos (Pos.size P) - 53))
              (mantissa53_bounds P)) as [-> | (c' & x' & -> & Hc & Hx & _)].
  - left. reflexivity.
  - right. exists c', x'. repeat split; lia.
Qed.

Lemma key_normal_top (P : positive) (e : Z) : lexle (key (normal false P e)) (2, 0, 0).
Proof.
  unfold normal. rewrite key_pack by apply mantissa53_bounds. unfold lexle.
  repeat match goal with |- context [if ?b then _ else _] => destruct b end; cbn; lia.
Qed.

Lemma pos_le_of_Z (p q : positive) : Z.pos p <= Z.pos q -> (p <= q)%positive.
Proof. lia. Qed.

Lemma times_1_5_mono_finite (c1 c2 : positive) (x1 x2 : Z) :
  2 ^ 52 <= Z.pos c1 < 2 ^ 53 ->
  2 ^ 52 <= Z.pos c2 < 2 ^ 53 ->
  x1 < x2 \/ (x1 = x2 /\ Z.pos c1 <= Z.pos c2) ->
  lexle (key (normal false (c1 * mantissa_1_5) (x1 - 52)))
        (key (normal false (c2 * mantissa_1_5) (x2 - 52))).
Proof.
  intros H1 H2 [Hlt | [-> Hle]].
  - replace (x2 - 52) with (x1 - 52 + Z.of_N (Z.to_N (x2 - x1))) by (rewrite Z2N.id; lia).
    rewrite <- normal_shiftl. apply normal_mono.
    apply pos_le_of_Z. rewrite Zpos_shiftl, !Pos2Z.inj_mul, Z2N.id by lia.
    assert (Hj : 2 ^ 1 <= 2 ^ (x2 - x1)) by (apply Z.pow_le_mono_r; lia).
    change (2 ^ 1) with 2 in Hj.
    assert (Hc : Z.pos c2 * 2 <= Z.pos c2 * 2 ^ (x2 - x1))
      by (apply Z.mul_le_mono_nonneg_l; lia).
    assert (H52 : 2 ^ 53 = 2 * 2 ^ 52) by reflexivity.
    rewrite <- Z.mul_assoc, (Z.mul_comm (Z.pos mantissa_1_5)), Z.mul_assoc.
    apply Z.mul_le_mono_nonneg_r; lia.
  - apply normal_mono. apply pos_le_of_Z. rewrite !Pos2Z.inj_mul.
    apply Z.mul_le_mono_nonneg_r; lia.
Qed.

Lemma times_1_5_mono_pos (A B : spec_float) :
  positiveCanon A -> positiveCanon B ->
  lexle (key A) (key B) ->
  lexle (key (times_1_5 A)) (key (times_1_5 B)).
Proof.
  intros [-> | (c1 & x1 & -> & Hc1 & Hx1)] [-> | (c2 & x2 & -> & Hc2 & Hx2)] Hle;
    cbn [times_1_5].
  - apply lexle_refl.
  - exfalso. unfold lexle in Hle. cbn in Hle. lia.
  - apply key_normal_top.
  - apply times_1_5_mono_finite; try assumption.
    unfold lexle in Hle. cbn [key fst snd] in Hle. lia.
Qed.

Lemma times_1_5_rank_pos (A : spec_float) :
  positiveCanon A -> 1 <= fst (fst (key (times_1_5 A))).
Proof.
  intros [-> | (c & x & -> & _)]; cbn [times_1_5]; [cbn; lia | apply normal_rank].
Qed.

Lemma normal_true (P : positive) (e : Z) : normal true P e = SFopp (normal false P e).
Proof. unfold normal, pack. destruct (_ <=? 971); reflexivity. Qed.

Lemma times_1_5_opp (A : spec_float) :
  positiveCanon A -> times_1_5 (SFopp A) = SFopp (times_1_5 A).
Proof.
  intros [-> | (c & x & -> & _)]; cbn [times_1_5 SFopp negb]; [reflexivity |].
  apply normal_true.
Qed.

Lemma SF_of_Z_pos_canon (P : positive) : positiveCanon (SF_of_Z (Z.pos P)).
Proof. apply normal_canon. lia. Qed.

Lemma SF_of_Z_neg (P : positive) : SF_of_Z (Z.neg P) = SFopp (SF_of_Z (Z.pos P)).
Proof. apply normal_true. Qed.

Lemma keyOf_neg (P : positive) : keyOf (Z.neg P) = opp3 (keyOf (Z.pos P)).
Proof. unfold keyOf. now rewrite SF_of_Z_neg, key_SFopp. Qed.

Lemma keyOfTimes_neg (P : positive) :
  keyOfTimes_1_5 (Z.neg P) = opp3 (keyOfTimes_1_5 (Z.pos P)).
Proof.
  unfold keyOfTimes_1_5.
  now rewrite SF_of_Z_neg, times_1_5_opp, key_SFopp by apply SF_of_Z_pos_canon.
Qed.

Lemma keyOf_rank_pos (P : positive) : 1 <= fst (fst (keyOf (Z.pos P))).
Proof. apply normal_rank. Qed.

Lemma keyOfTimes_rank_pos (P : positive) : 1 <= fst (fst (keyOfTimes_1_5 (Z.pos P))).
Proof. apply times_1_5_rank_pos, SF_of_Z_pos_canon. Qed.

Lemma keyOf_mono_pos (P1 P2 : positive) :
  (P1 <= P2)%positive -> lexle (keyOf (Z.pos P1)) (keyOf (Z.pos P2)).
Proof. intros H. now apply normal_mono. Qed.

Lemma keyOfTimes_mono_pos (P1 P2 : positive) :
  (P1 <= P2)%positive -> lexle (keyOfTimes_1_5 (Z.pos P1)) (keyOfTimes_1_5 (Z.pos P2)).
Proof.
  intros H. apply times_1_5_mono_pos; try apply SF_of_Z_pos_canon.
  now apply keyOf_mono_pos.
Qed.

(** A function on the integers that is odd, positive on the positive
    integers and monotone on them is monotone. *)
Lemma mono_by_sign (f : Z -> Z * Z * Z) :
  f 0 = (0, 0, 0) ->
  (forall P, f (Z.neg P) = opp3 (f (Z.pos P))) ->
  (forall P, 1 <= fst (fst (f (Z.pos P)))) ->
  (forall P1 P2, (P1 <= P2)%positive -> lexle (f (Z.pos P1)) (f (Z.pos P2))) ->
  forall a b, a <= b -> lexle (f a) (f b).
Proof.
  intros H0 Hneg Hrank Hmono a b Hab.
  destruct a as [| P1 | P1], b as [| P2 | P2]; try lia;
    rewrite ?H0, ?Hneg.
  - apply lexle_refl.
  - pose proof (Hrank P2). unfold lexle. cbn [fst snd]. lia.
  - apply Hmono. lia.
  - pose proof (Hrank P1). unfold lexle, opp3. cbn [fst snd]. lia.
  - pose proof (Hrank P1). pose proof (Hrank P2). unfold lexle, opp3. cbn [fst snd]. lia.
  - apply lexle_opp3, Hmono. lia.
Qed.

Lemma keyOf_mono (a b : Z) : a <= b -> lexle (keyOf a) (keyOf b).
Proof.
  apply mono_by_sign;
    [reflexivity | apply keyOf_neg | apply keyOf_rank_pos | apply keyOf_mono_pos].
Qed.

Lemma keyOfTimes_mono (a b : Z) : a <= b -> lexle (keyOfTimes_1_5 a) (keyOfTimes_1_5 b).
Proof.
  apply mono_by_sign;
    [reflexivity | apply keyOfTimes_neg | apply keyOfTimes_rank_pos
     | apply keyOfTimes_mono_pos].
Qed.

Lemma SF_of_Z_not_nan (z : Z) : SF_of_Z z <> S754_nan.
Proof. destruct z; cbn [SF_of_Z]; [discriminate | apply normal_not_nan ..]. Qed.

Lemma times_1_5_not_nan (z : Z) : times_1_5 (SF_of_Z z) <> S754_nan.
Proof.
  destruct z as [| P | P]; cbn [SF_of_Z]; [discriminate | |].
  - destruct (SF_of_Z_pos_canon P) as [H | (c & x & H & _)]; unfold SF_of_Z in H;
      rewrite H; cbn [times_1_5]; [discriminate | apply normal_not_nan].
  - rewrite normal_true.
    destruct (SF_of_Z_pos_canon P) as [H | (c & x & H & _)]; unfold SF_of_Z in H;
      rewrite H; cbn [times_1_5 SFopp]; [discriminate | apply normal_not_nan].
Qed.

(** The test [quantity <= reorderLevel * 1.5] in binary64, by keys. *)
Lemma medium_test_by_keys (q r : Z) :
  (Z2F q <=? Z2F r * 1.5)%float = true <-> lexle (keyOf q) (keyOfTimes_1_5 r).
Proof.
  rewrite leb_spec, Prim2SF_Z2F, Prim2SF_times_1_5.
  apply SFleb_key; [apply SF_of_Z_not_nan | apply times_1_5_not_nan].
Qed.

(** The binary64 test is monotone: it keeps holding when the quantity
    drops or the reorder level grows. *)
Lemma medium_test_monotone (q q' r r' : Z) :
  q <= q' -> r' <= r ->
  (Z2F q' <=? Z2F r' * 1.5)%float = true ->
  (Z2F q <=? Z2F r * 1.5)%float = true.
Proof.
  intros Hq Hr. rewrite !medium_test_by_keys. intros H.
  eapply lexle_trans; [apply keyOf_mono; exact Hq |].
  eapply lexle_trans; [exact H |]. now apply keyOfTimes_mono.
Qed.

Lemma times_1_5_mantissa (c : positive) :
  2 ^ 52 <= Z.pos c < 2 ^ 53 ->
  (3 * Z.pos c < 2 ^ 54 ->
   Z.pos (Pos.size (c * mantissa_1_5)) = 105
   /\ mantissa53 (c * mantissa_1_5) = roundShift 1 (3 * Z.pos c))
  /\ (2 ^ 54 <= 3 * Z.pos c ->
      Z.pos (Pos.size (c * mantissa_1_5)) = 106
      /\ mantissa53 (c * mantissa_1_5) = roundShift 2 (3 * Z.pos c)).
Proof.
  intros Hc.
  assert (Hval : Z.pos (c * mantissa_1_5) = 3 * Z.pos c * 2 ^ 51).
  { rewrite Pos2Z.inj_mul. change (Z.pos mantissa_1_5) with (3 * 2 ^ 51). lia. }
  assert (H52 : 2 ^ 52 = 4503599627370496) by reflexivity.
  assert (H53 : 2 ^ 53 = 9007199254740992) by reflexivity.
  assert (H54 : 2 ^ 54 = 18014398509481984) by reflexivity.
  assert (Hp : 0 < 2 ^ 51) by reflexivity.
  split; intros H3.
  - assert (Hsize : Z.pos (Pos.size (c * mantissa_1_5)) = 105).
    { change (c * mantissa_1_5)%positive with (Z.to_pos (Z.pos (c * mantissa_1_5))).
      apply (size_of_bounds _ 104); [lia |]. rewrite Hval.
      change (2 ^ 104) with (2 ^ 53 * 2 ^ 51). change (2 ^ (104 + 1)) with (2 ^ 54 * 2 ^ 51).
      split; [apply Z.mul_le_mono_nonneg_r | apply Z.mul_lt_mono_pos_r]; lia. }
    split; [exact Hsize |].
    rewrite mantissa53_long, Hsize, Hval by lia.
    apply (roundShift_shift 1 51); lia.
  - assert (Hsize : Z.pos (Pos.size (c * mantissa_1_5)) = 106).
    { change (c * mantissa_1_5)%positive with (Z.to_pos (Z.pos (c * mantissa_1_5))).
      apply (size_of_bounds _ 105); [lia |]. rewrite Hval.
      change (2 ^ 105) with (2 ^ 54 * 2 ^ 51). change (2 ^ (105 + 1)) with (2 ^ 55 * 2 ^ 51).
      assert (H55 : 2 ^ 55 = 36028797018963968) by reflexivity.
      split; [apply Z.mul_le_mono_nonneg_r | apply Z.mul_lt_mono_pos_r]; lia. }
    split; [exact Hsize |].
    rewrite mantissa53_long, Hsize, Hval by lia.
    apply (roundShift_shift 2 51); lia.
Qed.

(** Below the overflow threshold, one and a half times a positive
    binary64 value is less than twice that value. *)
Lemma times_1_5_below_double (c x : Z) :
  2 ^ 52 <= c <= 2 ^ 53 ->
  -1022 <= x <= 970 ->
  ~ lexle (key (pack false c (x + 1))) (key (times_1_5 (pack false c x))).
Proof.
  intros Hc Hx.
  assert (H52 : 2 ^ 52 = 4503599627370496) by reflexivity.
  assert (H53 : 2 ^ 53 = 9007199254740992) by reflexivity.
  assert (H54 : 2 ^ 54 = 18014398509481984) by reflexivity.
  destruct (pack_cases false c x Hc) as [Hinf | (c' & x' & Hfin & Hc' & Hx' & Hrel)].
  { exfalso. unfold pack in Hinf.
    destruct (c =? 2 ^ 53); [destruct (Z.leb_spec (x + 1) 971) | destruct (Z.leb_spec x 971)];
      try discriminate; lia. }
  rewrite Hfin. cbn [times_1_5]. unfold normal.
  pose proof (times_1_5_mantissa c' Hc') as [Hshort Hlong].
  pose proof (mantissa53_bounds (c' * mantissa_1_5)) as HM.
  rewrite (key_pack c (x + 1)) by assumption.
  rewrite key_pack by assumption.
  unfold lexle.
  destruct (Z.lt_ge_cases (3 * Z.pos c') (2 ^ 54)) as [H3 | H3].
  - destruct (Hshort H3) as [Hsize HMv]. clear Hshort Hlong. rewrite Hsize, HMv in *.
    pose proof (roundShift_between 1 (3 * Z.pos c')) as Hb.
    change (2 ^ 1) with 2 in Hb.
    pose proof (Z.div_mod (3 * Z.pos c') 2 ltac:(lia)) as Hdiv.
    pose proof (Z.mod_pos_bound (3 * Z.pos c') 2 ltac:(lia)) as Hmod.
    set (M := roundShift 1 (3 * Z.pos c')) in *. clearbody M.
    set (d := 3 * Z.pos c' / 2) in *. clearbody d.
    destruct (Z.eqb_spec c (2 ^ 53)), (Z.eqb_spec M (2 ^ 53));
      repeat match goal with
        | |- context [?a <=? ?b] => destruct (Z.leb_spec a b)
        end; cbn [fst snd]; lia.
  - destruct (Hlong H3) as [Hsize HMv]. clear Hshort Hlong. rewrite Hsize, HMv in *.
    pose proof (roundShift_between 2 (3 * Z.pos c')) as Hb.
    change (2 ^ 2) with 4 in Hb.
    pose proof (Z.div_mod (3 * Z.pos c') 4 ltac:(lia)) as Hdiv.
    pose proof (Z.mod_pos_bound (3 * Z.pos c') 4 ltac:(lia)) as Hmod.
    set (M := roundShift 2 (3 * Z.pos c')) in *. clearbody M.
    set (d := 3 * Z.pos c' / 4) in *. clearbody d.
    destruct (Z.eqb_spec c (2 ^ 53)), (Z.eqb_spec M (2 ^ 53));
      repeat match goal with
        | |- context [?a <=? ?b] => destruct (Z.leb_spec a b)
        end; cbn [fst snd]; lia.
Qed.

Lemma keyOf_double (P : positive) :
  keyOf (Z.pos P~0) = key (pack false (mantissa53 P) (Z.pos (Pos.size P) - 53 + 1)).
Proof.
  unfold keyOf. cbn [SF_of_Z].
  change (P~0)%positive with (Pos.shiftl P 1).
  rewrite normal_shiftl. unfold normal. f_equal. f_equal. cbn [Z.of_N]. lia.
Qed.

(** A quantity of at least twice the reorder level is beyond the
    "Medium" band, as long as the reorder level is below 2^1023. *)
Lemma medium_test_false_from_double (q r : Z) :
  0 <= r < 2 ^ 1023 -> 0 < q -> 2 * r <= q ->
  (Z2F q <=? Z2F r * 1.5)%float = false.
Proof.
  intros Hr Hq Hqr. apply not_true_is_false. rewrite medium_test_by_keys. intros Hle.
  destruct r as [| P | P]; [| | lia].
  - destruct q as [| Q | Q]; try lia.
    pose proof (keyOf_rank_pos Q) as Hrank.
    unfold lexle in Hle. cbn [keyOfTimes_1_5 SF_of_Z times_1_5 key fst snd] in Hle. lia.
  - assert (Hdouble : lexle (keyOf (Z.pos P~0)) (keyOfTimes_1_5 (Z.pos P))).
    { eapply lexle_trans; [apply keyOf_mono | exact Hle]. lia. }
    rewrite keyOf_double in Hdouble. unfold keyOfTimes_1_5 in Hdouble.
    cbn [SF_of_Z] in Hdouble. unfold normal at 1 in Hdouble.
    rewrite Z.add_0_l in Hdouble.
    revert Hdouble. apply times_1_5_below_double; [apply mantissa53_bounds |].
    assert (Z.pos (Pos.size P) <= 1023) by (apply size_le_iff; lia). lia.
Qed.

(* ================================================================== *)
(** * Properties of the classification *)

Lemma medium_band_exact (q r : Z) :
  Qle_bool (inject_Z q) (inject_Z r * 1.5)%Q = (2 * q <=? 3 * r).
Proof.
  unfold Qle_bool, inject_Z, Qmult; cbn [Qnum Qden].
  destruct (Z.leb_spec (q * Z.pos (1 * 10)) (r * 15 * 1)),
           (Z.leb_spec (2 * q) (3 * r)); try reflexivity; lia.
Qed.

Lemma medium_band_iff (q r : Z) :
  Qle_bool (inject_Z q) (inject_Z r * 1.5)%Q = true
  <-> (inject_Z q <= inject_Z r * 1.5)%Q.
Proof. apply Qle_bool_iff. Qed.

(** Up to a reorder level of 2^53 / 3 the product by 1.5 is exact, and
    the binary64 test is the test on the integers, whatever the
    quantity. *)
Lemma medium_test_exact (q r : Z) :
  0 <= q -> 0 <= r -> 3 * r < 2 ^ 53 ->
  (Z2F q <=? Z2F r * 1.5)%float = (2 * q <=? 3 * r).
Proof.
  intros Hq Hr Hr3.
  assert (H53 : 2 ^ 53 = 9007199254740992) by reflexivity.
  destruct (Z.lt_ge_cases q (2 ^ 53)) as [Hsmall | Hbig].
  - apply Z2F_leb_times_1_5; lia.
  - replace (2 * q <=? 3 * r) with false by (symmetry; apply Z.leb_gt; lia).
    apply not_true_is_false. intros Htest.
    apply (medium_test_monotone (2 ^ 53 - 1) q r r) in Htest; try lia.
    rewrite Z2F_leb_times_1_5 in Htest by lia.
    apply Z.leb_le in Htest. lia.
Qed.

(** For counts below 2^51 every test and product that the components
    apply to them gives in binary64 exactly what it gives on the integers
    ([quantity <= reorderLevel], [quantity <= reorderLevel * 1.5],
    [Math.max(10, reorderLevel * 2)], [quantity > 0], [quantity === 0]). *)
Lemma counts_exact_in_binary64 (q r : Z) :
  0 <= q < 2 ^ 51 ->
  0 <= r < 2 ^ 51 ->
  (Z2F q <=? Z2F r)%float = (q <=? r)
  /\ (Z2F q <=? Z2F r * 1.5)%float = Qle_bool (inject_Z q) (inject_Z r * 1.5)%Q
  /\ Math_max 10 (Z2F r * 2) = Z2F (Z.max 10 (r * 2))
  /\ (0 <? Z2F q)%float = (0 <? q)
  /\ (Z2F q =? 0)%float = (q =? 0).
Proof.
  intros Hq Hr.
  assert (H51 : 2 ^ 51 = 2251799813685248) by reflexivity.
  assert (H53 : 2 ^ 53 = 9007199254740992) by reflexivity.
  split; [apply Z2F_leb; lia |].
  split; [rewrite medium_band_exact; apply Z2F_leb_times_1_5; lia |].
  split.
  { change 10%float with (Z2F 10). change 2%float with (Z2F 2).
    rewrite Z2F_mul by lia. apply Math_max_Z2F; lia. }
  split.
  - change 0%float with (Z2F 0). apply Z2F_ltb; lia.
  - change 0%float with (Z2F 0). apply Z2F_eqb; lia.
Qed.

Lemma status_cases (product : Product) :
  (quantity product <= reorderLevel product
   /\ Reports.getProductStatus product = "Low Stock"%string)
  \/ (reorderLevel product < quantity product
      /\ (Z2F (quantity product) <=? Z2F (reorderLevel product) * 1.5)%float = true
      /\ Reports.getProductStatus product = "Medium"%string)
  \/ (reorderLevel product < quantity product
      /\ (Z2F (quantity product) <=? Z2F (reorderLevel product) * 1.5)%float = false
      /\ Reports.getProductStatus product = "Good"%string).
Proof.
  unfold Reports.getProductStatus.
  destruct (Z.leb_spec (quantity product) (reorderLevel product)) as [Hle | Hgt].
  - left; auto.
  - destruct (_ <=? _)%float; [right; left | right; right]; auto.
Qed.

(** C1, as stated, fails: with 4503599627370500 units and a reorder level
    of 3002399751580333 the product [reorderLevel * 1.5] is
    4503599627370499.5, which binary64 rounds to 4503599627370500.  The
    quantity is above the reorder level and above one and a half times
    it, yet the status is "Medium". *)
Lemma medium_above_exact_band :
  let product := widget "w" 4503599627370500 3002399751580333 2 in
  0 <= quantity product
  /\ 0 <= reorderLevel product
  /\ ~ quantity product <= reorderLevel product
  /\ ~ (inject_Z (quantity product) <= inject_Z (reorderLevel product) * 1.5)%Q
  /\ Reports.getProductStatus product = "Medium"%string
  /\ badgeText (Reports.statusBadge product) = "Medium"%string.
Proof.
  cbn zeta. split; [cbn; lia |]. split; [cbn; lia |]. split; [cbn; lia |].
  split; [| split; vm_compute; reflexivity].
  unfold Qle, inject_Z, Qmult; cbn. lia.
Qed.

(** C1, amended. For non-negative integer [quantity] and [reorderLevel]
    the status is one of the three labels, chosen by first match: "Low
    Stock" exactly when [quantity <= reorderLevel]; otherwise "Medium"
    exactly when [quantity <= reorderLevel * 1.5], the product being the
    binary64 one; otherwise "Good".  Up to a reorder level of 2^53 / 3
    (which is 3002399751580330) that product is exact and the test is the
    one on the integers.  With a reorder level of 0, quantity 0 is "Low
    Stock" and every positive quantity is "Good"; a quantity equal to the
    reorder level is "Low Stock".  The Status cell of the Reports table
    shows the same label. *)
Theorem getProductStatus_first_match (product : Product) :
  0 <= quantity product ->
  0 <= reorderLevel product ->
  let q := quantity product in
  let r := reorderLevel product in
  let status := Reports.getProductStatus product in
  In status ["Low Stock"; "Medium"; "Good"]%string
  /\ (status = "Low Stock"%string <-> q <= r)
  /\ (status = "Medium"%string <-> ~ q <= r /\ (Z2F q <=? Z2F r * 1.5)%float = true)
  /\ (status = "Good"%string <-> ~ q <= r /\ (Z2F q <=? Z2F r * 1.5)%float = false)
  /\ (3 * r < 2 ^ 53 ->
      (status = "Medium"%string <-> ~ q <= r /\ (inject_Z q <= inject_Z r * 1.5)%Q)
      /\ (status = "Good"%string <-> ~ q <= r /\ ~ (inject_Z q <= inject_Z r * 1.5)%Q))
  /\ (r = 0 -> q = 0 -> status = "Low Stock"%string)
  /\ (r = 0 -> 0 < q -> status = "Good"%string)
  /\ (q = r -> status = "Low Stock"%string)
  /\ badgeText (Reports.statusBadge product) = status.
Proof.
  intros Hq Hr q r status.
  assert (Hbadge : badgeText (Reports.statusBadge product) = status).
  { unfold status, Reports.statusBadge, Reports.getProductStatus.
    destruct (_ <=? _); [reflexivity |]. destruct (_ <=? _)%float; reflexivity. }
  assert (Hexact : 3 * r < 2 ^ 53 ->
            ((Z2F q <=? Z2F r * 1.5)%float = true <-> (inject_Z q <= inject_Z r * 1.5)%Q)).
  { intros Hr3. rewrite medium_test_exact, <- medium_band_exact by assumption.
    apply medium_band_iff. }
  assert (Hzero : r = 0 -> 0 < q -> (Z2F q <=? Z2F r * 1.5)%float = false).
  { intros H0 Hpos. apply medium_test_false_from_double; [| assumption | lia].
    rewrite H0. split; [lia | reflexivity]. }
  destruct (status_cases product) as [[Hle Hs] | [[Hgt [Hband Hs]] | [Hgt [Hband Hs]]]];
    fold status in Hs; fold q r in Hle || fold q r in Hgt, Hband;
    rewrite Hs in *; (split; [simpl; tauto |]).
  - split; [split; auto |].
    split; [split; [discriminate | intros [H _]; lia] |].
    split; [split; [discriminate | intros [H _]; lia] |].
    split; [intros _; split; (split; [discriminate | intros [H _]; lia]) |].
    split; [reflexivity |]. split; [intros; lia |]. split; [reflexivity | exact Hbadge].
  - split; [split; [discriminate | intros; lia] |].
    split; [split; [intros _; split; [lia | exact Hband] | reflexivity] |].
    split; [split; [discriminate | intros [_ H]; congruence] |].
    split.
    { intros Hr3. split.
      - split; [intros _; split; [lia | apply Hexact; assumption] | reflexivity].
      - split; [discriminate |]. intros [_ H]. exfalso. apply H, Hexact; assumption. }
    split; [intros; lia |].
    split; [intros H0 Hpos; rewrite (Hzero H0 Hpos) in Hband; discriminate |].
    split; [intros; lia | exact Hbadge].
  - split; [split; [discriminate | intros; lia] |].
    split; [split; [discriminate | intros [_ H]; congruence] |].
    split; [split; [intros _; split; [lia | exact Hband] | reflexivity] |].
    split.
    { intros Hr3. split.
      - split; [discriminate |]. intros [_ H]. apply Hexact in H; [congruence | assumption].
      - split; [| reflexivity]. intros _. split; [lia |].
        intros H. apply Hexact in H; [congruence | assumption]. }
    split; [intros; lia |]. split; [reflexivity |].
    split; [intros; lia | exact Hbadge].
Qed.

Lemma getProductStatus_first_match_witness :
  let product := widget "w" 14 10 2 in
  let status := Reports.getProductStatus product in
  In status ["Low Stock"; "Medium"; "Good"]%string
  /\ (status = "Low Stock"%string <-> 14 <= 10)
  /\ (status = "Medium"%string <-> ~ 14 <= 10 /\ (Z2F 14 <=? Z2F 10 * 1.5)%float = true)
  /\ (status = "Good"%string <-> ~ 14 <= 10 /\ (Z2F 14 <=? Z2F 10 * 1.5)%float = false)
  /\ (3 * 10 < 2 ^ 53 ->
      (status = "Medium"%string <-> ~ 14 <= 10 /\ (inject_Z 14 <= inject_Z 10 * 1.5)%Q)
      /\ (status = "Good"%string
          <-> ~ 14 <= 10 /\ ~ (inject_Z 14 <= inject_Z 10 * 1.5)%Q))
  /\ (10 = 0 -> 14 = 0 -> status = "Low Stock"%string)
  /\ (10 = 0 -> 0 < 14 -> status = "Good"%string)
  /\ (14 = 10 -> status = "Low Stock"%string)
  /\ badgeText (Reports.statusBadge product) = status.
Proof.
  apply (getProductStatus_first_match (widget "w" 14 10 2)); simpl; lia.
Defined.

(** C9, as stated, fails: with 14 units and a reorder level of 10 Reports
    shows "Medium" while the Dashboard table shows "OK". *)
Lemma dashboard_badge_has_no_medium :
  let product := widget "w" 14 10 2 in
  Reports.getProductStatus product = "Medium"%string
  /\ badgeText (Reports.statusBadge product) = "Medium"%string
  /\ badgeText (Dashboard.statusBadge product) = "OK"%string
  /\ badgeText (Dashboard.statusBadge product) <> Reports.getProductStatus product.
Proof. repeat split; try (vm_compute; reflexivity). vm_compute. discriminate. Qed.

(** C9, amended. The three-way bucketing is the one of Reports: the Status
    cell of its table and [getProductStatus] agree on every product.  The
    Dashboard table is two-way: it shows "Low Stock" exactly when the
    classification is "Low Stock", and "OK" for both "Medium" and "Good". *)
Theorem status_badges_by_component (product : Product) :
  badgeText (Reports.statusBadge product) = Reports.getProductStatus product
  /\ badgeText (Dashboard.statusBadge product)
     = (if String.eqb (Reports.getProductStatus product) "Low Stock"
        then "Low Stock" else "OK")%string
  /\ (badgeText (Dashboard.statusBadge product) = "Low Stock"%string
      <-> Reports.getProductStatus product = "Low Stock"%string)
  /\ (badgeText (Dashboard.statusBadge product) = "OK"%string
      <-> Reports.getProductStatus product = "Medium"%string
          \/ Reports.getProductStatus product = "Good"%string).
Proof.
  unfold Reports.statusBadge, Dashboard.statusBadge, Reports.getProductStatus.
  destruct (quantity product <=? reorderLevel product).
  - cbn. repeat split; auto; try discriminate. intros [H | H]; discriminate.
  - destruct (_ <=? _)%float; cbn; repeat split; auto; discriminate.
Qed.

(* ================================================================== *)
(** * Restock and sell *)

(** With unique ids, [products.find(p => p.id === productId)] is the
    product that carries the id. *)
Lemma find_by_id (products : list Product) (product : Product) :
  NoDup (map id products) ->
  In product products ->
  find (fun p => String.eqb (id p) (id product)) products = Some product.
Proof.
  induction products as [| a l IH]; intros Hnd Hin; [destruct Hin |].
  cbn [find]. inversion Hnd as [| x xs Hnotin Hnd']; subst.
  destruct (String.eqb_spec (id a) (id product)) as [Heq | Hne].
  - destruct Hin as [-> | Hin]; [reflexivity |].
    exfalso. apply Hnotin. rewrite Heq. now apply in_map.
  - destruct Hin as [-> | Hin]; [congruence | auto].
Qed.

(** C3. For a product of the list (ids being unique), [handleRestock]
    issues exactly one call, [onUpdateStock(id, max(10, reorderLevel * 2))]:
    the amount is a delta computed from the reorder level alone, whatever
    the current quantity; with a reorder level of 10 it is 20. *)
Theorem handleRestock_passes_delta
  (products : list Product) (product : Product)
  (s : Dashboard.State) (outcomes : list Outcome) :
  NoDup (map id products) ->
  In product products ->
  callsOf (trace (run (Dashboard.handleRestock products (id product)) s outcomes))
  = [onUpdateStock (id product) (Z.max 10 (reorderLevel product * 2))]
  /\ (reorderLevel product = 10 ->
      callsOf (trace (run (Dashboard.handleRestock products (id product)) s outcomes))
      = [onUpdateStock (id product) 20]).
Proof.
  intros Hnd Hin.
  assert (H : callsOf (trace (run (Dashboard.handleRestock products (id product)) s outcomes))
              = [onUpdateStock (id product) (Z.max 10 (reorderLevel product * 2))]).
  { unfold Dashboard.handleRestock. rewrite (find_by_id products product Hnd Hin).
    destruct outcomes as [| [| e] rest]; reflexivity. }
  split; [exact H |]. intros Hr. rewrite H, Hr. reflexivity.
Qed.

Lemma handleRestock_passes_delta_witness :
  let products := [widget "p0" 7 4 2; widget "p1" 3 10 2] in
  callsOf (trace (run (Dashboard.handleRestock products "p1") Dashboard.initial [Resolved]))
  = [onUpdateStock "p1" (Z.max 10 (10 * 2))]
  /\ (10 = 10 ->
      callsOf (trace (run (Dashboard.handleRestock products "p1") Dashboard.initial [Resolved]))
      = [onUpdateStock "p1" 20]).
Proof.
  apply (handleRestock_passes_delta
           [widget "p0" 7 4 2; widget "p1" 3 10 2] (widget "p1" 3 10 2)
           Dashboard.initial [Resolved]).
  - repeat constructor; simpl; intuition discriminate.
  - simpl; auto.
Defined.

(** C4. For a product of the list (ids being unique), [handleSell] issues
    exactly one call, [onUpdateStock(id, -1)], when the quantity is
    positive; when the quantity is 0 it does nothing at all (no call, no
    toast, no state change) and the Sell button is disabled. *)
Theorem handleSell_passes_minus_one
  (products : list Product) (product : Product)
  (s : Dashboard.State) (outcomes : list Outcome) :
  NoDup (map id products) ->
  In product products ->
  (0 < quantity product ->
   callsOf (trace (run (Dashboard.handleSell products (id product)) s outcomes))
   = [onUpdateStock (id product) (-1)])
  /\ (quantity product = 0 ->
      run (Dashboard.handleSell products (id product)) s outcomes
      = mkRun s [] (Settled (Fulfilled tt))
      /\ Dashboard.sellDisabled product = true).
Proof.
  intros Hnd Hin. unfold Dashboard.handleSell, Dashboard.sellDisabled.
  rewrite (find_by_id products product Hnd Hin). split.
  - intros Hq. apply Z.ltb_lt in Hq. rewrite Hq.
    destruct outcomes as [| [| e] rest]; reflexivity.
  - intros ->. split; reflexivity.
Qed.

Lemma handleSell_passes_minus_one_witness :
  (0 < 1 ->
   callsOf (trace (run (Dashboard.handleSell [widget "p0" 0 4 2; widget "p1" 1 10 2] "p1")
                       Dashboard.initial [Resolved]))
   = [onUpdateStock "p1" (-1)])
  /\ (0 = 0 ->
      run (Dashboard.handleSell [widget "p0" 0 4 2; widget "p1" 1 10 2] "p0")
          Dashboard.initial [Resolved]
      = mkRun Dashboard.initial [] (Settled (Fulfilled tt))
      /\ Dashboard.sellDisabled (widget "p0" 0 4 2) = true).
Proof.
  assert (Hnd : NoDup (map id [widget "p0" 0 4 2; widget "p1" 1 10 2])).
  { repeat constructor; simpl; intuition discriminate. }
  split.
  - apply (handleSell_passes_minus_one
             [widget "p0" 0 4 2; widget "p1" 1 10 2] (widget "p1" 1 10 2)
             Dashboard.initial [Resolved] Hnd); simpl; auto.
  - apply (handleSell_passes_minus_one
             [widget "p0" 0 4 2; widget "p1" 1 10 2] (widget "p0" 0 4 2)
             Dashboard.initial [Resolved] Hnd); simpl; auto.
Defined.

(* ================================================================== *)
(** * Error handling of the handlers *)

Lemma handleRestock_handled_locally
  (products : list Product) (productId : string) (s : Dashboard.State) (o : Outcome) :
  handledLocally (fun st => Dashboard.processingId st = None)
    (Dashboard.handleRestock products productId) s o.
Proof.
  unfold handledLocally, Dashboard.handleRestock.
  destruct (find _ products) as [product |].
  - destruct o as [| e]; cbn; repeat split; eauto.
  - cbn; auto.
Qed.

Lemma handleSell_handled_locally
  (products : list Product) (productId : string) (s : Dashboard.State) (o : Outcome) :
  handledLocally (fun st => Dashboard.processingId st = None)
    (Dashboard.handleSell products productId) s o.
Proof.
  unfold handledLocally, Dashboard.handleSell.
  destruct (find _ products) as [product |]; [| cbn; auto].
  destruct (0 <? quantity product); [| cbn; auto].
  destruct o as [| e]; cbn; repeat split; eauto.
Qed.

Lemma exportToPDF_handled_locally
  (products : list Product) (now : string) (s : Reports.State) (o : Outcome) :
  handledLocally (fun st => st = None) (Reports.exportToPDF products now) s o.
Proof.
  unfold handledLocally, Reports.exportToPDF.
  destruct s as [kind |]; [cbn; auto |].
  destruct o as [| [message | other]]; cbn; repeat split; eauto.
Qed.

Lemma exportToExcel_handled_locally
  (products : list Product) (now : string) (s : Reports.State) (o : Outcome) :
  handledLocally (fun st => st = None) (Reports.exportToExcel products now) s o.
Proof.
  unfold handledLocally, Reports.exportToExcel.
  destruct s as [kind |]; [cbn; auto |].
  destruct o as [| [message | other]]; cbn; repeat split; eauto.
Qed.

Lemma handleSubmit_handled_locally (s : AddProduct.State) (o : Outcome) :
  handledLocally (fun st => AddProduct.loading st = false) AddProduct.handleSubmit s o.
Proof.
  unfold handledLocally, AddProduct.handleSubmit.
  destruct o as [| e]; cbn; repeat split; eauto.
Qed.

(** C6. For each handler that calls a collaborator (create, restock,
    sell, export to PDF, export to Excel), from every state and for every
    outcome of the call: the handler's own promise is fulfilled, so the
    rejection is caught and never re-thrown; after a rejection the only
    toast is one error toast and no success toast; and afterwards the
    in-flight flag is cleared ([isExporting] and [processingId] are null,
    [loading] is false), after a resolution as after a rejection.  When a
    handler's guard makes no call, it changes nothing. *)
Theorem rejections_handled_locally
  (products : list Product) (productId now : string)
  (reports : Reports.State) (dashboard : Dashboard.State) (form : AddProduct.State)
  (o : Outcome) :
  handledLocally (fun st => AddProduct.loading st = false) AddProduct.handleSubmit form o
  /\ handledLocally (fun st => Dashboard.processingId st = None)
       (Dashboard.handleRestock products productId) dashboard o
  /\ handledLocally (fun st => Dashboard.processingId st = None)
       (Dashboard.handleSell products productId) dashboard o
  /\ handledLocally (fun st => st = None) (Reports.exportToPDF products now) reports o
  /\ handledLocally (fun st => st = None) (Reports.exportToExcel products now) reports o.
Proof.
  split; [apply handleSubmit_handled_locally |].
  split; [apply handleRestock_handled_locally |].
  split; [apply handleSell_handled_locally |].
  split; [apply exportToPDF_handled_locally | apply exportToExcel_handled_locally].
Qed.

(* ================================================================== *)
(** * Form submission *)

(** C7. When [onAddProduct] rejects, the form data after [handleSubmit] is
    the form data before it, and one error toast is shown; when it
    resolves, every field is the empty string and one success toast is
    shown. *)
Theorem handleSubmit_keeps_or_resets_form (s : AddProduct.State) (e : JsError) :
  let failed := run AddProduct.handleSubmit s [Rejected e] in
  let succeeded := run AddProduct.handleSubmit s [Resolved] in
  AddProduct.formData (final failed) = AddProduct.formData s
  /\ toastsOf (trace failed) = [toast_error "Failed to add product. Please try again."]
  /\ AddProduct.formData (final succeeded) = AddProduct.mkFormData "" "" "" "" ""
  /\ toastsOf (trace succeeded) = [toast_success "Product added successfully!"].
Proof. repeat split. Qed.



(* ================================================================== *)
(** * Repeat triggers while a call is in flight *)

(** The export handlers return at once while an export is in flight. *)
Lemma export_ignored_while_exporting
  (products : list Product) (now : string) (i : Instance Reports.State) (kind : Reports.ExportKind) :
  state i = Some kind ->
  step i (Trigger (Reports.exportToPDF products now)) = i
  /\ step i (Trigger (Reports.exportToExcel products now)) = i.
Proof.
  destruct i as [st fl lg un]; cbn [state]; intros ->.
  unfold step, absorb; cbn. rewrite !app_nil_r. split; reflexivity.
Qed.

(** The submit button is disabled from the trigger until the call settles. *)
Lemma submit_disabled_while_in_flight (s : AddProduct.State) :
  AddProduct.submitDisabled (final (run AddProduct.handleSubmit s [])) = true
  /\ forall o, AddProduct.submitDisabled (final (run AddProduct.handleSubmit s [o])) = false.
Proof. split; [reflexivity | intros [| e]; reflexivity]. Qed.

(** C5, as stated, fails: none of the three handlers tests its flag.
    Invoked a second time while its first call is in flight and the flag
    is set, [handleRestock], [handleSell] and [handleSubmit] each issue a
    second call; and when the first call settles the flag is cleared
    although the second call is still in flight. *)
Lemma repeat_trigger_issues_second_call :
  let restock := Trigger (Dashboard.handleRestock shelf "p1") in
  let sell := Trigger (Dashboard.handleSell shelf "p1") in
  let submit := Trigger AddProduct.handleSubmit in
  let once := steps (mount Dashboard.initial) [restock] in
  let twice := steps (mount Dashboard.initial) [restock; restock] in
  let settled := steps (mount Dashboard.initial) [restock; restock; Settle 0 Resolved] in
  let sold := steps (mount Dashboard.initial) [sell] in
  let soldTwice := steps (mount Dashboard.initial) [sell; sell] in
  let submitted := steps (mount formWithDotFive) [submit] in
  let submittedTwice := steps (mount formWithDotFive) [submit; submit] in
  Dashboard.processingId (state once) = Some "p1"%string
  /\ List.length (inflight once) = 1%nat
  /\ callsOf (log twice) = [onUpdateStock "p1" 20; onUpdateStock "p1" 20]
  /\ List.length (inflight twice) = 2%nat
  /\ Dashboard.processingId (state settled) = None
  /\ List.length (inflight settled) = 1%nat
  /\ Dashboard.processingId (state sold) = Some "p1"%string
  /\ List.length (inflight sold) = 1%nat
  /\ callsOf (log soldTwice) = [onUpdateStock "p1" (-1); onUpdateStock "p1" (-1)]
  /\ List.length (inflight soldTwice) = 2%nat
  /\ AddProduct.loading (state submitted) = true
  /\ List.length (inflight submitted) = 1%nat
  /\ List.length (callsOf (log submittedTwice)) = 2%nat
  /\ List.length (inflight submittedTwice) = 2%nat.
Proof. repeat split. Qed.

(** No state of the Dashboard holds a restock back: whatever
    [processingId] is, a trigger for a known product adds a call. *)
Lemma handleRestock_never_held_back
  (products : list Product) (product : Product) (i : Instance Dashboard.State) :
  NoDup (map id products) ->
  In product products ->
  callsOf (log (step i (Trigger (Dashboard.handleRestock products (id product)))))
  = (callsOf (log i)
       ++ [onUpdateStock (id product) (Z.max 10 (reorderLevel product * 2))])%list.
Proof.
  intros Hnd Hin. unfold step, absorb, Dashboard.handleRestock.
  rewrite (find_by_id products product Hnd Hin). cbn.
  unfold callsOf. rewrite flat_map_app. reflexivity.
Qed.

(* ================================================================== *)
(** * The summary figures *)

(** The Dashboard computes the same count, low-stock count and value. *)
Lemma dashboard_totals (products : list Product) :
  Dashboard.totalProducts products = totalCount (aggregate products)
  /\ Dashboard.lowStockItems products = lowStockCount (aggregate products)
  /\ Dashboard.totalValue products = totalValue (aggregate products).
Proof. repeat split. Qed.

Lemma low_stock_test_is_status (p : Product) :
  String.eqb (Reports.getProductStatus p) "Low Stock" = (quantity p <=? reorderLevel p).
Proof.
  unfold Reports.getProductStatus.
  destruct (quantity p <=? reorderLevel p); [reflexivity |].
  destruct (_ <=? _)%float; reflexivity.
Qed.

Lemma lowStockProducts_by_status (products : list Product) :
  Reports.lowStockProducts products
  = filter (fun p => String.eqb (Reports.getProductStatus p) "Low Stock") products.
Proof.
  unfold Reports.lowStockProducts. apply filter_ext.
  intros p. symmetry. apply low_stock_test_is_status.
Qed.

Lemma lowStockProducts_length_le (products : list Product) :
  (List.length (Reports.lowStockProducts products) <= List.length products)%nat.
Proof. apply filter_length_le. Qed.

(** [reduce] over the products is the left-to-right sum of their terms. *)
Lemma reduce_terms {A num : Type} (add : num -> num -> num) (term : A -> num)
  (l : list A) (init : num) :
  reduce (fun sum p => add sum (term p)) l init = fold_left add (map term l) init.
Proof.
  unfold reduce. revert init.
  induction l as [| a l IH]; intros init; [reflexivity | cbn; apply IH].
Qed.

Lemma stockHealth_is_healthOf (products : list Product) :
  products <> [] ->
  Reports.stockHealth products
  = Some (healthOf (List.length products) (List.length (Reports.lowStockProducts products))).
Proof.
  destruct products as [| p l]; [congruence | reflexivity].
Qed.

Lemma health_agrees_below_40 : healthAgreesUpTo 39 = true.
Proof. vm_compute. reflexivity. Qed.

Lemma healthOf_exact_below_40 (total low : nat) :
  (0 < total < 40)%nat ->
  (low <= total)%nat ->
  healthOf total low = Z2F (roundHalfUp (specPercent total low)).
Proof.
  intros Htotal Hlow.
  pose proof health_agrees_below_40 as H. unfold healthAgreesUpTo in H.
  rewrite forallb_forall in H.
  assert (Hin : In total (seq 1 39)) by (apply in_seq; lia).
  specialize (H total Hin). rewrite forallb_forall in H.
  apply FloatAxioms.Leibniz.eqb_spec, H, in_seq. lia.
Qed.

Lemma unitsTotal_nonneg (e : Z) (units : Product -> Z) (products : list Product) :
  Forall (pricedInUnits e units) products -> 0 <= unitsTotal units products.
Proof.
  induction 1 as [| p l [Hq [Hu _]] _ IH]; cbn [unitsTotal fold_right]; [lia |].
  fold (unitsTotal units l). nia.
Qed.

Lemma accumulate_exact (e : Z) (units : Product -> Z) (products : list Product) :
  -1000 <= e <= 900 ->
  Forall (pricedInUnits e units) products ->
  forall acc,
    0 <= acc ->
    acc + unitsTotal units products < 2 ^ 53 ->
    reduce (fun sum p => (sum + Z2F (quantity p) * price p)%float) products (scaled acc e)
    = scaled (acc + unitsTotal units products) e.
Proof.
  intros He Hall. unfold reduce.
  induction Hall as [| p l [Hq [Hu Hprice]] Hl IH]; intros acc Hacc Hsum;
    cbn [unitsTotal fold_right fold_left] in Hsum |- *.
  - now rewrite Z.add_0_r.
  - fold (unitsTotal units l) in *.
    pose proof (unitsTotal_nonneg e units l Hl) as Hrest.
    assert (Hterm : 0 <= quantity p * units p) by nia.
    rewrite Hprice, (Z2F_scaled (quantity p)) by lia.
    rewrite scaled_mul by lia. cbn [Z.add].
    rewrite scaled_add by lia.
    rewrite IH by lia. f_equal. lia.
Qed.

(** With whole prices (in units of some [2^e]) and an exact total below
    2^53 no step of the accumulation rounds: the value is the exact sum. *)
Lemma totalValue_exact (e : Z) (units : Product -> Z) (products : list Product) :
  -1000 <= e <= 900 ->
  Forall (pricedInUnits e units) products ->
  unitsTotal units products < 2 ^ 53 ->
  Reports.totalValue products = scaled (unitsTotal units products) e.
Proof.
  intros He Hall Hsum. unfold Reports.totalValue.
  change 0%float with (scaled 0 e).
  rewrite (accumulate_exact e units products He Hall 0) by lia.
  reflexivity.
Qed.

Lemma unitsTotal_permutation (units : Product -> Z) (l l' : list Product) :
  Permutation l l' -> unitsTotal units l = unitsTotal units l'.
Proof.
  unfold unitsTotal.
  induction 1 as [| x l l' _ IH | x y l | l l' l'' _ IH1 _ IH2]; cbn [fold_right]; lia.
Qed.

(** C2, as stated, fails on the percentage: with 40 products of which 17
    are low on stock the card shows 57, because [(23 / 40) * 100] is
    57.49999999999999 in binary64, while 100 * 23 / 40 is exactly 57.5,
    which rounds to 58 (half up as well as half to even). *)
Lemma stock_health_of_forty_products :
  totalCount (aggregate inventory40) = 40%nat
  /\ lowStockCount (aggregate inventory40) = 17%nat
  /\ stockHealthPercent (aggregate inventory40) = Some 57%float
  /\ roundHalfUp (specPercent 40 17) = 58
  /\ roundHalfEven (specPercent 40 17) = 58
  /\ stockHealthPercent (aggregate inventory40) <> Some (Z2F 58).
Proof.
  repeat split; try (vm_compute; reflexivity).
  intros H.
  apply (f_equal (fun v => match v with Some x => Prim2SF x | None => S754_nan end)) in H.
  vm_compute in H. discriminate.
Qed.

(** C2, amended. For every list of products: [totalCount] is the number
    of products; [lowStockCount] is the number of products whose status is
    "Low Stock", that is with [quantity <= reorderLevel]; [totalValue] is
    the sum of the [quantity * price] terms accumulated from 0 in list
    order, each step in binary64, and it is the exact sum whenever the
    prices are whole numbers of units of some [2^e] and the exact total is
    below 2^53 units; the empty list gives 0, 0, 0 and no percentage; for
    a non-empty list [stockHealthPercent] is [Math.round] of the binary64
    value [((totalCount - lowStockCount) / totalCount) * 100], which is
    the exact percentage rounded half up for every list of fewer than 40
    products. *)
Theorem aggregate_metrics (products : list Product) :
  let m := aggregate products in
  let n := List.length products in
  let low :=
    List.length
      (filter (fun p => String.eqb (Reports.getProductStatus p) "Low Stock") products) in
  totalCount m = n
  /\ lowStockCount m = low
  /\ lowStockCount m = List.length (filter (fun p => quantity p <=? reorderLevel p) products)
  /\ totalValue m
     = fold_left (fun sum term => (sum + term)%float)
         (map (fun p => (Z2F (quantity p) * price p)%float) products) 0%float
  /\ (forall (e : Z) (units : Product -> Z),
        -1000 <= e <= 900 ->
        Forall (pricedInUnits e units) products ->
        unitsTotal units products < 2 ^ 53 ->
        totalValue m = scaled (unitsTotal units products) e)
  /\ (products = [] -> m = mkMetrics 0 0%float 0 None)
  /\ (products <> [] -> stockHealthPercent m = Some (healthOf n low))
  /\ ((0 < n < 40)%nat ->
      stockHealthPercent m = Some (Z2F (roundHalfUp (specPercent n low)))).
Proof.
  intros m n low.
  assert (Hlow : List.length (Reports.lowStockProducts products) = low).
  { unfold low. now rewrite lowStockProducts_by_status. }
  assert (Hhealth : products <> [] -> stockHealthPercent m = Some (healthOf n low)).
  { intros Hne. unfold m; cbn [aggregate stockHealthPercent].
    rewrite (stockHealth_is_healthOf products Hne), Hlow. reflexivity. }
  split; [reflexivity |].
  split; [exact Hlow |].
  split; [reflexivity |].
  split.
  { unfold m; cbn [aggregate totalValue]. unfold Reports.totalValue.
    apply (reduce_terms PrimFloat.add (fun p => (Z2F (quantity p) * price p)%float)). }
  split.
  { intros e units He Hall Hsum. now apply totalValue_exact. }
  split; [intros ->; reflexivity |].
  split; [exact Hhealth |].
  intros Hn. rewrite Hhealth.
  - f_equal. apply healthOf_exact_below_40; [exact Hn |].
    rewrite <- Hlow. apply lowStockProducts_length_le.
  - intros ->. cbn in Hn. lia.
Qed.

Lemma aggregate_metrics_witness :
  let products := [widget "a" 5 10 2.5; widget "b" 14 10 2.5; widget "c" 16 10 2.5] in
  aggregate products = mkMetrics 3 87.5%float 1 (Some 67%float)
  /\ totalValue (aggregate products) = scaled ((5 + 14 + 16) * 5) (-1)
  /\ stockHealthPercent (aggregate products)
     = Some (Z2F (roundHalfUp (specPercent 3 1))).
Proof.
  pose proof (aggregate_metrics
                [widget "a" 5 10 2.5; widget "b" 14 10 2.5; widget "c" 16 10 2.5])
    as [_ [_ [_ [_ [Hexact [_ [_ Hround]]]]]]].
  split; [vm_compute; reflexivity |].
  split.
  - apply (Hexact (-1) (fun _ => 5)).
    + lia.
    + repeat constructor; vm_compute; intuition discriminate.
    + vm_compute. reflexivity.
  - apply Hround. simpl. lia.
Defined.

(* ================================================================== *)
(** * Reordering the products *)

Section ExactAccumulation.

Context {A num : Type}.
Variable add : num -> num -> num.
Variable term : A -> num.
Hypothesis add_comm : forall x y, add x y = add y x.
Hypothesis add_assoc : forall x y z, add x (add y z) = add (add x y) z.

(** In an arithmetic whose addition is commutative and associative the
    accumulated sum does not depend on the order of the list. *)
Lemma reduce_permutation (l l' : list A) :
  Permutation l l' ->
  forall init,
    reduce (fun sum p => add sum (term p)) l init
    = reduce (fun sum p => add sum (term p)) l' init.
Proof.
  unfold reduce.
  induction 1 as [| x l l' _ IH | x y l | l l' l'' _ IH1 _ IH2]; intros init; cbn.
  - reflexivity.
  - apply IH.
  - f_equal. rewrite <- !add_assoc. f_equal. apply add_comm.
  - now rewrite IH1.
Qed.

End ExactAccumulation.

Lemma lowStockProducts_permutation (l l' : list Product) :
  Permutation l l' ->
  Permutation (Reports.lowStockProducts l) (Reports.lowStockProducts l').
Proof.
  unfold Reports.lowStockProducts.
  induction 1 as [| x l l' _ IH | x y l | l l' l'' _ IH1 _ IH2]; cbn.
  - constructor.
  - destruct (quantity x <=? reorderLevel x); auto.
  - destruct (quantity x <=? reorderLevel x), (quantity y <=? reorderLevel y);
      auto using perm_swap, Permutation_refl.
  - eapply perm_trans; eauto.
Qed.

Lemma stockHealth_by_counts (l : list Product) :
  Reports.stockHealth l
  = match List.length l with
    | O => None
    | S _ => Some (healthOf (List.length l) (List.length (Reports.lowStockProducts l)))
    end.
Proof. destruct l; reflexivity. Qed.

(** The prices of [dimes] are what the texts "0.1", "0.2" and "0.3" parse
    to. *)
Lemma dimes_prices :
  map price dimes = [parseFloat "0.1"; parseFloat "0.2"; parseFloat "0.3"].
Proof. vm_compute. reflexivity. Qed.

(** C10, as stated, fails on [totalValue]: three products of one unit
    priced 0.1, 0.2 and 0.3 total 0.6000000000000001 in that order and
    0.6 in the reverse order. *)
Lemma total_value_depends_on_order :
  Permutation dimes (rev dimes)
  /\ totalValue (aggregate dimes) = ((1 / 10 + 2 / 10) + 3 / 10)%float
  /\ totalValue (aggregate (rev dimes)) = ((3 / 10 + 2 / 10) + 1 / 10)%float
  /\ (totalValue (aggregate (rev dimes)) <? totalValue (aggregate dimes))%float = true
  /\ totalValue (aggregate dimes) <> totalValue (aggregate (rev dimes)).
Proof.
  split; [apply Permutation_rev |].
  repeat split; try (vm_compute; reflexivity).
  intros H. apply (f_equal Prim2SF) in H. vm_compute in H. discriminate.
Qed.

(** C10, amended. For every list of products and every permutation of it,
    [totalCount], [lowStockCount] and [stockHealthPercent] are the same;
    [totalValue] is the same for both orders whenever its additions are
    exact: in the binary64 arithmetic of the source when the prices are
    whole numbers of units of some [2^e] and the exact total is below 2^53
    units, and in every arithmetic whose addition is commutative and
    associative (exact decimals, integer minor units).  Nothing is said of
    the binary64 sum otherwise: it can differ in its last digits. *)
Theorem aggregate_permutation (l l' : list Product) :
  Permutation l l' ->
  totalCount (aggregate l) = totalCount (aggregate l')
  /\ lowStockCount (aggregate l) = lowStockCount (aggregate l')
  /\ stockHealthPercent (aggregate l) = stockHealthPercent (aggregate l')
  /\ (forall (e : Z) (units : Product -> Z),
        -1000 <= e <= 900 ->
        Forall (pricedInUnits e units) l ->
        unitsTotal units l < 2 ^ 53 ->
        totalValue (aggregate l) = totalValue (aggregate l'))
  /\ (forall (num : Type) (zero : num) (add : num -> num -> num) (term : Product -> num),
        (forall x y, add x y = add y x) ->
        (forall x y z, add x (add y z) = add (add x y) z) ->
        reduce (fun sum p => add sum (term p)) l zero
        = reduce (fun sum p => add sum (term p)) l' zero).
Proof.
  intros Hperm.
  assert (Hlen : List.length l = List.length l') by now apply Permutation_length.
  assert (Hlow : List.length (Reports.lowStockProducts l)
                 = List.length (Reports.lowStockProducts l')).
  { now apply Permutation_length, lowStockProducts_permutation. }
  split; [exact Hlen |].
  split; [exact Hlow |].
  split.
  { cbn [aggregate stockHealthPercent].
    rewrite !stockHealth_by_counts, Hlen, Hlow. reflexivity. }
  split.
  - intros e units He Hall Hsum. cbn [aggregate totalValue].
    rewrite (totalValue_exact e units l He Hall Hsum).
    rewrite (totalValue_exact e units l' He).
    + f_equal. now apply unitsTotal_permutation.
    + eapply Permutation_Forall; eassumption.
    + now rewrite <- (unitsTotal_permutation units l l' Hperm).
  - intros num zero add term Hcomm Hassoc.
    now apply reduce_permutation.
Qed.

Lemma aggregate_permutation_witness :
  let l := [widget "a" 5 10 2.5; widget "b" 14 10 0.5] in
  let l' := [widget "b" 14 10 0.5; widget "a" 5 10 2.5] in
  totalCount (aggregate l) = totalCount (aggregate l')
  /\ lowStockCount (aggregate l) = lowStockCount (aggregate l')
  /\ stockHealthPercent (aggregate l) = stockHealthPercent (aggregate l')
  /\ totalValue (aggregate l) = totalValue (aggregate l')
  /\ reduce (fun sum p => sum + quantity p * 250) l 0
     = reduce (fun sum p => sum + quantity p * 250) l' 0.
Proof.
  pose proof (aggregate_permutation
                [widget "a" 5 10 2.5; widget "b" 14 10 0.5]
                [widget "b" 14 10 0.5; widget "a" 5 10 2.5]
                (perm_swap _ _ _)) as [H1 [H2 [H3 [H4 H5]]]].
  split; [exact H1 |]. split; [exact H2 |]. split; [exact H3 |].
  split.
  - apply (H4 (-1) (fun p => if String.eqb (id p) "a" then 5 else 1)).
    + lia.
    + repeat constructor; vm_compute; intuition discriminate.
    + vm_compute. reflexivity.
  - apply (H5 Z 0 Z.add (fun p => quantity p * 250)); intros; lia.
Defined.

(* ================================================================== *)
(** * Further properties of the classification *)

Lemma status_by_tests (product : Product) :
  0 <= reorderLevel product ->
  3 * reorderLevel product < 2 ^ 53 ->
  Reports.getProductStatus product
  = if quantity product <=? reorderLevel product then "Low Stock"%string
    else if 2 * quantity product <=? 3 * reorderLevel product then "Medium"%string
    else "Good"%string.
Proof.
  intros Hr Hr3. unfold Reports.getProductStatus.
  destruct (Z.leb_spec (quantity product) (reorderLevel product)); [reflexivity |].
  now rewrite medium_test_exact by lia.
Qed.

(** X1. The status never becomes more urgent as the quantity grows with
    the reorder level fixed, nor as the reorder level drops with the
    quantity fixed. *)
Theorem severity_monotone (p p' : Product) :
  quantity p <= quantity p' ->
  reorderLevel p' <= reorderLevel p ->
  severity (Reports.getProductStatus p') <= severity (Reports.getProductStatus p).
Proof.
  intros Hq Hr. unfold Reports.getProductStatus.
  destruct (Z.leb_spec (quantity p) (reorderLevel p)) as [Hlow | Hlow].
  - destruct (quantity p' <=? reorderLevel p'); [cbn; lia |].
    destruct (_ <=? _)%float; cbn; lia.
  - destruct (Z.leb_spec (quantity p') (reorderLevel p')) as [Hlow' | Hlow']; [lia |].
    destruct (Z2F (quantity p') <=? Z2F (reorderLevel p') * 1.5)%float eqn:Htest'.
    + apply (medium_test_monotone (quantity p) (quantity p') (reorderLevel p)
               (reorderLevel p') Hq Hr) in Htest'.
      rewrite Htest'. cbn. lia.
    + destruct (Z2F (quantity p) <=? Z2F (reorderLevel p) * 1.5)%float; cbn; lia.
Qed.

Lemma severity_monotone_witness :
  severity (Reports.getProductStatus (widget "w" 16 10 2))
  <= severity (Reports.getProductStatus (widget "w" 14 12 2)).
Proof.
  apply (severity_monotone (widget "w" 14 12 2) (widget "w" 16 10 2)); simpl; lia.
Defined.

(** X2. Up to a reorder level of 2^53 / 3, where the product by 1.5 is
    exact, a product is "Medium" exactly when its quantity lies in
    [reorderLevel + 1 .. reorderLevel + reorderLevel / 2] (integer
    division): the band holds [reorderLevel / 2] quantities, and with a
    reorder level of 1 or 0 no quantity at all is "Medium". *)
Theorem medium_quantities (product : Product) :
  0 <= reorderLevel product ->
  3 * reorderLevel product < 2 ^ 53 ->
  let q := quantity product in
  let r := reorderLevel product in
  (Reports.getProductStatus product = "Medium"%string <-> r < q <= r + r / 2)
  /\ (r <= 1 -> Reports.getProductStatus product <> "Medium"%string).
Proof.
  intros Hr Hr3 q r. rewrite status_by_tests by assumption. fold q r.
  pose proof (Z.div_mod r 2 ltac:(lia)) as Hdiv.
  pose proof (Z.mod_pos_bound r 2 ltac:(lia)) as Hmod.
  destruct (Z.leb_spec q r), (Z.leb_spec (2 * q) (3 * r)); split;
    try (split; [discriminate | lia]);
    try (split; [intros _; lia | reflexivity]);
    try (intros ? ?; discriminate);
    try (intros ?; lia).
Qed.

Lemma medium_quantities_witness :
  (Reports.getProductStatus (widget "w" 14 10 2) = "Medium"%string <-> 10 < 14 <= 10 + 10 / 2)
  /\ (10 <= 1 -> Reports.getProductStatus (widget "w" 14 10 2) <> "Medium"%string).
Proof.
  apply (medium_quantities (widget "w" 14 10 2)).
  - simpl. lia.
  - reflexivity.
Defined.

(* ================================================================== *)
(** * Further properties of restock and sell *)

Lemma find_none_by_id (products : list Product) (productId : string) :
  ~ In productId (map id products) ->
  find (fun p => String.eqb (id p) productId) products = None.
Proof.
  induction products as [| a l IH]; intros Hnot; [reflexivity |].
  cbn [find]. destruct (String.eqb_spec (id a) productId) as [Heq | Hne].
  - exfalso. apply Hnot. left. exact Heq.
  - apply IH. intros Hin. apply Hnot. right. exact Hin.
Qed.

(** X3. For an id that no product of the list carries, [handleRestock]
    and [handleSell] do nothing at all: no call, no toast, no state
    change, and the handler's promise is fulfilled. *)
Theorem unknown_product_is_ignored
  (products : list Product) (productId : string)
  (s : Dashboard.State) (outcomes : list Outcome) :
  ~ In productId (map id products) ->
  run (Dashboard.handleRestock products productId) s outcomes
  = mkRun s [] (Settled (Fulfilled tt))
  /\ run (Dashboard.handleSell products productId) s outcomes
     = mkRun s [] (Settled (Fulfilled tt)).
Proof.
  intros Hnot. unfold Dashboard.handleRestock, Dashboard.handleSell.
  rewrite (find_none_by_id products productId Hnot). split; reflexivity.
Qed.

Lemma unknown_product_is_ignored_witness :
  run (Dashboard.handleRestock shelf "p2") Dashboard.initial [Resolved]
  = mkRun Dashboard.initial [] (Settled (Fulfilled tt))
  /\ run (Dashboard.handleSell shelf "p2") Dashboard.initial [Resolved]
     = mkRun Dashboard.initial [] (Settled (Fulfilled tt)).
Proof.
  apply (unknown_product_is_ignored shelf "p2" Dashboard.initial [Resolved]).
  simpl. intuition discriminate.
Defined.

(** X4. For a product with non-negative quantity and reorder level, the
    delta that [handleRestock] passes is at least 10 and at least twice
    the reorder level, and the product with that delta added to its
    quantity is "Good": one restock always lifts a product out of "Low
    Stock" and "Medium".  (The reorder level is below 2^1023, where
    [reorderLevel * 1.5] does not overflow to infinity.) *)
Theorem restock_makes_good
  (products : list Product) (product : Product)
  (s : Dashboard.State) (outcomes : list Outcome) :
  NoDup (map id products) ->
  In product products ->
  0 <= quantity product ->
  0 <= reorderLevel product < 2 ^ 1023 ->
  exists delta,
    callsOf (trace (run (Dashboard.handleRestock products (id product)) s outcomes))
    = [onUpdateStock (id product) delta]
    /\ 10 <= delta
    /\ 2 * reorderLevel product <= delta
    /\ Reports.getProductStatus (adjustQuantity delta product) = "Good"%string
    /\ badgeText (Dashboard.statusBadge (adjustQuantity delta product)) = "OK"%string.
Proof.
  intros Hnd Hin Hq Hr.
  exists (Z.max 10 (reorderLevel product * 2)).
  split.
  { unfold Dashboard.handleRestock. rewrite (find_by_id products product Hnd Hin).
    destruct outcomes as [| [| e] rest]; reflexivity. }
  split; [lia |]. split; [lia |].
  unfold Reports.getProductStatus, Dashboard.statusBadge, adjustQuantity.
  cbn [quantity reorderLevel].
  destruct (Z.leb_spec (quantity product + Z.max 10 (reorderLevel product * 2))
              (reorderLevel product)); [lia |].
  rewrite medium_test_false_from_double by lia.
  split; reflexivity.
Qed.

Lemma restock_makes_good_witness :
  exists delta,
    callsOf (trace (run (Dashboard.handleRestock shelf "p1") Dashboard.initial [Resolved]))
    = [onUpdateStock "p1" delta]
    /\ 10 <= delta
    /\ 2 * 10 <= delta
    /\ Reports.getProductStatus (adjustQuantity delta (widget "p1" 3 10 2)) = "Good"%string
    /\ badgeText (Dashboard.statusBadge (adjustQuantity delta (widget "p1" 3 10 2)))
       = "OK"%string.
Proof.
  apply (restock_makes_good shelf (widget "p1" 3 10 2) Dashboard.initial [Resolved]).
  - repeat constructor; simpl; intuition.
  - simpl; auto.
  - simpl; lia.
  - split; [simpl; lia | reflexivity].
Defined.

(** Beyond that bound the product overflows: with a reorder level of
    [3 * 2^1022] both the restocked quantity and [reorderLevel * 1.5] are
    infinite in binary64, and the status after the restock is "Medium". *)
Lemma restock_beyond_overflow :
  let product := widget "w" 0 (3 * 2 ^ 1022) 2 in
  Reports.getProductStatus
    (adjustQuantity (Z.max 10 (reorderLevel product * 2)) product)
  = "Medium"%string.
Proof. vm_compute. reflexivity. Qed.

(** X5. Whatever the list and the id, [handleSell] issues at most one
    call, and when it issues one the delta is -1 and the product found
    for the id has a quantity of at least 1: the delta never asks for a
    negative stock. *)
Theorem sell_never_below_zero
  (products : list Product) (productId : string)
  (s : Dashboard.State) (outcomes : list Outcome) :
  let calls := callsOf (trace (run (Dashboard.handleSell products productId) s outcomes)) in
  calls = []
  \/ exists product,
       find (fun p => String.eqb (id p) productId) products = Some product
       /\ calls = [onUpdateStock productId (-1)]
       /\ 0 <= quantity (adjustQuantity (-1) product)
       /\ Dashboard.sellDisabled product = false.
Proof.
  unfold Dashboard.handleSell, Dashboard.sellDisabled.
  destruct (find _ products) as [product |]; [| left; reflexivity].
  destruct (Z.ltb_spec 0 (quantity product)) as [Hpos | Hle]; [| left; reflexivity].
  right. exists product. split; [reflexivity |]. split.
  - destruct outcomes as [| [| e] rest]; reflexivity.
  - cbn [adjustQuantity quantity]. split; [lia |]. apply Z.eqb_neq. lia.
Qed.

(* ================================================================== *)
(** * The Reports page *)

Lemma length_append (s t : string) :
  String.length (s ++ t) = (String.length s + String.length t)%nat.
Proof. induction s as [| c s IH]; cbn; [reflexivity | now rewrite IH]. Qed.

Lemma substring_prefix (n : nat) (s : string) :
  (n <= String.length s)%nat ->
  String.length (substring 0 n s) = n
  /\ exists rest, s = (substring 0 n s ++ rest)%string.
Proof.
  revert s. induction n as [| n IH]; intros s Hn.
  - destruct s; cbn; split; eauto.
  - destruct s as [| c s]; cbn in Hn; [lia |].
    destruct (IH s ltac:(lia)) as [Hlen [rest Hrest]]. cbn. split.
    + now rewrite Hlen.
    + exists rest. now rewrite <- Hrest.
Qed.

(** X6. The chart has one entry per product, in the order of the
    products, carrying the product's quantity and reorder level.  Its
    label is the product name when the name has at most 15 characters;
    otherwise it is the first 15 characters of the name followed by three
    dots.  No label is longer than 18 characters. *)
Theorem chartData_labels (products : list Product) :
  List.length (chartData products) = List.length products
  /\ forall (i : nat) (product : Product),
       nth_error products i = Some product ->
       exists entry,
         nth_error (chartData products) i = Some entry
         /\ chartStock entry = quantity product
         /\ chartReorderLevel entry = reorderLevel product
         /\ (String.length (chartName entry) <= 18)%nat
         /\ ((String.length (name product) <= 15)%nat -> chartName entry = name product)
         /\ ((15 < String.length (name product))%nat ->
             exists first rest,
               name product = (first ++ rest)%string
               /\ String.length first = 15%nat
               /\ chartName entry = (first ++ "...")%string).
Proof.
  unfold chartData. split; [apply length_map |].
  intros i product Hnth.
  eexists. split; [rewrite nth_error_map, Hnth; reflexivity |].
  cbn [chartStock chartReorderLevel chartName option_map].
  split; [reflexivity |]. split; [reflexivity |].
  destruct (Nat.ltb_spec 15 (String.length (name product))) as [Hlong | Hshort].
  - destruct (substring_prefix 15 (name product) ltac:(lia)) as [Hlen [rest Hrest]].
    split; [rewrite length_append, Hlen; cbn; lia |].
    split; [lia |]. intros _.
    exists (substring 0 15 (name product)), rest. auto.
  - split; [lia |]. split; [reflexivity | lia].
Qed.

Lemma lowStock_membership (products : list Product) (p : Product) :
  In p (Reports.lowStockProducts products)
  <-> In p products /\ Reports.getProductStatus p = "Low Stock"%string.
Proof.
  rewrite lowStockProducts_by_status, filter_In.
  split; intros [Hin H]; (split; [exact Hin |]).
  - now apply String.eqb_eq.
  - now apply String.eqb_eq.
Qed.

Lemma badges_by_status (p : Product) :
  badgeText (Reports.statusBadge p) = Reports.getProductStatus p
  /\ (badgeText (Dashboard.statusBadge p) = "Low Stock"%string
      <-> Reports.getProductStatus p = "Low Stock"%string)
  /\ (badgeText (Dashboard.statusBadge p) = "OK"%string
      <-> Reports.getProductStatus p <> "Low Stock"%string).
Proof.
  unfold Reports.statusBadge, Dashboard.statusBadge, Reports.getProductStatus.
  destruct (quantity p <=? reorderLevel p).
  - cbn. repeat split; auto; try discriminate. congruence.
  - destruct (_ <=? _)%float; cbn; repeat split; auto; discriminate.
Qed.

(** X7. The "Low Stock Alert" card says that all products are adequately
    stocked exactly when no product of the list is "Low Stock" (that is,
    when every row of the Dashboard table shows "OK"); otherwise it shows
    one card for each "Low Stock" product and for no other, in the order
    of the table, as many as the "Low Stock Items" figures of Reports and
    of the Dashboard count. *)
Theorem lowStockAlert_matches_table (products : list Product) :
  (lowStockAlert products = AllAdequatelyStocked
   <-> forall p, In p products -> badgeText (Dashboard.statusBadge p) = "OK"%string)
  /\ forall cards,
       lowStockAlert products = RestockRequired cards ->
       cards <> []
       /\ cards = filter (fun p => String.eqb (badgeText (Reports.statusBadge p)) "Low Stock")
                    products
       /\ (forall p, In p cards
                     <-> In p products
                         /\ badgeText (Dashboard.statusBadge p) = "Low Stock"%string)
       /\ List.length cards = lowStockCount (aggregate products)
       /\ List.length cards = Dashboard.lowStockItems products.
Proof.
  assert (Hbadge : forall p,
             badgeText (Dashboard.statusBadge p) = "Low Stock"%string
             <-> Reports.getProductStatus p = "Low Stock"%string).
  { intros p. apply (badges_by_status p). }
  assert (Hok : forall p,
             badgeText (Dashboard.statusBadge p) = "OK"%string
             <-> Reports.getProductStatus p <> "Low Stock"%string).
  { intros p. apply (badges_by_status p). }
  unfold lowStockAlert.
  destruct (Reports.lowStockProducts products) as [| c cs] eqn:Hlow; cbn [List.length Nat.eqb].
  - split.
    + split; [intros _ p Hin | reflexivity].
      apply Hok. intros Hs.
      assert (H : In p (Reports.lowStockProducts products))
        by (apply lowStock_membership; auto).
      rewrite Hlow in H. exact H.
    + intros cards H. discriminate.
  - split.
    + split; [discriminate |]. intros Hall. exfalso.
      assert (H : In c (Reports.lowStockProducts products)) by (rewrite Hlow; left; reflexivity).
      apply lowStock_membership in H. destruct H as [Hin Hs].
      apply (proj1 (Hok c) (Hall c Hin)). exact Hs.
    + intros cards H. injection H as <-. rewrite <- Hlow.
      split; [rewrite Hlow; discriminate |].
      split.
      { rewrite lowStockProducts_by_status. apply filter_ext. intros p.
        now destruct (badges_by_status p) as [-> _]. }
      split.
      { intros p. rewrite lowStock_membership, Hbadge. reflexivity. }
      split; reflexivity.
Qed.

(** The Reports page shows either the "No Products Found" card or
    the summary cards, never both and never neither: the former exactly
    for the empty list.  Each export button is disabled exactly when
    there is no product or an export of its own kind is running; so while
    an Excel export runs the PDF button stays enabled (and conversely),
    and for the empty list both are disabled, nothing is charted and the
    alert reports no low stock. *)
Lemma reports_sections (products : list Product) (isExporting : Reports.State) :
  showsEmptyCard products = negb (showsSummary products)
  /\ (showsEmptyCard products = true <-> products = [])
  /\ (exportPDFDisabled products isExporting = true
      <-> products = [] \/ isExporting = Some Reports.pdf)
  /\ (exportExcelDisabled products isExporting = true
      <-> products = [] \/ isExporting = Some Reports.excel)
  /\ (products = [] ->
      chartData products = []
      /\ lowStockAlert products = AllAdequatelyStocked
      /\ stockHealthPercent (aggregate products) = None).
Proof.
  unfold showsEmptyCard, showsSummary, exportPDFDisabled, exportExcelDisabled.
  destruct products as [| p l]; cbn.
  - repeat split; auto.
  - repeat split; try discriminate; try (intros [H | H]; [discriminate | subst; reflexivity]);
      try (intros H; right; destruct isExporting as [[|] |]; try discriminate; reflexivity).
Qed.

(* ================================================================== *)
(** * Sequences of events on a mounted component *)

Lemma toastsOf_app (t u : list Effect) : toastsOf (t ++ u) = (toastsOf t ++ toastsOf u)%list.
Proof. apply filter_app. Qed.

Lemma callsOf_app (t u : list Effect) : callsOf (t ++ u) = (callsOf t ++ callsOf u)%list.
Proof. apply flat_map_app. Qed.

Lemma exportToPDF_starts (products : list Product) (now : string) :
  exists k,
    run (Reports.exportToPDF products now) None []
    = mkRun (Some Reports.pdf)
        [invoke (ExportService_exportToPDF (Reports.exportData products now))] (Waiting k)
    /\ endsExport k.
Proof.
  eexists. split; [reflexivity |].
  intros [| [message | other]] s; eexists; repeat split.
Qed.

Lemma exportToExcel_starts (products : list Product) (now : string) :
  exists k,
    run (Reports.exportToExcel products now) None []
    = mkRun (Some Reports.excel)
        [invoke (ExportService_exportToExcel (Reports.exportData products now))] (Waiting k)
    /\ endsExport k.
Proof.
  eexists. split; [reflexivity |].
  intros [| [message | other]] s; eexists; repeat split.
Qed.

Lemma reportsInvariant_started (i : Instance Reports.State) (kind : Reports.ExportKind)
  (c : Call) (k : Outcome -> Async Reports.State unit) :
  reportsInvariant i ->
  state i = None ->
  endsExport k ->
  reportsInvariant (absorb i (inflight i) (mkRun (Some kind) [invoke c] (Waiting k))).
Proof.
  intros [Hun [Hcount Hst]] Hidle Hk.
  destruct Hst as [[_ Hfl] | [kind' [k' [Hs _]]]]; [| congruence].
  unfold reportsInvariant, absorb; cbn. rewrite Hfl, Hun in *. cbn in *.
  rewrite toastsOf_app, callsOf_app, !length_app. cbn.
  split; [reflexivity |]. split; [lia |].
  right. exists kind, k. auto.
Qed.

Lemma reportsInvariant_ignored (i : Instance Reports.State) (kind : Reports.ExportKind) :
  state i = Some kind ->
  absorb i (inflight i) (mkRun (Some kind) [] (Settled (Fulfilled tt))) = i.
Proof.
  destruct i as [st fl lg un]; cbn. intros ->. unfold absorb; cbn.
  now rewrite !app_nil_r.
Qed.

Lemma reportsInvariant_click (i : Instance Reports.State) (products : list Product)
  (now : string) :
  reportsInvariant i ->
  reportsInvariant (step i (Trigger (Reports.exportToPDF products now)))
  /\ reportsInvariant (step i (Trigger (Reports.exportToExcel products now))).
Proof.
  intros Hinv. cbn [step].
  destruct (state i) as [kind |] eqn:Hs.
  - split.
    + replace (run (Reports.exportToPDF products now) (Some kind) [])
        with (mkRun (St := Reports.State) (A := unit) (Some kind) [] (Settled (Fulfilled tt)))
        by reflexivity.
      now rewrite reportsInvariant_ignored.
    + replace (run (Reports.exportToExcel products now) (Some kind) [])
        with (mkRun (St := Reports.State) (A := unit) (Some kind) [] (Settled (Fulfilled tt)))
        by reflexivity.
      now rewrite reportsInvariant_ignored.
  - destruct (exportToPDF_starts products now) as [k [Hrun Hk]].
    destruct (exportToExcel_starts products now) as [k' [Hrun' Hk']].
    rewrite Hrun, Hrun'. split; now apply reportsInvariant_started.
Qed.

Lemma reportsInvariant_settle (i : Instance Reports.State) (n : nat) (o : Outcome) :
  reportsInvariant i -> reportsInvariant (step i (Settle n o)).
Proof.
  intros Hinv. pose proof Hinv as [Hun [Hcount Hst]]. cbn [step].
  destruct Hst as [[Hs Hfl] | [kind [k [Hs [Hfl Hk]]]]]; rewrite Hfl.
  - destruct n; exact Hinv.
  - destruct n as [| n]; cbn [nth_error]; [| destruct n; exact Hinv].
    destruct (Hk o (state i)) as [t [Hrun [Hcalls Htoasts]]].
    rewrite Hrun. unfold reportsInvariant, absorb; cbn.
    rewrite Hun, toastsOf_app, callsOf_app, Hcalls, !length_app, Htoasts, app_nil_r.
    rewrite Hfl in Hcount. cbn in Hcount. cbn [List.length].
    split; [reflexivity |]. split; [lia |]. left. auto.
Qed.

Lemma reportsInvariant_step (i : Instance Reports.State) (ev : ReportsEvent) :
  reportsInvariant i -> reportsInvariant (reportsStep i ev).
Proof.
  intros Hinv. destruct ev as [products now | products now | n o]; cbn [reportsStep].
  - destruct (exportPDFDisabled products (state i)); [exact Hinv |].
    now apply reportsInvariant_click.
  - destruct (exportExcelDisabled products (state i)); [exact Hinv |].
    now apply reportsInvariant_click.
  - now apply reportsInvariant_settle.
Qed.

Lemma reportsInvariant_run (evs : list ReportsEvent) (i : Instance Reports.State) :
  reportsInvariant i -> reportsInvariant (fold_left reportsStep evs i).
Proof.
  revert i. induction evs as [| ev evs IH]; intros i Hinv; [exact Hinv |].
  cbn [fold_left]. apply IH. now apply reportsInvariant_step.
Qed.

(** X8. Whatever the user clicks, in whatever order, and however the
    export calls settle, the Reports page never has two exports in flight:
    there is one exactly while [isExporting] is set, and none while it is
    null.  No rejection escapes a handler, and every call that has
    settled has produced exactly one toast. *)
Theorem one_export_at_a_time (evs : list ReportsEvent) :
  let i := reportsRun evs in
  (List.length (inflight i) <= 1)%nat
  /\ (state i = None <-> inflight i = [])
  /\ unhandled i = []
  /\ (List.length (toastsOf (log i)) + List.length (inflight i))%nat
     = List.length (callsOf (log i)).
Proof.
  intros i.
  assert (Hinv : reportsInvariant i).
  { apply reportsInvariant_run. unfold reportsInvariant, mount; cbn. auto. }
  destruct Hinv as [Hun [Hcount Hst]].
  split; [| split; [| split; assumption]].
  - destruct Hst as [[_ ->] | [kind [k [_ [-> _]]]]]; cbn; lia.
  - destruct Hst as [[Hs Hfl] | [kind [k [Hs [Hfl _]]]]]; rewrite Hs, Hfl;
      split; auto; discriminate.
Qed.

(** X9. While an Excel export is running the PDF button is still
    enabled, yet a click on it issues no call and changes nothing; the
    same holds for the Excel button during a PDF export. *)
Theorem other_export_click_ignored
  (i : Instance Reports.State) (products : list Product) (now : string) :
  products <> [] ->
  (state i = Some Reports.excel ->
   exportPDFDisabled products (state i) = false
   /\ reportsStep i (ClickExportPDF products now) = i)
  /\ (state i = Some Reports.pdf ->
      exportExcelDisabled products (state i) = false
      /\ reportsStep i (ClickExportExcel products now) = i).
Proof.
  intros Hne.
  assert (Hlen : (List.length products =? 0)%nat = false)
    by (destruct products; [congruence | reflexivity]).
  split; intros Hs; cbn [reportsStep];
    unfold exportPDFDisabled, exportExcelDisabled; rewrite Hs, Hlen; cbn [orb];
    (split; [reflexivity |]).
  - apply (export_ignored_while_exporting products now i Reports.excel Hs).
  - apply (export_ignored_while_exporting products now i Reports.pdf Hs).
Qed.

Lemma other_export_click_ignored_witness :
  exportPDFDisabled shelf (Some Reports.excel) = false
  /\ reportsStep (reportsRun [ClickExportExcel shelf "09:00"]) (ClickExportPDF shelf "09:01")
     = reportsRun [ClickExportExcel shelf "09:00"].
Proof.
  refine (proj1 (other_export_click_ignored
                   (reportsRun [ClickExportExcel shelf "09:00"]) shelf "09:01" _) _).
  - discriminate.
  - reflexivity.
Defined.

(* ================================================================== *)
(** * Typing into the form *)

Lemma handleInputChange_run (fieldName value : string) (s : AddProduct.State)
  (outcomes : list Outcome) :
  run (handleInputChange fieldName value) s outcomes
  = mkRun (AddProduct.mkState (updateField fieldName value (AddProduct.formData s))
             (AddProduct.loading s))
      [] (Settled (Fulfilled tt)).
Proof. reflexivity. Qed.

Ltac field_cases :=
  repeat match goal with
    | |- context [String.eqb ?a ?b] =>
        destruct (String.eqb_spec a b); subst; try discriminate; try congruence
    | H : context [String.eqb ?a ?b] |- _ =>
        destruct (String.eqb_spec a b); subst; try discriminate; try congruence
    end.

(** X10. A change of one of the five inputs sets that field of the form to
    the typed text and leaves the other four fields, and [loading], as
    they were; a second change of the same input replaces the first;
    changes of two different inputs give the same form in either order;
    and the handler calls no collaborator and shows no toast. *)
Theorem handleInputChange_sets_one_field
  (fieldName value : string) (s : AddProduct.State) :
  let s' := final (run (handleInputChange fieldName value) s []) in
  trace (run (handleInputChange fieldName value) s []) = []
  /\ AddProduct.loading s' = AddProduct.loading s
  /\ (fieldValue fieldName (AddProduct.formData s) <> None ->
      fieldValue fieldName (AddProduct.formData s') = Some value)
  /\ (forall other,
        other <> fieldName ->
        fieldValue other (AddProduct.formData s') = fieldValue other (AddProduct.formData s))
  /\ (forall value',
        updateField fieldName value' (AddProduct.formData s')
        = updateField fieldName value' (AddProduct.formData s))
  /\ (forall other value',
        other <> fieldName ->
        updateField other value' (AddProduct.formData s')
        = updateField fieldName value (updateField other value' (AddProduct.formData s))).
Proof.
  intros s'. unfold s'. rewrite handleInputChange_run. cbn [final trace AddProduct.formData AddProduct.loading].
  destruct s as [[n k q p r] l]. cbn [AddProduct.formData].
  split; [reflexivity |]. split; [reflexivity |].
  split; [| split; [| split]].
  - unfold fieldValue, updateField. intros H. field_cases; cbn; field_cases; try reflexivity; try congruence.
  - intros other Hne. unfold fieldValue, updateField. field_cases; cbn; field_cases; try reflexivity; try congruence.
  - intros value'. unfold updateField. field_cases; cbn; field_cases; try reflexivity; try congruence.
  - intros other value' Hne. unfold updateField. field_cases; cbn; field_cases; try reflexivity; try congruence.
Qed.

Lemma handleSubmit_starts (s : AddProduct.State) :
  exists k,
    run AddProduct.handleSubmit s []
    = mkRun (AddProduct.mkState (AddProduct.formData s) true)
        [invoke (onAddProduct (AddProduct.parseForm (AddProduct.formData s)))] (Waiting k)
    /\ endsSubmit k.
Proof.
  eexists. split; [reflexivity |].
  intros [| e] s'; eexists; repeat split.
Qed.

Lemma formInvariant_type (i : Instance AddProduct.State) (fieldName value : string) :
  formInvariant i ->
  formInvariant (step i (Trigger (handleInputChange fieldName value))).
Proof.
  intros [Hun [Hcount Hst]]. cbn [step]. rewrite handleInputChange_run.
  unfold formInvariant, absorb; cbn. rewrite !app_nil_r.
  split; [exact Hun |]. split; [exact Hcount |]. exact Hst.
Qed.

Lemma formInvariant_submit (i : Instance AddProduct.State) :
  formInvariant i ->
  AddProduct.loading (state i) = false ->
  formInvariant (step i (Trigger AddProduct.handleSubmit)).
Proof.
  intros [Hun [Hcount Hst]] Hidle. cbn [step].
  destruct (handleSubmit_starts (state i)) as [k [Hrun Hk]]. rewrite Hrun.
  destruct Hst as [[_ Hfl] | [k' [Hl _]]]; [| congruence].
  unfold formInvariant, absorb; cbn. rewrite Hfl, Hun in *. cbn in *.
  rewrite toastsOf_app, callsOf_app, !length_app. cbn.
  split; [reflexivity |]. split; [lia |]. right. exists k. auto.
Qed.

Lemma formInvariant_settle (i : Instance AddProduct.State) (n : nat) (o : Outcome) :
  formInvariant i -> formInvariant (step i (Settle n o)).
Proof.
  intros Hinv. pose proof Hinv as [Hun [Hcount Hst]]. cbn [step].
  destruct Hst as [[Hs Hfl] | [k [Hs [Hfl Hk]]]]; rewrite Hfl.
  - destruct n; exact Hinv.
  - destruct n as [| n]; cbn [nth_error]; [| destruct n; exact Hinv].
    destruct (Hk o (state i)) as [t [Hrun [Hcalls Htoasts]]].
    rewrite Hrun. unfold formInvariant, absorb; cbn.
    rewrite Hun, toastsOf_app, callsOf_app, Hcalls, !length_app, Htoasts, app_nil_r.
    rewrite Hfl in Hcount. cbn in Hcount. cbn [List.length].
    split; [reflexivity |]. split; [lia |]. left. auto.
Qed.

Lemma formInvariant_step (i : Instance AddProduct.State) (ev : FormEvent) :
  formInvariant i -> formInvariant (formStep i ev).
Proof.
  intros Hinv. destruct ev as [fieldName value | | n o]; cbn [formStep].
  - now apply formInvariant_type.
  - unfold AddProduct.submitDisabled.
    destruct (AddProduct.loading (state i)) eqn:Hl; [exact Hinv |].
    now apply formInvariant_submit.
  - now apply formInvariant_settle.
Qed.

Lemma formInvariant_run (evs : list FormEvent) (i : Instance AddProduct.State) :
  formInvariant i -> formInvariant (fold_left formStep evs i).
Proof.
  revert i. induction evs as [| ev evs IH]; intros i Hinv; [exact Hinv |].
  cbn [fold_left]. apply IH. now apply formInvariant_step.
Qed.

(** X11. From a form that is not loading, whatever is typed and
    submitted, in whatever order, and however the calls settle: the form
    never has two [onAddProduct] calls in flight; there is one exactly
    while [loading] is true (the submit button being disabled just then);
    no rejection escapes the handler; and every settled call has produced
    exactly one toast. *)
Theorem one_submission_at_a_time (s : AddProduct.State) (evs : list FormEvent) :
  AddProduct.loading s = false ->
  let i := formRun s evs in
  (List.length (inflight i) <= 1)%nat
  /\ (AddProduct.submitDisabled (state i) = true <-> inflight i <> [])
  /\ unhandled i = []
  /\ (List.length (toastsOf (log i)) + List.length (inflight i))%nat
     = List.length (callsOf (log i)).
Proof.
  intros Hidle i.
  assert (Hinv : formInvariant i).
  { apply formInvariant_run. unfold formInvariant, mount; cbn. auto. }
  destruct Hinv as [Hun [Hcount Hst]]. unfold AddProduct.submitDisabled.
  split; [| split; [| split; assumption]].
  - destruct Hst as [[_ ->] | [k [_ [-> _]]]]; cbn; lia.
  - destruct Hst as [[Hs Hfl] | [k [Hs [Hfl _]]]]; rewrite Hs, Hfl;
      split; try discriminate; try congruence; auto.
Qed.

Lemma one_submission_at_a_time_witness :
  let i := formRun AddProduct.initial
             [TypeInto "quantity" "4"; SubmitForm; SubmitForm; TypeInto "sku" "B-7";
              CreateSettles 0 (Rejected (OtherValue "offline")); SubmitForm] in
  (List.length (inflight i) <= 1)%nat
  /\ (AddProduct.submitDisabled (state i) = true <-> inflight i <> [])
  /\ unhandled i = []
  /\ (List.length (toastsOf (log i)) + List.length (inflight i))%nat
     = List.length (callsOf (log i)).
Proof.
  apply (one_submission_at_a_time AddProduct.initial). reflexivity.
Defined.

Lemma typing_while_in_flight (edits : list (string * string))
  (i : Instance AddProduct.State) :
  fold_left formStep (map (fun edit => TypeInto (fst edit) (snd edit)) edits) i
  = mkInstance
      (AddProduct.mkState (typeAll edits (AddProduct.formData (state i)))
         (AddProduct.loading (state i)))
      (inflight i) (log i) (unhandled i).
Proof.
  revert i. induction edits as [| [fieldName value] edits IH]; intros i.
  - destruct i as [[f l] fl lg un]; reflexivity.
  - cbn [map fold_left formStep fst snd]. rewrite IH.
    cbn [step]. rewrite handleInputChange_run. unfold absorb; cbn.
    now rewrite !app_nil_r.
Qed.

(** X12. A submission sends the form as it stands at the click: what is
    typed while the call is in flight does not change the product sent.
    When the call resolves the form is emptied, so text typed in the
    meantime is discarded; when it rejects the form keeps the text as
    last typed.  Either way [loading] is false again and nothing is left
    in flight. *)
Theorem typing_during_submission
  (s : AddProduct.State) (edits : list (string * string)) (o : Outcome) :
  AddProduct.loading s = false ->
  let i := formRun s
             (SubmitForm :: map (fun edit => TypeInto (fst edit) (snd edit)) edits
                ++ [CreateSettles 0 o])%list in
  callsOf (log i) = [onAddProduct (AddProduct.parseForm (AddProduct.formData s))]
  /\ AddProduct.formData (state i)
     = match o with
       | Resolved => AddProduct.emptyForm
       | Rejected _ => typeAll edits (AddProduct.formData s)
       end
  /\ AddProduct.loading (state i) = false
  /\ inflight i = [].
Proof.
  intros Hidle i. unfold i, formRun.
  cbn [fold_left formStep mount state]. unfold AddProduct.submitDisabled. rewrite Hidle.
  rewrite fold_left_app, typing_while_in_flight.
  destruct o as [| e]; cbn; repeat split.
Qed.

Lemma typing_during_submission_witness :
  let s := AddProduct.mkState (AddProduct.mkFormData "Bolt" "B-7" "4" "2.50" "1") false in
  let i := formRun s [SubmitForm; TypeInto "name" "Nut"; CreateSettles 0 Resolved] in
  callsOf (log i) = [onAddProduct (AddProduct.parseForm (AddProduct.formData s))]
  /\ AddProduct.formData (state i) = AddProduct.emptyForm
  /\ AddProduct.loading (state i) = false
  /\ inflight i = [].
Proof.
  apply (typing_during_submission
           (AddProduct.mkState (AddProduct.mkFormData "Bolt" "B-7" "4" "2.50" "1") false)
           [("name"%string, "Nut"%string)] Resolved).
  reflexivity.
Defined.

(* ================================================================== *)
(** * [parseInt] on decimal numerals *)

Lemma readDigits_numeral (d : Decimal.uint) (tail : string) :
  endsNumeral tail = true ->
  readDigits 10 (NilEmpty.string_of_uint d ++ tail) = (digitsOfUint d, tail).
Proof.
  intros Htail. induction d; cbn [NilEmpty.string_of_uint digitsOfUint append];
    try (cbn [readDigits]; rewrite IHd; reflexivity).
  destruct tail as [| c rest]; [reflexivity |].
  cbn [endsNumeral] in Htail. cbn [readDigits].
  destruct (digitValue c) as [v |]; [| reflexivity].
  apply negb_true_iff in Htail. now rewrite Htail.
Qed.

Lemma valueOfDigits_acc (d : Decimal.uint) (acc : positive) :
  fold_left (fun a v => a * 10 + v) (digitsOfUint d) (Z.pos acc)
  = Z.pos (Pos.of_uint_acc d acc).
Proof.
  revert acc. induction d; intros acc; cbn [digitsOfUint fold_left Pos.of_uint_acc];
    [reflexivity | ..];
    match goal with
    | |- fold_left _ _ ?a = Z.pos (Pos.of_uint_acc _ ?b) =>
        replace a with (Z.pos b) by lia
    end; apply IHd.
Qed.

Lemma valueOfDigits_numeral (d : Decimal.uint) :
  valueOfDigits 10 (digitsOfUint d) = Z.of_N (Pos.of_uint d).
Proof.
  unfold valueOfDigits.
  induction d; cbn [digitsOfUint fold_left Pos.of_uint]; [reflexivity | exact IHd | ..];
    match goal with
    | |- fold_left _ _ ?a = Z.of_N (N.pos (Pos.of_uint_acc _ ?b)) =>
        change a with (Z.pos b)
    end; apply valueOfDigits_acc.
Qed.

(** The decimal numeral of a positive number starts with a digit from 1
    to 9. *)
Lemma numeral_starts_nonzero (p : positive) :
  exists c rest,
    NilEmpty.string_of_uint (Pos.to_uint p) = String c rest
    /\ In c ["1"; "2"; "3"; "4"; "5"; "6"; "7"; "8"; "9"]%char.
Proof.
  pose proof (DecimalPos.Unsigned.of_to p) as Hof.
  pose proof (DecimalPos.Unsigned.to_of (Pos.to_uint p)) as Hto.
  rewrite Hof in Hto. cbn [N.to_uint] in Hto.
  destruct (Pos.to_uint p) as [| u | u | u | u | u | u | u | u | u | u] eqn:Hd;
    try (eexists; eexists; split; [reflexivity | cbn; tauto]).
  - discriminate Hof.
  - exfalso. unfold Decimal.unorm in Hto. cbn [Decimal.nzhead] in Hto.
    destruct (Decimal.nzhead u) eqn:Hnz;
      try (rewrite <- Hnz in Hto; now apply (DecimalFacts.nzhead_nonzero u u)).
    injection Hto as Hu. subst u. discriminate Hof.
Qed.

Lemma parseInt_decimal (c : ascii) (rest : string) :
  In c ["1"; "2"; "3"; "4"; "5"; "6"; "7"; "8"; "9"]%char ->
  parseInt (String c rest)
  = match fst (readDigits 10 (String c rest)) with
    | [] => nan
    | ds => Z2F (valueOfDigits 10 ds)
    end.
Proof.
  intros Hc. cbn [In] in Hc.
  repeat (destruct Hc as [<- | Hc]; [reflexivity |]). contradiction.
Qed.

Lemma parseInt_zero (tail : string) :
  startsWithX tail = false ->
  parseInt (String "0" tail)
  = match fst (readDigits 10 (String "0" tail)) with
    | [] => nan
    | ds => Z2F (valueOfDigits 10 ds)
    end.
Proof.
  intros Hx. destruct tail as [| c rest]; [reflexivity |].
  destruct c as [[] [] [] [] [] [] [] []]; try discriminate Hx; reflexivity.
Qed.

Lemma parseInt_numeral (n : Z) (tail : string) :
  0 <= n ->
  endsNumeral tail = true ->
  (n = 0 -> startsWithX tail = false) ->
  parseInt (string_of_Z n ++ tail) = Z2F n.
Proof.
  intros Hn Htail Hx. destruct n as [| p | p]; [| | lia].
  - change (string_of_Z 0 ++ tail)%string with (String "0" tail).
    rewrite (parseInt_zero tail (Hx eq_refl)).
    change (String "0" tail)
      with (NilEmpty.string_of_uint (Decimal.D0 Decimal.Nil) ++ tail)%string.
    rewrite (readDigits_numeral _ tail Htail). reflexivity.
  - destruct (numeral_starts_nonzero p) as (c & rest & Hs & Hc).
    assert (Hstr : string_of_Z (Z.pos p) = NilEmpty.string_of_uint (Pos.to_uint p)).
    { unfold string_of_Z. cbn [Z.to_int NilZero.string_of_int].
      unfold NilZero.string_of_uint.
      destruct (Pos.to_uint p); [discriminate Hs | reflexivity ..]. }
    rewrite Hstr.
    assert (Hparse : parseInt (NilEmpty.string_of_uint (Pos.to_uint p) ++ tail)
                     = match fst (readDigits 10
                               (NilEmpty.string_of_uint (Pos.to_uint p) ++ tail)) with
                       | [] => nan
                       | ds => Z2F (valueOfDigits 10 ds)
                       end).
    { rewrite Hs. cbn [append]. now apply parseInt_decimal. }
    rewrite Hparse, (readDigits_numeral _ tail Htail). cbn [fst].
    pose proof (valueOfDigits_numeral (Pos.to_uint p)) as Hv.
    rewrite DecimalPos.Unsigned.of_to in Hv. cbn [Z.of_N] in Hv.
    destruct (digitsOfUint (Pos.to_uint p)) as [| d ds] eqn:Hds.
    + discriminate Hv.
    + now rewrite Hv.
Qed.

(** X13. [handleSubmit] reads the quantity and the reorder level with
    [parseInt], which stops at the first character that is not a digit
    and reports no error: a field whose text is the decimal numeral of a
    count followed by anything that does not start with a digit (a
    fraction as in 12.5, an exponent as in 1e3, a unit) is sent as that
    count, the rest being dropped.  (After a lone 0 the next character
    must not be x or X, which would announce a hexadecimal numeral.) *)
Theorem parseForm_truncates_counts
  (f : AddProduct.FormData) (q r : Z) (afterQ afterR : string) :
  0 <= q ->
  0 <= r ->
  AddProduct.quantity f = (string_of_Z q ++ afterQ)%string ->
  AddProduct.reorderLevel f = (string_of_Z r ++ afterR)%string ->
  endsNumeral afterQ = true ->
  endsNumeral afterR = true ->
  (q = 0 -> startsWithX afterQ = false) ->
  (r = 0 -> startsWithX afterR = false) ->
  draftQuantity (AddProduct.parseForm f) = Z2F q
  /\ draftReorderLevel (AddProduct.parseForm f) = Z2F r.
Proof.
  intros Hq Hr Hfq Hfr Haq Har Hxq Hxr.
  unfold AddProduct.parseForm. cbn [draftQuantity draftReorderLevel].
  rewrite Hfq, Hfr. split; now apply parseInt_numeral.
Qed.

Lemma parseForm_truncates_counts_witness :
  draftQuantity
    (AddProduct.parseForm (AddProduct.mkFormData "Bolt" "B-7" "12.5" "2.50" "1e3"))
  = Z2F 12
  /\ draftReorderLevel
       (AddProduct.parseForm (AddProduct.mkFormData "Bolt" "B-7" "12.5" "2.50" "1e3"))
     = Z2F 1.
Proof.
  apply (parseForm_truncates_counts
           (AddProduct.mkFormData "Bolt" "B-7" "12.5" "2.50" "1e3") 12 1 ".5" "e3").
  - lia.
  - lia.
  - reflexivity.
  - reflexivity.
  - reflexivity.
  - reflexivity.
  - intros H. discriminate H.
  - intros H. discriminate H.
Defined.

(* ================================================================== *)
(** * Clicks in a Dashboard row *)

(** X14. A click in a row of the Dashboard table invokes at most one
    callback.  On the Restock and Sell buttons it is
    [onNavigateToUpdateStock] with the product's id and the button's
    action, on the View button and on the cells outside the actions
    column it is [onViewProduct] with the product's id, once; a click on a
    button never opens the product view as well, and a click on the
    disabled Sell button (quantity 0) or between the buttons invokes
    nothing. *)
Theorem row_click_invokes_one_callback (product : Product) (target : RowTarget) :
  (List.length (clickRow product target) <= 1)%nat
  /\ (forall productId,
        In (onViewProduct productId) (clickRow product target)
        <-> productId = id product /\ (target = ViewButton \/ target = DataCell))
  /\ (forall productId action,
        In (onNavigateToUpdateStock productId action) (clickRow product target)
        <-> productId = id product
            /\ ((target = RestockButton /\ action = restockAction)
                \/ (target = SellButton /\ action = sellAction
                    /\ Dashboard.sellDisabled product = false))).
Proof.
  unfold clickRow, clickPath, Dashboard.sellDisabled.
  destruct target; try destruct (quantity product =? 0); cbn;
    (split; [lia |]); split; intros;
    intuition (try discriminate; try congruence);
    repeat match goal with
      | H : onViewProduct _ = onViewProduct _ |- _ => injection H as H
      | H : onNavigateToUpdateStock _ _ = onNavigateToUpdateStock _ _ |- _ =>
          injection H as H ?
      end; subst; auto; try discriminate.
Qed.

(* ================================================================== *)
(** * The sidebar *)

(** X15. Whatever the current page, at most one sidebar entry is
    highlighted, and one is exactly when the page is the id of an entry.
    After a click on an entry (the page passed to [onPageChange] becoming
    the current page) that entry, and it alone, is highlighted; and the
    page that the profile menu navigates to is the one of the Settings
    entry. *)
Theorem one_nav_entry_highlighted (currentPage : string) :
  let highlighted := filter (Layout.isActive currentPage) Layout.navigation in
  (List.length highlighted <= 1)%nat
  /\ (highlighted <> [] <-> In currentPage (map Layout.navId Layout.navigation))
  /\ (forall item,
        In item Layout.navigation ->
        filter (Layout.isActive (Layout.clickNav item)) Layout.navigation = [item])
  /\ filter (Layout.isActive Layout.onNavigateToSettings) Layout.navigation
     = [Layout.mkNavItem "settings" "Settings"].
Proof.
  cbn zeta. split; [| split; [| split]].
  - unfold Layout.navigation, Layout.isActive. cbn [filter Layout.navId].
    repeat match goal with
      | |- context [String.eqb ?a ?b] =>
          destruct (String.eqb_spec a b); subst; try discriminate
      end; cbn [List.length]; lia.
  - unfold Layout.navigation, Layout.isActive. cbn [filter map Layout.navId In].
    repeat match goal with
      | |- context [String.eqb ?a ?b] =>
          destruct (String.eqb_spec a b); subst; try discriminate
      end;
      (split; [intros H; try congruence; auto 10
              | intros H; try discriminate; intuition congruence]).
  - intros item Hin. cbn in Hin.
    repeat (destruct Hin as [<- | Hin]; [reflexivity |]). destruct Hin.
  - reflexivity.
Qed.

(* ================================================================== *)
(** * Re-entry while a call is in flight *)

Lemma clickRow_callbacks (product : Product) (target : RowTarget) (callback : RowCallback) :
  In callback (clickRow product target) ->
  callback = onViewProduct (id product)
  \/ exists action, callback = onNavigateToUpdateStock (id product) action.
Proof.
  unfold clickRow, clickPath.
  destruct target; try destruct (quantity product =? 0); cbn;
    intros H; repeat (destruct H as [<- | H]; eauto); contradiction.
Qed.

(** C5, amended. Only the export handlers test their flag: while
    [isExporting] is set they return at once.  [handleSubmit],
    [handleRestock] and [handleSell] set their flag ([loading],
    [processingId]) before the call and clear it when the call settles,
    whatever the outcome, without testing it.  For the form the guard is
    the submit button, disabled while [loading]: a click on it then does
    nothing, and over every series of input changes, clicks and
    settlements at most one [onAddProduct] call is in flight, one exactly
    while [loading] is set.  No control of the Dashboard table invokes
    [handleRestock] or [handleSell]: a click in a row invokes
    [onViewProduct] or [onNavigateToUpdateStock] only. *)
Theorem reentry_prevented_at_controls :
  (forall products now (i : Instance Reports.State) kind,
     state i = Some kind ->
     step i (Trigger (Reports.exportToPDF products now)) = i
     /\ step i (Trigger (Reports.exportToExcel products now)) = i)
  /\ (forall s,
        AddProduct.loading (final (run AddProduct.handleSubmit s [])) = true
        /\ forall o, AddProduct.loading (final (run AddProduct.handleSubmit s [o])) = false)
  /\ (forall i, AddProduct.submitDisabled (state i) = true -> formStep i SubmitForm = i)
  /\ (forall s evs,
        AddProduct.loading s = false ->
        (List.length (inflight (formRun s evs)) <= 1)%nat
        /\ (AddProduct.loading (state (formRun s evs)) = true
            <-> inflight (formRun s evs) <> []))
  /\ (forall products product s,
        NoDup (map id products) ->
        In product products ->
        let restock := Dashboard.handleRestock products (id product) in
        Dashboard.processingId (final (run restock s [])) = Some (id product)
        /\ forall o, Dashboard.processingId (final (run restock s [o])) = None)
  /\ (forall products product s,
        NoDup (map id products) ->
        In product products ->
        0 < quantity product ->
        let sell := Dashboard.handleSell products (id product) in
        Dashboard.processingId (final (run sell s [])) = Some (id product)
        /\ forall o, Dashboard.processingId (final (run sell s [o])) = None)
  /\ (forall product target callback,
        In callback (clickRow product target) ->
        callback = onViewProduct (id product)
        \/ exists action, callback = onNavigateToUpdateStock (id product) action).
Proof.
  split; [intros products now i kind; apply export_ignored_while_exporting |].
  split; [intros s; split; [reflexivity | intros [| e]; reflexivity] |].
  split; [intros i Hdis; cbn [formStep]; now rewrite Hdis |].
  split.
  { intros s evs Hidle.
    assert (Hinv : formInvariant (formRun s evs)).
    { apply formInvariant_run. unfold formInvariant, mount; cbn. auto. }
    destruct Hinv as [_ [_ [[Hs Hfl] | [k [Hs [Hfl _]]]]]]; rewrite Hs, Hfl; cbn;
      (split; [lia | split; try discriminate; congruence]). }
  split.
  { intros products product s Hnd Hin restock. unfold restock, Dashboard.handleRestock.
    rewrite (find_by_id products product Hnd Hin).
    split; [reflexivity | intros [| e]; reflexivity]. }
  split; [| apply clickRow_callbacks].
  intros products product s Hnd Hin Hpos sell. unfold sell, Dashboard.handleSell.
  rewrite (find_by_id products product Hnd Hin).
  replace (0 <? quantity product) with true by (symmetry; apply Z.ltb_lt; exact Hpos).
  split; [reflexivity | intros [| e]; reflexivity].
Qed.
